(** * zrepl: replication-progress bookkeeping (endpoint/endpoint_zfs.go,
      endpoint/jobid.go, zfs/versions.go)

    A shallow embedding of the name codec, the JobID type and the progress
    marker engine, together with the properties of the specification that
    concern them. *)

From Stdlib Require Import String Ascii List NArith ZArith Arith Bool Lia.
From Stdlib Require Import DecimalString DecimalPos DecimalN.
Import ListNotations.
Local Open Scope string_scope.

(** ** Errors and results

    Go functions return [(value, error)] and may panic.  An [error] keeps the
    distinguishable kinds the engine dispatches on and the wrapping done with
    [errors.Wrap]. *)

Inductive error : Type :=
| ErrMsg (msg : string)
| DatasetDoesNotExist (path : string)
| BookmarkExists (path : string)
| ErrBookmarkCloningNotSupported
| Wrap (cause : error) (msg : string).

Inductive result (A : Type) : Type :=
| Ok (a : A)
| Err (e : error)
| Panic (msg : string).
Arguments Ok {A} a.
Arguments Err {A} e.
Arguments Panic {A} msg.

Definition is_ok {A} (r : result A) : bool :=
  match r with Ok _ => true | _ => false end.

Definition is_err {A} (r : result A) : bool :=
  match r with Err _ => true | _ => false end.

Definition bind {A B} (r : result A) (k : A -> result B) : result B :=
  match r with
  | Ok a => k a
  | Err e => Err e
  | Panic m => Panic m
  end.

(** [wrap r msg] is the idiom [if err != nil { return errors.Wrap(err, msg) }]. *)
Definition wrap {A} (r : result A) (msg : string) : result A :=
  match r with
  | Err e => Err (Wrap e msg)
  | _ => r
  end.

Declare Scope result_scope.
Delimit Scope result_scope with result.
Notation "'let*' x ':=' r 'in' k" := (bind r (fun x => k))
  (at level 10, x pattern, r at level 100, k at level 200) : result_scope.
Local Open Scope result_scope.

(** ** Strings as byte sequences *)

Module Bytes.

Definition contains (c : ascii) (s : string) : bool :=
  existsb (Ascii.eqb c) (list_ascii_of_string s).

(** [cut c s] splits [s] around the first occurrence of [c]. *)
Fixpoint cut (c : ascii) (s : string) : option (string * string) :=
  match s with
  | EmptyString => None
  | String a rest =>
      if Ascii.eqb a c then Some (EmptyString, rest)
      else match cut c rest with
           | Some (l, r) => Some (String a l, r)
           | None => None
           end
  end.

(** [strings.SplitN(s, sep, 2)] for a one-byte separator. *)
Definition SplitN2 (s : string) (sep : ascii) : list string :=
  match cut sep s with
  | Some (l, r) => [l; r]
  | None => [s]
  end.

(** [strip_prefix p s] is the rest of [s] after the literal [p]. *)
Fixpoint strip_prefix (p s : string) : option string :=
  match p with
  | EmptyString => Some s
  | String a p' =>
      match s with
      | EmptyString => None
      | String b s' => if Ascii.eqb a b then strip_prefix p' s' else None
      end
  end.

End Bytes.

(** ** zfs/versions.go *)

Inductive VersionType : Type := Bookmark | Snapshot.

Definition VersionType_eqb (a b : VersionType) : bool :=
  match a, b with
  | Bookmark, Bookmark | Snapshot, Snapshot => true
  | _, _ => false
  end.

Definition DelimiterChar (t : VersionType) : string :=
  match t with
  | Bookmark => "#"
  | Snapshot => "@"
  end.

Definition DecomposeVersionString (v : string)
  : result (string * VersionType * string) :=
  if (String.length v <? 3)%nat then
    Err (ErrMsg ("snapshot or bookmark name implausibly short: " ++ v))
  else
    let snapSplit := Bytes.SplitN2 v "@"%char in
    let bookmarkSplit := Bytes.SplitN2 v "#"%char in
    if negb (List.length snapSplit * List.length bookmarkSplit =? 2)%nat then
      Err (ErrMsg
        ("dataset cannot be snapshot and bookmark at the same time: " ++ v))
    else if (List.length snapSplit =? 2)%nat then
      Ok (nth 0 snapSplit EmptyString, Snapshot, nth 1 snapSplit EmptyString)
    else
      Ok (nth 0 bookmarkSplit EmptyString, Bookmark, nth 1 bookmarkSplit EmptyString).

Record FilesystemVersion : Type := mkVersion {
  Type_ : VersionType;
  (* Display name: the portion after the delimiter. *)
  Name : string;
  (* GUID as exported by ZFS (uint64). *)
  Guid : N;
  (* The TXG in which the snapshot was created (uint64). *)
  CreateTXG : N;
  (* Creation time, seconds since the epoch. *)
  Creation : Z
}.

(** [DatasetPath] is an opaque handle whose string form is recoverable. *)
Record DatasetPath : Type := mkDatasetPath { ToString : string }.

Definition ToAbsPath (v : FilesystemVersion) (p : DatasetPath) : string :=
  ToString p ++ DelimiterChar (Type_ v) ++ Name v.

(** ** Rendering of errors ([err.Error()]) *)

Fixpoint Error (e : error) : string :=
  match e with
  | ErrMsg m => m
  | DatasetDoesNotExist p => "dataset " ++ p ++ " does not exist"
  | BookmarkExists p => "bookmark " ++ p ++ " already exists"
  | ErrBookmarkCloningNotSupported => "bookmark cloning feature is not yet supported by ZFS"
  | Wrap c m => m ++ ": " ++ Error c
  end.

(** ** The scanner of Go's [fmt] package, as far as [Sscanf] with the format
    ["zrepl_STEP_G_%016x_J_%s"] exercises it

    The scanner reads runes.  A byte that does not start a well-formed UTF-8
    sequence is read as the one-byte rune [RuneError]; when such a rune is
    copied into a token it is written back as the encoding of U+FFFD. *)

Module Fmt.

Definition byte (a : ascii) : N := N_of_ascii a.

Definition between (lo hi b : N) : bool := ((lo <=? b) && (b <=? hi))%N.

Definition cont (a : ascii) : bool := between 128 191 (byte a).

(** Width in bytes of the well-formed rune at the head of [s]; [0] when [s] is
    empty or its first byte is read as [RuneError] ([utf8.DecodeRune]). *)
Definition RuneWidth (s : string) : nat :=
  match s with
  | EmptyString => 0
  | String a r =>
      let b0 := byte a in
      if (b0 <? 128)%N then 1
      else
        match r with
        | EmptyString => 0
        | String a1 r1 =>
            let b1 := byte a1 in
            if between 194 223 b0 then (if cont a1 then 2 else 0)
            else
              let second_ok :=
                if (b0 =? 224)%N then between 160 191 b1
                else if (b0 =? 237)%N then between 128 159 b1
                else if (b0 =? 240)%N then between 144 191 b1
                else if (b0 =? 244)%N then between 128 143 b1
                else cont a1 in
              match r1 with
              | EmptyString => 0
              | String a2 r2 =>
                  if between 224 239 b0 then
                    (if second_ok && cont a2 then 3 else 0)
                  else if between 240 244 b0 then
                    match r2 with
                    | String a3 _ =>
                        if second_ok && cont a2 && cont a3 then 4 else 0
                    | EmptyString => 0
                    end
                  else 0
              end
        end
  end.

(** Width of the white space rune at the head of [s], if there is one
    ([isSpace]: U+0009..U+000D, U+0020, U+0085, U+00A0, U+1680,
    U+2000..U+200A, U+2028, U+2029, U+202F, U+205F, U+3000). *)
Definition SpaceWidth (s : string) : nat :=
  match s with
  | EmptyString => 0
  | String a r =>
      let b0 := byte a in
      if between 9 13 b0 || (b0 =? 32)%N then 1
      else
        match r with
        | EmptyString => 0
        | String a1 r1 =>
            let b1 := byte a1 in
            if (b0 =? 194)%N && ((b1 =? 133)%N || (b1 =? 160)%N) then 2
            else
              match r1 with
              | EmptyString => 0
              | String a2 _ =>
                  let b2 := byte a2 in
                  if (b0 =? 225)%N && (b1 =? 154)%N && (b2 =? 128)%N then 3
                  else if (b0 =? 226)%N && (b1 =? 128)%N
                          && (between 128 138 b2 || between 168 169 b2
                              || (b2 =? 175)%N) then 3
                  else if (b0 =? 226)%N && (b1 =? 129)%N && (b2 =? 159)%N then 3
                  else if (b0 =? 227)%N && (b1 =? 128)%N && (b2 =? 128)%N then 3
                  else 0
              end
        end
  end.

Definition newline : ascii := ascii_of_N 10.
Definition carriage_return : ascii := ascii_of_N 13.

(** [SkipSpace] with [nlIsSpace = false]: white space is skipped, a newline
    (also after a carriage return) is an error.  [pend] counts the bytes of
    the white space rune under the cursor that are still to be skipped. *)
Fixpoint SkipSpaceFrom (pend : nat) (s : string) : result string :=
  match s with
  | EmptyString => Ok EmptyString
  | String a r =>
      match pend with
      | S k => SkipSpaceFrom k r
      | O =>
          if Ascii.eqb a newline then Err (ErrMsg "unexpected newline")
          else
            match SpaceWidth s with
            | O => Ok s
            | S k => SkipSpaceFrom k r
            end
      end
  end.

Definition SkipSpace (s : string) : result string := SkipSpaceFrom 0 s.

(** [advance] over a literal without white space or verbs: every rune of the
    format must be read from the input. *)
Definition advance_literal (lit input : string) : result string :=
  match Bytes.strip_prefix lit input with
  | Some rest => Ok rest
  | None =>
      if (String.length input <? String.length lit)%nat
         && match Bytes.strip_prefix input lit with Some _ => true | None => false end
      then Err (ErrMsg "unexpected EOF")
      else Err (ErrMsg "input does not match format")
  end.

Definition hexval (a : ascii) : option N :=
  let b := byte a in
  if between 48 57 b then Some (b - 48)%N
  else if between 97 102 b then Some (b - 87)%N
  else if between 65 70 b then Some (b - 55)%N
  else None.

(** [accept] of hexadecimal digits, at most [width] runes. *)
Fixpoint scanHex (width : nat) (s : string) : string * string :=
  match width, s with
  | S w, String a r =>
      match hexval a with
      | Some _ => let (tok, rest) := scanHex w r in (String a tok, rest)
      | None => (EmptyString, s)
      end
  | _, _ => (EmptyString, s)
  end.

(** [strconv.ParseUint(tok, 16, 64)] on a token of at most 16 digits. *)
Definition ParseHex (tok : string) : N :=
  fold_left (fun acc a =>
               match hexval a with
               | Some d => (16 * acc + d)%N
               | None => acc
               end) (list_ascii_of_string tok) 0%N.

(** [scanUint] for the verb [%x] under a width: [notEOF], then [scanNumber]. *)
Definition scanUintHex (width : nat) (s : string) : result (N * string) :=
  match s with
  | EmptyString => Err (ErrMsg "EOF")
  | _ =>
      let (tok, rest) := scanHex width s in
      match tok with
      | EmptyString => Err (ErrMsg "expected integer")
      | _ => Ok (ParseHex tok, rest)
      end
  end.

Definition RuneError : string :=
  String (ascii_of_N 239) (String (ascii_of_N 191) (String (ascii_of_N 189) EmptyString)).

(** [token(true, notSpace)] after the white space was skipped: runes are
    copied up to the next white space rune or the end of the input.  [pend]
    counts the bytes of the rune under the cursor that are still to be
    copied. *)
Fixpoint token (pend : nat) (s : string) : string * string :=
  match s with
  | EmptyString => (EmptyString, EmptyString)
  | String a r =>
      match pend with
      | S k => let (tok, rest) := token k r in (String a tok, rest)
      | O =>
          match SpaceWidth s with
          | S _ => (EmptyString, s)
          | O =>
              match RuneWidth s with
              | O => let (tok, rest) := token 0 r in (RuneError ++ tok, rest)
              | S k => let (tok, rest) := token k r in (String a tok, rest)
              end
          end
      end
  end.

(** [convertString] for the verb [%s]. *)
Definition convertString (s : string) : result (string * string) :=
  let* s1 := SkipSpace s in
  match s1 with
  | EmptyString => Err (ErrMsg "EOF")
  | _ => Ok (token 0 s1)
  end.

(** [fmt.Sscanf(input, "zrepl_STEP_G_%016x_J_%s", &guid, &jobIDStr)]. *)
Definition Sscanf_stepBookmark (input : string) : result (N * string) :=
  let* r1 := advance_literal "zrepl_STEP_G_" input in
  let* r2 := SkipSpace r1 in
  let* (guid, r3) := scanUintHex 16 r2 in
  let* r4 := advance_literal "_J_" r3 in
  let* r5 := SkipSpace r4 in
  let* (jobIDStr, _) := convertString r5 in
  Ok (guid, jobIDStr).

Definition hexdigit (d : N) : ascii :=
  if (d <? 10)%N then ascii_of_N (48 + d) else ascii_of_N (87 + d).

(** [fmt.Sprintf("%016x", guid)] for a [uint64]. *)
Definition Sprintf_016x (guid : N) : string :=
  string_of_list_ascii
    (map (fun i => hexdigit ((guid / 16 ^ N.of_nat i) mod 16)%N)
         (rev (seq 0 16))).

End Fmt.

(** ** The two regular expressions of the hold tag decoders

    [.] matches every rune but the newline; without the [m] flag [$] matches
    at the end of the text only. *)

Module Regexp.

Fixpoint until_newline (s : string) : string :=
  match s with
  | EmptyString => EmptyString
  | String a r =>
      if Ascii.eqb a Fmt.newline then EmptyString else String a (until_newline r)
  end.

(** [regexp.MustCompile("^zrepl_STEP_J_(.+)").FindStringSubmatch(tag)],
    giving [match[1]]. *)
Definition stepHoldTagRE (tag : string) : option string :=
  match Bytes.strip_prefix "zrepl_STEP_J_" tag with
  | Some rest =>
      match until_newline rest with
      | EmptyString => None
      | m => Some m
      end
  | None => None
  end.

(** [regexp.MustCompile("^zrepl_last_received_J_(.+)$").FindStringSubmatch(tag)],
    giving [match[1]]. *)
Definition lastReceivedHoldTagRE (tag : string) : option string :=
  match Bytes.strip_prefix "zrepl_last_received_J_" tag with
  | Some rest =>
      match rest with
      | EmptyString => None
      | _ => if Bytes.contains Fmt.newline rest then None else Some rest
      end
  | None => None
  end.

End Regexp.

(** ** The ZFS store behind the capability port

    The driver of package [zfs] that runs the [zfs] binary is not among the
    files embedded here; its operations are modelled on a store of
    datasets. *)

(** Modelled from the spec: [zfs.ZFSSendArgVersion], the reference to a
    version a caller hands in: its name relative to the filesystem, starting
    with the delimiter, and the GUID the caller expects it to have. *)
Record ZFSSendArgVersion : Type := mkSendArg {
  RelName : string;
  GUID : N
}.

(** Modelled from the spec: the [{create_txg, guid}] pair
    [GetCreateTXGAndGuid] returns. *)
Record ZFSPropCreateTxgAndGuidProps : Type := mkProps {
  PropCreateTXG : N;
  PropGuid : N
}.

(** One snapshot or bookmark of the store, with the user holds it carries. *)
Record Dataset : Type := mkDataset {
  Filesystem : string;
  Version : FilesystemVersion;
  Holds : list string
}.

(** [BookmarkCloning] tells whether the pool can bookmark a bookmark. *)
Record Pool : Type := mkPool {
  Datasets : list Dataset;
  BookmarkCloning : bool
}.

Definition AbsPath (d : Dataset) : string :=
  ToAbsPath (Version d) (mkDatasetPath (Filesystem d)).

Definition at_path (path : string) (d : Dataset) : bool :=
  String.eqb (AbsPath d) path.

Definition find_path (p : Pool) (path : string) : option Dataset :=
  find (at_path path) (Datasets p).

Definition has_tag (tag : string) (d : Dataset) : bool :=
  existsb (String.eqb tag) (Holds d).

Definition add_tag (tag : string) (d : Dataset) : Dataset :=
  if has_tag tag d then d
  else mkDataset (Filesystem d) (Version d) (Holds d ++ [tag]).

Definition remove_tag (tag : string) (d : Dataset) : Dataset :=
  mkDataset (Filesystem d) (Version d)
            (filter (fun t => negb (String.eqb tag t)) (Holds d)).

Definition update (f : Dataset -> Dataset) (sel : Dataset -> bool) (p : Pool)
  : Pool :=
  mkPool (map (fun d => if sel d then f d else d) (Datasets p))
         (BookmarkCloning p).

(** Modelled from the spec: [ZFSSendArgVersion.FullPath], the fully-qualified
    path [<filesystem><delim><name>]. *)
Definition FullPath (v : ZFSSendArgVersion) (fs : string) : string :=
  fs ++ RelName v.

(** Modelled from the spec: [ZFSSendArgVersion.IsSnapshot], the delimiter is
    [@] for snapshots. *)
Definition IsSnapshot (v : ZFSSendArgVersion) : bool :=
  match RelName v with
  | String a _ => Ascii.eqb a "@"%char
  | EmptyString => false
  end.

(** Modelled from the spec: [ZFSSendArgVersion.MustBeBookmark], any type
    other than snapshot or bookmark is an invariant violation. *)
Definition MustBeBookmark (v : ZFSSendArgVersion) : result unit :=
  match RelName v with
  | String a _ =>
      if Ascii.eqb a "#"%char then Ok tt else Panic "must be bookmark"
  | EmptyString => Panic "must be bookmark"
  end.

(** Modelled from the spec: [GetCreateTXGAndGuid(fullPath)] gives
    [{create_txg, guid}] or fails with a distinguishable
    [DatasetDoesNotExist]. *)
Definition ZFSGetCreateTXGAndGuid (p : Pool) (path : string)
  : result ZFSPropCreateTxgAndGuidProps :=
  match find_path p path with
  | Some d => Ok (mkProps (CreateTXG (Version d)) (Guid (Version d)))
  | None => Err (DatasetDoesNotExist path)
  end.

(** Modelled from the spec: [ValidateExistsAndGetCheckedProps] validates that
    the argument refers to an existing version and fetches its
    [{create_txg, guid}]. *)
Definition ValidateExistsAndGetCheckedProps (p : Pool) (v : ZFSSendArgVersion)
  (fs : string) : result ZFSPropCreateTxgAndGuidProps :=
  if negb (IsSnapshot v) && negb (is_ok (MustBeBookmark v)) then
    Err (ErrMsg "`RelName` field must start with @ or #")
  else
    let* props := ZFSGetCreateTXGAndGuid p (FullPath v fs) in
    if (PropGuid props =? GUID v)%N then Ok props
    else Err (ErrMsg "zfs send arg version: guid mismatch").

(** Modelled from the spec: [ValidateExists], the same check without the
    properties. *)
Definition ValidateExists (p : Pool) (v : ZFSSendArgVersion) (fs : string)
  : result unit :=
  let* _ := ValidateExistsAndGetCheckedProps p v fs in Ok tt.

(** Modelled from the spec: [Hold(dataset, version, tag)]; re-holding with the
    same tag on the same snapshot is a no-op. *)
Definition ZFSHold (p : Pool) (fs : string) (v : ZFSSendArgVersion)
  (tag : string) : result Pool :=
  match find_path p (FullPath v fs) with
  | None => Err (DatasetDoesNotExist (FullPath v fs))
  | Some d =>
      match Type_ (Version d) with
      | Snapshot => Ok (update (add_tag tag) (at_path (FullPath v fs)) p)
      | Bookmark => Err (ErrMsg "operation not applicable to datasets of this type")
      end
  end.

(** Modelled from the spec: [Release(tag, fullPath)] takes the hold [tag]
    off the snapshot at [fullPath].  The spec does not say what the release
    of a tag the snapshot does not carry reports: [absent] is that report,
    [None] for success, and the store stays as it is either way. *)
Definition ZFSRelease (absent : option error) (p : Pool) (tag path : string)
  : result Pool :=
  match find_path p path with
  | None => Err (DatasetDoesNotExist path)
  | Some d =>
      match (if has_tag tag d then None else absent) with
      | Some e => Err e
      | None => Ok (update (remove_tag tag) (at_path path) p)
      end
  end.

(** Modelled from the spec: [ListHolds(dataset, snapName)]. *)
Definition ZFSHolds (p : Pool) (fs snap : string) : result (list string) :=
  match find_path p (fs ++ "@" ++ snap) with
  | None => Err (DatasetDoesNotExist (fs ++ "@" ++ snap))
  | Some d => Ok (Holds d)
  end.

(** Modelled from the spec: [Destroy(fullPath)]; a user hold prevents the
    deletion of the snapshot that carries it. *)
Definition ZFSDestroy (p : Pool) (path : string) : result Pool :=
  match find_path p path with
  | None => Err (DatasetDoesNotExist path)
  | Some d =>
      match Holds d with
      | [] => Ok (mkPool (filter (fun d => negb (at_path path d)) (Datasets p))
                         (BookmarkCloning p))
      | _ :: _ => Err (ErrMsg "dataset is busy")
      end
  end.

(** Modelled from the spec: [DestroyIdempotent(fullPath)], the idempotent form
    treats "does not exist" as success. *)
Definition ZFSDestroyIdempotent (p : Pool) (path : string) : result Pool :=
  match ZFSDestroy p path with
  | Err (DatasetDoesNotExist _) => Ok p
  | r => r
  end.

(** Modelled from the spec: [Bookmark(dataset, source, newName)] with its
    idempotency contract: a destroyed source fails with
    [DatasetDoesNotExist]; an existing bookmark of that name is success when
    its GUID equals the source's and [BookmarkExists] otherwise; bookmarking a
    bookmark fails with [BookmarkCloningNotSupported] on a pool without the
    feature; else the bookmark is created from the source, whose GUID and
    create_txg it inherits. *)
Definition ZFSBookmark (p : Pool) (fs : string) (v : ZFSSendArgVersion)
  (bookmark : string) : result Pool :=
  match find_path p (FullPath v fs) with
  | None => Err (DatasetDoesNotExist (FullPath v fs))
  | Some src =>
      match find_path p (fs ++ "#" ++ bookmark) with
      | Some bm =>
          if (Guid (Version bm) =? Guid (Version src))%N then Ok p
          else Err (BookmarkExists (fs ++ "#" ++ bookmark))
      | None =>
          match Type_ (Version src), BookmarkCloning p with
          | Bookmark, false => Err ErrBookmarkCloningNotSupported
          | _, _ =>
              Ok (mkPool
                    (Datasets p ++
                     [mkDataset fs
                        (mkVersion Bookmark bookmark (Guid (Version src))
                           (CreateTXG (Version src)) (Creation (Version src)))
                        []])
                    (BookmarkCloning p))
          end
      end
  end.

Definition in_fs (fs : string) (d : Dataset) : bool :=
  String.eqb (Filesystem d) fs.

Definition is_snapshot (d : Dataset) : bool :=
  VersionType_eqb (Type_ (Version d)) Snapshot.

(** Modelled from the spec: the batch release by create_txg relative to the
    referenced version.  The "including" variant releases every hold with the
    given tag on snapshots whose create_txg is at most the referenced
    create_txg; "older than" uses strict less-than. *)
Definition ZFSReleaseAllOlder (including : bool) (p : Pool) (fs : string)
  (guid : N) (tag : string) : result Pool :=
  match find (fun d => in_fs fs d && (Guid (Version d) =? guid)%N)
             (Datasets p) with
  | None => Err (ErrMsg "cannot find snapshot or bookmark with guid")
  | Some ref =>
      let bound := CreateTXG (Version ref) in
      let older d :=
        if including then (CreateTXG (Version d) <=? bound)%N
        else (CreateTXG (Version d) <? bound)%N in
      Ok (update (remove_tag tag)
                 (fun d => in_fs fs d && is_snapshot d && older d) p)
  end.

Definition ZFSReleaseAllOlderAndIncludingGUID := ZFSReleaseAllOlder true.
Definition ZFSReleaseAllOlderThanGUID := ZFSReleaseAllOlder false.

(** One row of [zfs list], or the error that ended the listing. *)
Inductive ZFSListResult : Type :=
| ListFields (fields : list string)
| ListErrUnexpectedEOF
| ListErr (e : error).

Fixpoint insert_by_txg (d : Dataset) (l : list Dataset) : list Dataset :=
  match l with
  | [] => [d]
  | x :: rest =>
      if (CreateTXG (Version d) <=? CreateTXG (Version x))%N then d :: l
      else x :: insert_by_txg d rest
  end.

Definition sort_by_txg (l : list Dataset) : list Dataset :=
  fold_right insert_by_txg [] l.

Definition decimal (n : N) : string := NilEmpty.string_of_uint (N.to_uint n).

Definition decimalZ (z : Z) : string :=
  match z with
  | Zneg q => "-" ++ decimal (Npos q)
  | _ => decimal (Z.to_N z)
  end.

(** Modelled from the spec: [ListVersions(dataset, filter)] lists the
    snapshots and bookmarks of a dataset sorted ascending by create_txg; the
    driver delivers the columns name, guid, createtxg and creation of each
    as text. *)
Definition ZFSListChan (p : Pool) (fs : string) : list ZFSListResult :=
  map (fun d => ListFields [AbsPath d; decimal (Guid (Version d));
                            decimal (CreateTXG (Version d));
                            decimalZ (Creation (Version d))])
      (sort_by_txg (filter (in_fs fs) (Datasets p))).

(** ** strconv *)

Module Strconv.

Definition digit (a : ascii) : option N :=
  let b := N_of_ascii a in
  if ((48 <=? b) && (b <=? 57))%N then Some (b - 48)%N else None.

Fixpoint digits (acc : N) (s : string) : option N :=
  match s with
  | EmptyString => Some acc
  | String a r =>
      match digit a with
      | Some d => digits (10 * acc + d)%N r
      | None => None
      end
  end.

(** [strconv.ParseUint(s, 10, 64)]. *)
Definition ParseUint (s : string) : result N :=
  match s with
  | EmptyString => Err (ErrMsg "strconv.ParseUint: invalid syntax")
  | _ =>
      match digits 0 s with
      | None => Err (ErrMsg "strconv.ParseUint: invalid syntax")
      | Some n =>
          if (n <? 2 ^ 64)%N then Ok n
          else Err (ErrMsg "strconv.ParseUint: value out of range")
      end
  end.

(** [strconv.ParseInt(s, 10, 64)]. *)
Definition ParseInt (s : string) : result Z :=
  let '(neg, body) :=
    match s with
    | String "-"%char r => (true, r)
    | String "+"%char r => (false, r)
    | _ => (false, s)
    end in
  match body with
  | EmptyString => Err (ErrMsg "strconv.ParseInt: invalid syntax")
  | _ =>
      match digits 0 body with
      | None => Err (ErrMsg "strconv.ParseInt: invalid syntax")
      | Some n =>
          if neg then
            if (n <=? 2 ^ 63)%N then Ok (- Z.of_N n)%Z
            else Err (ErrMsg "strconv.ParseInt: value out of range")
          else
            if (n <? 2 ^ 63)%N then Ok (Z.of_N n)
            else Err (ErrMsg "strconv.ParseInt: value out of range")
      end
  end.

End Strconv.

(** The entity types [zfs.EntityNamecheck] is asked about. *)
Inductive EntityType : Type := EntityTypeSnapshot | EntityTypeBookmark.

(** ** Reference validators

    [zfs.NewDatasetPath], [zfs.ValidHoldTag] and [zfs.EntityNamecheck] are
    not among the files embedded here.  The engine below is parametric in them;
    the validators here instantiate it in examples. *)

Module ZFSNames.

Definition legal_char (a : ascii) : bool :=
  let b := N_of_ascii a in
  (((48 <=? b) && (b <=? 57)) || ((65 <=? b) && (b <=? 90))
   || ((97 <=? b) && (b <=? 122)))%N
  || existsb (Ascii.eqb a) (list_ascii_of_string "-_.: ").

Definition legal_name (s : string) : bool :=
  forallb legal_char (list_ascii_of_string s).

Fixpoint slashes_ok (s : string) : bool :=
  match s with
  | EmptyString => true
  | String a r =>
      match r with
      | EmptyString => negb (Ascii.eqb a "/")
      | String b _ =>
          negb (Ascii.eqb a "/" && Ascii.eqb b "/") && slashes_ok r
      end
  end.

(** Modelled from the spec: the verdict of [zfs.NewDatasetPath].  Construction
    rejects illegal names (ZFS name rules: non-empty, no consecutive slashes,
    no trailing slash, legal character set). *)
Definition DatasetPathCheck (s : string) : option error :=
  match s with
  | EmptyString => Some (ErrMsg "must not be empty")
  | _ =>
      if negb (forallb (fun a => legal_char a || Ascii.eqb a "/")
                       (list_ascii_of_string s)) then
        Some (ErrMsg "contains forbidden characters")
      else if negb (slashes_ok s) then
        Some (ErrMsg "must not contain consecutive slashes or end with a '/'")
      else None
  end.

(** Modelled from the spec: [zfs.ValidHoldTag], the ZFS hold-tag validity the
    tag encoders require of their result; ZFS bounds the length of a tag. *)
Definition ValidHoldTag (tag : string) : option error :=
  if (255 <? String.length tag)%nat then
    Some (ErrMsg "hold tag exceeds max length")
  else None.

(** Modelled from the spec: [zfs.EntityNamecheck], the ZFS snapshot and
    bookmark name validity: the path is [<filesystem><delim><name>] with the
    delimiter of the entity type, and the other delimiter does not occur. *)
Definition EntityNamecheck (path : string) (t : EntityType) : option error :=
  let '(delim, other) :=
    match t with
    | EntityTypeSnapshot => ("@"%char, "#"%char)
    | EntityTypeBookmark => ("#"%char, "@"%char)
    end in
  if Bytes.contains other path then
    Some (ErrMsg "delimiter is not expected here")
  else
    match Bytes.cut delim path with
    | None => Some (ErrMsg "missing delimiter")
    | Some (fs, name) =>
        match DatasetPathCheck fs with
        | Some e => Some e
        | None =>
            match name with
            | EmptyString => Some (ErrMsg "empty component")
            | _ => if legal_name name then None
                   else Some (ErrMsg "invalid character in name")
            end
        end
    end.

End ZFSNames.

(** ** encoding/json, as far as a [string] destination exercises it

    [json.Unmarshal(b, &str)] stores a JSON string, leaves the destination
    alone on [null] and fails on every other document. *)

Inductive JSONDocument : Type :=
| JSONString (s : string)
| JSONNull
| JSONOther (kind : string)
| JSONInvalid.

Definition json_Unmarshal_string (b : JSONDocument) (dst : string)
  : result string :=
  match b with
  | JSONString s => Ok s
  | JSONNull => Ok dst
  | JSONOther kind =>
      Err (ErrMsg ("json: cannot unmarshal " ++ kind
                   ++ " into Go value of type string"))
  | JSONInvalid => Err (ErrMsg "invalid character looking for beginning of value")
  end.

Definition json_Marshal_string (s : string) : result JSONDocument :=
  Ok (JSONString s).

(** ** endpoint/jobid.go and the name codec of endpoint/endpoint_zfs.go *)

Record JobID : Type := mkJobID { jid : string }.

Definition JobID_eqb (a b : JobID) : bool := String.eqb (jid a) (jid b).

Definition ReplicationCursorBookmarkName : string := "zrepl_replication_cursor".

(** ** Example stores *)

Module Example.

Definition fs : string := "tank/fs".

Definition job : JobID := mkJobID "myjob".

(** A job id of 250 bytes: a legal dataset path, and the hold tags built from
    it are longer than the 255 bytes of a hold tag. *)
Definition longJob : string := string_of_list_ascii (repeat "a"%char 250).

(** The report of a release of a tag that is not held, as [zfs release]
    words it. *)
Definition releaseAbsent : option error :=
  Some (ErrMsg "no such tag on this dataset").

Definition snapshot (name : string) (guid txg : N) (holds : list string)
  : Dataset :=
  mkDataset fs (mkVersion Snapshot name guid txg 0%Z) holds.

Definition bookmark (name : string) (guid txg : N) : Dataset :=
  mkDataset fs (mkVersion Bookmark name guid txg 0%Z) [].

(** Six snapshots with create_txg 1..6; the job's step hold on four of them
    and a foreign hold on the second; the job's step bookmarks of the first
    and of the fifth snapshot and a foreign bookmark. *)
Definition rollupPool : Pool :=
  mkPool
    [snapshot "1" 101 1 ["zrepl_STEP_J_myjob"];
     snapshot "2" 102 2 ["zrepl_platformtest_2"];
     snapshot "3" 103 3 ["zrepl_STEP_J_myjob"];
     snapshot "4" 104 4 [];
     snapshot "5" 105 5 ["zrepl_STEP_J_myjob"];
     snapshot "6" 106 6 ["zrepl_STEP_J_myjob"];
     bookmark "zrepl_STEP_G_0000000000000065_J_myjob" 101 1;
     bookmark "other" 102 2;
     bookmark "zrepl_STEP_G_0000000000000069_J_myjob" 105 5]
    true.

(** Two snapshots, the older one with the last-received hold of the job. *)
Definition receivedPool : Pool :=
  mkPool
    [snapshot "a" 1 100 ["zrepl_last_received_J_myjob"];
     snapshot "b" 2 200 []]
    true.

(** Two snapshots and the replication cursor at the older one. *)
Definition cursorPool : Pool :=
  mkPool
    [snapshot "a" 1 100 [];
     snapshot "b" 2 200 [];
     bookmark "zrepl_replication_cursor" 1 100]
    true.

(** [rollupPool] after [HoldStep] on the bookmark [other]. *)
Definition steppedPool : Pool :=
  mkPool
    (Datasets rollupPool
     ++ [bookmark "zrepl_STEP_G_0000000000000066_J_myjob" 102 2])%list
    true.

End Example.

(** ** endpoint/endpoint_zfs.go: the records of the marker inventory *)

Record StepBookmark : Type := mkStepBookmark {
  sbm_FS : string;
  sbm_Name : string;
  sbm_Guid : N;
  sbm_JobID : JobID
}.

Record StepHold : Type := mkStepHold {
  sh_FS : string;
  sh_Snap : string;
  sh_JobID : JobID
}.

Record ListStepAllOutput : Type := mkListStepAllOutput {
  StepBookmarks : list StepBookmark;
  StepHolds : list StepHold
}.

Record LastReceivedHold : Type := mkLastReceivedHold {
  lrh_FS : string;
  lrh_Snap : string;
  lrh_Tag : string;
  lrh_JobID : JobID
}.

(** Modelled from the spec: [ListFilesystems(filter)] without a filter, the
    filesystems of the store, here those that have a version. *)
Definition ZFSListMapping (p : Pool) : result (list DatasetPath) :=
  Ok (map mkDatasetPath (nodup string_dec (map Filesystem (Datasets p)))).

Section Endpoint.

(** The validators of package [zfs] the endpoint code calls: the verdict of
    [zfs.NewDatasetPath] on a string, [zfs.ValidHoldTag] and
    [zfs.EntityNamecheck].  [None] is the [nil] error. *)
Variable DatasetPathCheck : string -> option error.
Variable ValidHoldTag : string -> option error.
Variable EntityNamecheck : string -> EntityType -> option error.

(** What [zfs.ZFSRelease] reports for a tag that is not held. *)
Variable ReleaseAbsent : option error.

Definition NewDatasetPath (s : string) : result DatasetPath :=
  match DatasetPathCheck s with
  | Some e => Err e
  | None => Ok (mkDatasetPath s)
  end.

Definition MakeJobID (s : string) : result JobID :=
  if (String.length s =? 0)%nat then
    Err (ErrMsg "must not be empty string")
  else
    match NewDatasetPath s with
    | Err e => Err (ErrMsg ("must be usable in a ZFS dataset path: " ++ Error e))
    | Panic m => Panic m
    | Ok _ => Ok (mkJobID s)
    end.

Definition MustMakeJobID (s : string) : result JobID :=
  match MakeJobID s with
  | Err e => Panic (Error e)
  | r => r
  end.

Definition expectInitialized (j : JobID) : result unit :=
  if String.eqb (jid j) EmptyString then Panic "use of unitialized JobID" else Ok tt.

Definition JobID_String (j : JobID) : result string :=
  let* _ := expectInitialized j in
  Ok (jid j).

Definition MarshalJSON (j : JobID) : result JSONDocument :=
  json_Marshal_string (jid j).

(** [UnmarshalJSON] writes through the receiver: on error the receiver is
    left as it was. *)
Definition UnmarshalJSON (j : JobID) (b : JSONDocument) : result JobID :=
  let* s := json_Unmarshal_string b (jid j) in
  Ok (mkJobID s).

Definition MustValidate (j : JobID) : result unit := expectInitialized j.

Definition StepHoldTag (jobid : JobID) : result string :=
  let* js := JobID_String jobid in
  let t := "zrepl_STEP_J_" ++ js in
  match ValidHoldTag t with
  | Some e => Err e
  | None => Ok t
  end.

Definition ParseStepHoldTag (tag : string) : result JobID :=
  match Regexp.stepHoldTagRE tag with
  | None => Err (ErrMsg "parse hold tag: match regex ^zrepl_STEP_J_(.+)")
  | Some m => wrap (MakeJobID m) "parse hold tag: invalid job id field"
  end.

Definition StepBookmarkName (fs : string) (guid : N) (id : JobID)
  : result string :=
  let* js := JobID_String id in
  let bmname := "zrepl_STEP_G_" ++ Fmt.Sprintf_016x guid ++ "_J_" ++ js in
  match EntityNamecheck (fs ++ "#" ++ bmname) EntityTypeBookmark with
  | Some e => Err e
  | None => Ok bmname
  end.

(** [name] is the full bookmark name, including dataset path. *)
Definition ParseStepBookmarkName (name : string) : result (N * JobID) :=
  match EntityNamecheck name EntityTypeBookmark with
  | Some e => Err (Wrap e "parse step bookmark")
  | None =>
      match Fmt.Sscanf_stepBookmark name with
      | Err e => Err (Wrap e "step boomark name does not match format string")
      | Panic m => Panic m
      | Ok (guid, jobIDStr) =>
          if (String.length jobIDStr =? 0)%nat then
            Err (ErrMsg "parse step bookmark: empty job id field")
          else
            let* jobID := wrap (MakeJobID jobIDStr)
                               "parse step bookmark: invalid job id" in
            Ok (guid, jobID)
      end
  end.

Definition ParseLastReceivedHoldTag (tag : string) : result JobID :=
  match Regexp.lastReceivedHoldTagRE tag with
  | None =>
      Err (ErrMsg ("parse last-received-hold tag: does not match regex "
                   ++ "^zrepl_last_received_J_(.+)$"))
  | Some m =>
      wrap (MakeJobID m) "parse last-received-hold tag: invalid job id field"
  end.

Definition LastReceivedHoldTag (jobID : JobID) : result string :=
  let* js := JobID_String jobID in
  let tag := "zrepl_last_received_J_" ++ js in
  match ValidHoldTag tag with
  | Some e => Err e
  | None => Ok tag
  end.

(** ** zfs/versions.go: listing *)

(** [line[i]]; indexing past the end of a slice panics. *)
Definition field (i : nat) (line : list string) : result string :=
  match nth_error line i with
  | Some s => Ok s
  | None => Panic "runtime error: index out of range"
  end.

Definition FilesystemVersionFilter : Type :=
  VersionType -> string -> result bool.

(** [listResults] is what the driver sends on the channel the function
    ranges over.  Returned versions are sorted by createtxg. *)
Fixpoint ZFSListFilesystemVersions_loop (listResults : list ZFSListResult)
  (filter : option FilesystemVersionFilter) (res : list FilesystemVersion)
  : result (list FilesystemVersion) :=
  match listResults with
  | [] => Ok res
  | ListErrUnexpectedEOF :: _ => Ok []
  | ListErr e :: _ => Err e
  | ListFields line :: rest =>
      let* l0 := field 0 line in
      let* (_, vType, vName) := DecomposeVersionString l0 in
      let* l1 := field 1 line in
      let* vGuid := wrap (Strconv.ParseUint l1) "cannot parse GUID" in
      let* l2 := field 2 line in
      let* vCreateTXG := wrap (Strconv.ParseUint l2) "cannot parse CreateTXG" in
      let* l3 := field 3 line in
      let* creationUnix :=
        match Strconv.ParseInt l3 with
        | Err e => Err (ErrMsg ("cannot parse creation date '" ++ l3 ++ "': "
                                ++ Error e))
        | r => r
        end in
      let v := mkVersion vType vName vGuid vCreateTXG creationUnix in
      let* accept :=
        match filter with
        | None => Ok true
        | Some f =>
            match f vType vName with
            | Err e => Err (ErrMsg ("error executing filter: " ++ Error e))
            | r => r
            end
        end in
      ZFSListFilesystemVersions_loop rest filter
        (if accept then res ++ [v] else res)
  end.

Definition ZFSListFilesystemVersions (listResults : list ZFSListResult)
  (filter : option FilesystemVersionFilter) : result (list FilesystemVersion) :=
  ZFSListFilesystemVersions_loop listResults filter [].

(** ** endpoint/endpoint_zfs.go: the replication cursor *)

Definition is_cursor (v : FilesystemVersion) : bool :=
  VersionType_eqb (Type_ v) Bookmark
  && String.eqb (Name v) ReplicationCursorBookmarkName.

(** May return [None] without an error, indicating there is no cursor.
    [listResults] are the rows the driver delivers for the filesystem. *)
Definition GetReplicationCursor (listResults : list ZFSListResult)
  : result (option FilesystemVersion) :=
  let* versions := ZFSListFilesystemVersions listResults None in
  Ok (find is_cursor versions).

(** ** The engine's view of the store

    An operation of the engine is a sequence of calls on the port.  A [World]
    is the store as it is now together with the stores it went through, most
    recent first: every mutating call of the port pushes the store it
    found. *)

Record World : Type := mkWorld {
  now : Pool;
  past : list Pool
}.

Definition M (A : Type) : Type := World -> result A * World.

Definition ret {A} (a : A) : M A := fun w => (Ok a, w).

Definition lift {A} (r : result A) : M A := fun w => (r, w).

Definition mbind {A B} (m : M A) (k : A -> M B) : M B :=
  fun w =>
    match m w with
    | (Ok a, w') => k a w'
    | (Err e, w') => (Err e, w')
    | (Panic msg, w') => (Panic msg, w')
    end.

(** A call of the port that reads the store. *)
Definition query {A} (f : Pool -> result A) : M A :=
  fun w => (f (now w), w).

(** A call of the port that changes the store; a failed call changes
    nothing. *)
Definition mutate (f : Pool -> result Pool) : M unit :=
  fun w =>
    match f (now w) with
    | Ok p' => (Ok tt, mkWorld p' (now w :: past w))
    | Err e => (Err e, w)
    | Panic msg => (Panic msg, w)
    end.

(** [if err != nil { return errors.Wrap(err, msg) }] around a call. *)
Definition mwrap {A} (m : M A) (msg : string) : M A :=
  fun w => let (r, w') := m w in (wrap r msg, w').

(** Runs the call and hands its [(value, error)] pair to the caller. *)
Definition attempt {A} (m : M A) : M (result A) :=
  fun w => let (r, w') := m w in (Ok r, w').

Notation "x <- m ;; k" := (mbind m (fun x => k))
  (at level 100, m at next level, right associativity).
Notation "m ;;; k" := (mbind m (fun _ => k))
  (at level 100, right associativity).

(** The stores an operation went through, oldest first, ending in [now]. *)
Definition history (w : World) : list Pool := rev (now w :: past w).

Definition start (p : Pool) : World := mkWorld p [].

(** ** endpoint/endpoint_zfs.go: the progress marker engine *)

(** The tail of [SetReplicationCursor], reached when there is no cursor and
    after the current cursor was destroyed: [ZFSBookmark] and the mapping of
    its error. *)
Definition createCursorBookmark (fs : string) (target : ZFSSendArgVersion)
  : M unit :=
  r <- attempt (mutate (fun p => ZFSBookmark p fs target
                                   ReplicationCursorBookmarkName)) ;;
  match r with
  | Err ErrBookmarkCloningNotSupported => lift (Err ErrBookmarkCloningNotSupported)
  | Err e => lift (Err (Wrap e "cannot create bookmark"))
  | Panic msg => lift (Panic msg)
  | Ok _ => ret tt
  end.

(** [target] is validated before the replication cursor is set.  If
    validation fails, the cursor is not moved. *)
Definition SetReplicationCursor (fs : string) (target : ZFSSendArgVersion)
  : M unit :=
  if (String.length fs =? 0)%nat then
    lift (Err (ErrMsg "filesystem name must not be empty"))
  else
    snapProps <- mwrap (query (fun p => ValidateExistsAndGetCheckedProps p target fs))
                       ("invalid replication cursor target " ++ RelName target) ;;
    let bookmarkPath := fs ++ "#" ++ ReplicationCursorBookmarkName in
    r <- attempt (query (fun p => ZFSGetCreateTXGAndGuid p bookmarkPath)) ;;
    match r with
    | Err (DatasetDoesNotExist _) => createCursorBookmark fs target
    | Err e => lift (Err (Wrap e "cannot get bookmark txg"))
    | Panic msg => lift (Panic msg)
    | Ok bookmarkProps =>
        (* bookmark does exist *)
        if (PropCreateTXG snapProps <? PropCreateTXG bookmarkProps)%N then
          lift (Err (ErrMsg "can only be advanced, not set back"))
        else if (PropGuid bookmarkProps =? PropGuid snapProps)%N then
          ret tt (* no action required *)
        else
          mwrap (mutate (fun p => ZFSDestroy p bookmarkPath))
                "cannot destroy current cursor to move it to new" ;;;
          (* fallthrough *)
          createCursorBookmark fs target
    end.

(** Idempotently hold / step-bookmark [v]. *)
Definition HoldStep (fs : string) (v : ZFSSendArgVersion) (jobID : JobID)
  : M unit :=
  query (fun p => ValidateExists p v fs) ;;;
  if IsSnapshot v then
    tag <- mwrap (lift (StepHoldTag jobID)) "step hold tag" ;;
    mwrap (mutate (fun p => ZFSHold p fs v tag)) "step hold: zfs"
  else
    lift (MustBeBookmark v) ;;;
    bmname <- mwrap (lift (StepBookmarkName fs (GUID v) jobID))
                    "create step bookmark: determine bookmark name" ;;
    (* idempotently create bookmark *)
    r <- attempt (mutate (fun p => ZFSBookmark p fs v bmname)) ;;
    match r with
    | Err ErrBookmarkCloningNotSupported => lift (Err ErrBookmarkCloningNotSupported)
    | Err e => lift (Err (Wrap e "create step bookmark: zfs"))
    | Panic msg => lift (Panic msg)
    | Ok _ => ret tt
    end.

Definition ReleaseStep (fs : string) (v : ZFSSendArgVersion) (jobID : JobID)
  : M unit :=
  query (fun p => ValidateExists p v fs) ;;;
  if IsSnapshot v then
    tag <- mwrap (lift (StepHoldTag jobID)) "step release tag" ;;
    mwrap (mutate (fun p => ZFSRelease ReleaseAbsent p tag (FullPath v fs)))
          "step release: zfs"
  else
    lift (MustBeBookmark v) ;;;
    bmname <- mwrap (lift (StepBookmarkName fs (GUID v) jobID))
                    "step release: determine bookmark name" ;;
    (* idempotently destroy bookmark *)
    mwrap (mutate (fun p => ZFSDestroyIdempotent p bmname))
          "step release: bookmark destroy: zfs".

(** The closure [ReleaseStepAll] filters the listing with. *)
Definition stepBookmarkFilter (fs : string) (jobID : JobID)
  : FilesystemVersionFilter :=
  fun t name =>
    match ParseStepBookmarkName (fs ++ "#" ++ name) with
    | Panic msg => Panic msg
    | Ok (_, parsedId) =>
        Ok (VersionType_eqb t Bookmark && true && JobID_eqb parsedId jobID)
    | Err _ => Ok (VersionType_eqb t Bookmark && false)
    end.

(** Cut off all bookmarks up to [mostRecent.CreateTXG]. *)
Fixpoint cutoff (fs : string) (bound : N) (stepBookmarks : list FilesystemVersion)
  (destroy : list FilesystemVersion) : result (list FilesystemVersion) :=
  match stepBookmarks with
  | [] => Ok destroy
  | v :: rest =>
      match ParseStepBookmarkName (fs ++ "#" ++ Name v) with
      | Ok _ =>
          cutoff fs bound rest
            (if (CreateTXG v <? bound)%N then destroy ++ [v] else destroy)
      | Panic msg => Panic msg
      | Err _ =>
          Panic ("implementation error: filter should guarantee we only have "
                 ++ "step bookmarks in results")
      end
  end.

Fixpoint destroy_all (fsp : DatasetPath) (destroy : list FilesystemVersion)
  : M unit :=
  match destroy with
  | [] => ret tt
  | v :: rest =>
      mwrap (mutate (fun p => ZFSDestroyIdempotent p (ToAbsPath v fsp)))
            "step release all: destroy step bookmark" ;;;
      destroy_all fsp rest
  end.

(** Release {step holds, step bookmarks} earlier and including
    [mostRecent]. *)
Definition ReleaseStepAll (fs : string) (mostRecent : ZFSSendArgVersion)
  (jobID : JobID) : M unit :=
  fsp <- mwrap (lift (NewDatasetPath fs))
               "step release all: invalid filesystem path" ;;
  mostRecentProps <-
    mwrap (query (fun p => ValidateExistsAndGetCheckedProps p mostRecent fs))
          "step release all: validate most recent version argument" ;;
  tag <- mwrap (lift (StepHoldTag jobID)) "step release all: tag" ;;
  mwrap (mutate (fun p => ZFSReleaseAllOlderAndIncludingGUID p fs
                            (GUID mostRecent) tag))
        ("step release all: release holds older and including "
         ++ FullPath mostRecent fs) ;;;
  stepBookmarks <-
    mwrap (query (fun p => ZFSListFilesystemVersions
                             (ZFSListChan p (ToString fsp))
                             (Some (stepBookmarkFilter fs jobID))))
          "step release all: list step bookmarks" ;;
  destroy <- lift (cutoff fs (PropCreateTXG mostRecentProps) stepBookmarks []) ;;
  destroy_all fsp destroy.

Definition MoveLastReceivedHold (fs : string) (to : ZFSSendArgVersion)
  (jobID : JobID) : M unit :=
  query (fun p => ValidateExists p to fs) ;;;
  lift (match EntityNamecheck (FullPath to fs) EntityTypeSnapshot with
        | Some e => Err e
        | None => Ok tt
        end) ;;;
  tag <- mwrap (lift (LastReceivedHoldTag jobID)) "last-received-hold: hold tag" ;;
  (* we never want to be without a hold
     => hold new one before releasing old hold *)
  mwrap (mutate (fun p => ZFSHold p fs to tag))
        "last-received-hold: hold newly received" ;;;
  mwrap (mutate (fun p => ZFSReleaseAllOlderThanGUID p fs (GUID to) tag))
        "last-received-hold: release older holds".

(** ** Observations on the store, used to state the properties *)

(** Whether a filesystem name starts with the byte [z], the first byte of
    the format of step bookmark names. *)
Definition starts_with_z (fs : string) : bool :=
  match fs with
  | String a _ => Ascii.eqb "z" a
  | EmptyString => false
  end.

(** The dataset at [path] carries the hold [tag]. *)
Definition holds_tag_at (p : Pool) (path tag : string) : bool :=
  match find_path p path with
  | Some d => has_tag tag d
  | None => false
  end.

(** Some snapshot of the store carries the hold [tag]. *)
Definition carries (tag : string) (p : Pool) : bool :=
  existsb (fun d => is_snapshot d && has_tag tag d) (Datasets p).

(** The properties of the replication cursor of [fs], if it has one. *)
Definition cursor (p : Pool) (fs : string)
  : result ZFSPropCreateTxgAndGuidProps :=
  ZFSGetCreateTXGAndGuid p (fs ++ "#" ++ ReplicationCursorBookmarkName).

Definition is_bookmark (d : Dataset) : bool := negb (is_snapshot d).

Definition no_delimiter (s : string) : bool :=
  negb (Bytes.contains "@" s) && negb (Bytes.contains "#" s).

(** What ZFS guarantees of its stores: a filesystem name holds no
    delimiter, and within a filesystem the versions of one GUID (a snapshot
    and the bookmarks made from it) have one create_txg. *)
Record wf_pool (p : Pool) : Prop := {
  wf_filesystems :
    forall d, In d (Datasets p) -> no_delimiter (Filesystem d) = true;
  wf_guid_txg :
    forall d1 d2, In d1 (Datasets p) -> In d2 (Datasets p) ->
      Filesystem d1 = Filesystem d2 ->
      Guid (Version d1) = Guid (Version d2) ->
      CreateTXG (Version d1) = CreateTXG (Version d2)
}.

(** Bytes of the printable ASCII range, none of which the scanner takes for
    white space. *)
Definition printable (s : string) : bool :=
  forallb (fun a => Fmt.between 33 126 (Fmt.byte a)) (list_ascii_of_string s).

(** ** endpoint/endpoint_zfs.go: the marker inventory *)

(** The loop over the holds of one snapshot in [doListStepAll]. *)
Fixpoint doListStepAll_holds (fs snap : string) (holds : list string)
  (out : list StepHold) : result (list StepHold) :=
  match holds with
  | [] => Ok out
  | hold :: rest =>
      match ParseStepHoldTag hold with
      | Err _ => doListStepAll_holds fs snap rest out
      | Panic msg => Panic msg
      | Ok jobID =>
          doListStepAll_holds fs snap rest (out ++ [mkStepHold fs snap jobID])
      end
  end.

(** The loop over the versions of one filesystem in [doListStepAll]. *)
Fixpoint doListStepAll_versions (p : Pool) (fs : DatasetPath)
  (fsvs : list FilesystemVersion) (out : ListStepAllOutput)
  : result ListStepAllOutput :=
  match fsvs with
  | [] => Ok out
  | v :: rest =>
      let fullname := ToAbsPath v fs in
      match Type_ v with
      | Bookmark =>
          match ParseStepBookmarkName fullname with
          | Err _ => doListStepAll_versions p fs rest out
          | Panic msg => Panic msg
          | Ok (guid, jobID) =>
              doListStepAll_versions p fs rest
                (mkListStepAllOutput
                   (StepBookmarks out
                    ++ [mkStepBookmark (ToString fs) (Name v) guid jobID])
                   (StepHolds out))
          end
      | Snapshot =>
          let* holds := wrap (ZFSHolds p (ToString fs) (Name v))
                             ("get holds of " ++ fullname) in
          let* stepHolds :=
            doListStepAll_holds (ToString fs) (Name v) holds (StepHolds out) in
          doListStepAll_versions p fs rest
            (mkListStepAllOutput (StepBookmarks out) stepHolds)
      end
  end.

(** The loop over the filesystems in [doListStepAll]. *)
Fixpoint doListStepAll_filesystems (p : Pool) (fss : list DatasetPath)
  (out : ListStepAllOutput) : result ListStepAllOutput :=
  match fss with
  | [] => Ok out
  | fs :: rest =>
      let* fsvs :=
        wrap (ZFSListFilesystemVersions (ZFSListChan p (ToString fs)) None)
             ("list filesystem versions of " ++ ToString fs) in
      let* out' := doListStepAll_versions p fs fsvs out in
      doListStepAll_filesystems p rest out'
  end.

Definition doListStepAll (p : Pool) (out : ListStepAllOutput)
  : result ListStepAllOutput :=
  let* fss := wrap (ZFSListMapping p) "list filesystems" in
  doListStepAll_filesystems p fss out.

Definition ListStepAll (p : Pool) : result ListStepAllOutput :=
  doListStepAll p (mkListStepAllOutput [] []).

(** The loop over the holds of one snapshot in [ListLastReceivedAll]. *)
Fixpoint ListLastReceivedAll_holds (fs snap : string) (holds : list string)
  (out : list LastReceivedHold) : result (list LastReceivedHold) :=
  match holds with
  | [] => Ok out
  | tag :: rest =>
      match ParseLastReceivedHoldTag tag with
      | Err _ => ListLastReceivedAll_holds fs snap rest out
      | Panic msg => Panic msg
      | Ok jobID =>
          ListLastReceivedAll_holds fs snap rest
            (out ++ [mkLastReceivedHold fs snap tag jobID])
      end
  end.

(** The loop over the versions of one filesystem in
    [ListLastReceivedAll]. *)
Fixpoint ListLastReceivedAll_versions (p : Pool) (fs : DatasetPath)
  (fsvs : list FilesystemVersion) (out : list LastReceivedHold)
  : result (list LastReceivedHold) :=
  match fsvs with
  | [] => Ok out
  | v :: rest =>
      match Type_ v with
      | Bookmark => ListLastReceivedAll_versions p fs rest out
      | Snapshot =>
          let fullPath := ToAbsPath v fs in
          let* holds := wrap (ZFSHolds p (ToString fs) (Name v))
                             ("get holds of " ++ fullPath) in
          let* out' :=
            ListLastReceivedAll_holds (ToString fs) (Name v) holds out in
          ListLastReceivedAll_versions p fs rest out'
      end
  end.

(** The loop over the filesystems in [ListLastReceivedAll]. *)
Fixpoint ListLastReceivedAll_filesystems (p : Pool) (fss : list DatasetPath)
  (out : list LastReceivedHold) : result (list LastReceivedHold) :=
  match fss with
  | [] => Ok out
  | fs :: rest =>
      let* fsvs :=
        wrap (ZFSListFilesystemVersions (ZFSListChan p (ToString fs)) None)
             ("list filesystem versions of " ++ ToString fs) in
      let* out' := ListLastReceivedAll_versions p fs fsvs out in
      ListLastReceivedAll_filesystems p rest out'
  end.

Definition ListLastReceivedAll (p : Pool) : result (list LastReceivedHold) :=
  let* fss := wrap (ZFSListMapping p) "list filesystems" in
  ListLastReceivedAll_filesystems p fss [].

(** A dataset whose row of [zfs list] parses back: its filesystem name holds
    no delimiter, its name does not hold the delimiter of the other type, its
    path has at least three bytes and its numbers are in the range of their
    Go types. *)
Definition listable (d : Dataset) : bool :=
  no_delimiter (Filesystem d)
  && negb (Bytes.contains
             (match Type_ (Version d) with Snapshot => "#" | Bookmark => "@" end)
             (Name (Version d)))
  && (3 <=? String.length (AbsPath d))%nat
  && (Guid (Version d) <? 2 ^ 64)%N
  && (CreateTXG (Version d) <? 2 ^ 64)%N
  && (- 2 ^ 63 <=? Creation (Version d))%Z
  && (Creation (Version d) <? 2 ^ 63)%Z.

(** Case analysis on the parsing of one row in the loop of
    [ZFSListFilesystemVersions]; the goals of rows that fail are closed. *)
Ltac list_row line :=
  destruct (field 0 line) as [?l0| |]; simpl; try discriminate;
  destruct (DecomposeVersionString _) as [[[? ?ty] ?nm]| |]; simpl;
    try discriminate;
  destruct (field 1 line) as [?l1| |]; simpl; try discriminate;
  destruct (Strconv.ParseUint _) as [?guid| |]; simpl; try discriminate;
  destruct (field 2 line) as [?l2| |]; simpl; try discriminate;
  destruct (Strconv.ParseUint _) as [?txg| |]; simpl; try discriminate;
  destruct (field 3 line) as [?l3| |]; simpl; try discriminate;
  destruct (Strconv.ParseInt _) as [?creation| |]; simpl; try discriminate.

(** * Properties *)

(** ** Splitting at a delimiter *)

Lemma cut_none (c : ascii) (s : string) :
  Bytes.cut c s = None <-> Bytes.contains c s = false.
Proof.
  unfold Bytes.contains.
  induction s as [|a r IH]; simpl.
  - split; reflexivity.
  - rewrite (Ascii.eqb_sym c a).
    destruct (Ascii.eqb a c); simpl.
    + split; discriminate.
    + destruct (Bytes.cut c r) as [[l r']|].
      * split; [discriminate|].
        intros H. apply IH in H. discriminate.
      * split; [intros _; now apply IH | reflexivity].
Qed.

Lemma cut_some (c : ascii) (s l r : string) :
  Bytes.cut c s = Some (l, r) ->
  s = l ++ String c r /\ Bytes.contains c l = false.
Proof.
  unfold Bytes.contains.
  revert l r. induction s as [|a s' IH]; simpl; intros l r H.
  - discriminate.
  - destruct (Ascii.eqb a c) eqn:E.
    + apply Ascii.eqb_eq in E. inversion H; subst. split; reflexivity.
    + destruct (Bytes.cut c s') as [[l' r']|]; [|discriminate].
      inversion H; subst.
      destruct (IH _ _ eq_refl) as [-> Hl].
      split; [reflexivity|].
      simpl. rewrite (Ascii.eqb_sym c a), E. exact Hl.
Qed.

Lemma cut_contains (c : ascii) (s : string) :
  Bytes.contains c s = true -> exists l r, Bytes.cut c s = Some (l, r).
Proof.
  intros H. destruct (Bytes.cut c s) as [[l r]|] eqn:E.
  - now exists l, r.
  - apply cut_none in E. congruence.
Qed.

Lemma SplitN2_length (s : string) (c : ascii) :
  List.length (Bytes.SplitN2 s c) = if Bytes.contains c s then 2 else 1.
Proof.
  unfold Bytes.SplitN2.
  destruct (Bytes.cut c s) as [[l r]|] eqn:E.
  - destruct (Bytes.contains c s) eqn:C; [reflexivity|].
    apply cut_none in C. congruence.
  - apply cut_none in E. now rewrite E.
Qed.

(** C8. [DecomposeVersionString] fails on strings shorter than 3 bytes, fails
    when the string contains both [@] and [#] or neither, and otherwise
    splits the string at the first occurrence of the delimiter that is
    present: the prefix is the filesystem, the type is snapshot for [@] and
    bookmark for [#], and the remainder is the name. *)
Theorem DecomposeVersionString_spec (s : string) :
  (String.length s < 3 -> is_err (DecomposeVersionString s) = true) /\
  (Bytes.contains "@" s = true -> Bytes.contains "#" s = true ->
   is_err (DecomposeVersionString s) = true) /\
  (Bytes.contains "@" s = false -> Bytes.contains "#" s = false ->
   is_err (DecomposeVersionString s) = true) /\
  (3 <= String.length s ->
   Bytes.contains "@" s = true -> Bytes.contains "#" s = false ->
   exists fs name,
     s = fs ++ "@" ++ name /\ Bytes.contains "@" fs = false /\
     DecomposeVersionString s = Ok (fs, Snapshot, name)) /\
  (3 <= String.length s ->
   Bytes.contains "#" s = true -> Bytes.contains "@" s = false ->
   exists fs name,
     s = fs ++ "#" ++ name /\ Bytes.contains "#" fs = false /\
     DecomposeVersionString s = Ok (fs, Bookmark, name)).
Proof.
  unfold DecomposeVersionString.
  rewrite !SplitN2_length.
  destruct (Nat.ltb_spec (String.length s) 3) as [Hlt|Hge].
  - repeat split; try reflexivity; intros; lia.
  - split; [intros; lia|].
    split; [intros -> ->; reflexivity|].
    split; [intros -> ->; reflexivity|].
    split.
    + intros _ Hs Hb. rewrite Hs, Hb. simpl.
      destruct (cut_contains _ _ Hs) as (l & r & Hc).
      exists l, r. destruct (cut_some _ _ _ _ Hc) as [Heq Hl].
      unfold Bytes.SplitN2. rewrite Hc. simpl. auto.
    + intros _ Hb Hs. rewrite Hs, Hb. simpl.
      destruct (cut_contains _ _ Hb) as (l & r & Hc).
      exists l, r. destruct (cut_some _ _ _ _ Hc) as [Heq Hl].
      unfold Bytes.SplitN2. rewrite Hc. simpl. auto.
Qed.

(** ** JobID *)

Lemma MakeJobID_Ok (s : string) (j : JobID) :
  MakeJobID s = Ok j <->
  s <> EmptyString /\ DatasetPathCheck s = None /\ j = mkJobID s.
Proof.
  unfold MakeJobID, NewDatasetPath.
  destruct s as [|a r]; simpl.
  - split; [discriminate | intros [H _]; now elim H].
  - destruct (DatasetPathCheck (String a r)).
    + split; [discriminate | intros (_ & H & _); discriminate].
    + split.
      * intros H; inversion H; subst. repeat split; discriminate.
      * intros (_ & _ & ->). reflexivity.
Qed.

(** C9.  [MakeJobID] rejects the empty string and succeeds exactly on the
    non-empty strings that [zfs.NewDatasetPath] accepts, returning the string
    unchanged as the job id: the verdict of [zfs.ValidHoldTag] plays no part
    in it.  So the JobID it returns need not be usable in a hold tag, against
    the comment on the type: when the validator rejects the tag built from
    the job id, [StepHoldTag] and [LastReceivedHoldTag] return the
    validator's error on a JobID that [MakeJobID] made. *)
Theorem MakeJobID_checks_dataset_path_only (s : string) :
  is_err (MakeJobID EmptyString) = true /\
  (forall j, MakeJobID s = Ok j <->
             s <> EmptyString /\ DatasetPathCheck s = None /\ j = mkJobID s) /\
  (forall j e, MakeJobID s = Ok j ->
               ValidHoldTag ("zrepl_STEP_J_" ++ s) = Some e ->
               StepHoldTag j = Err e) /\
  (forall j e, MakeJobID s = Ok j ->
               ValidHoldTag ("zrepl_last_received_J_" ++ s) = Some e ->
               LastReceivedHoldTag j = Err e).
Proof.
  split; [reflexivity|].
  split; [intros j; apply MakeJobID_Ok|].
  split; intros j e Hj Hv; apply MakeJobID_Ok in Hj;
    destruct Hj as (Hne & _ & ->);
    unfold StepHoldTag, LastReceivedHoldTag, JobID_String, expectInitialized;
    simpl; destruct s; [now elim Hne | simpl | now elim Hne | simpl];
    simpl in Hv; now rewrite Hv.
Qed.

(** C10. [UnmarshalJSON] stores every JSON string as the job id, without the
    checks of [MakeJobID]; on the JobID unmarshalled from the empty string,
    [String] and every encoder that takes the JobID panic with
    "use of unitialized JobID". *)
Theorem UnmarshalJSON_skips_validation (j : JobID) :
  (forall s, UnmarshalJSON j (JSONString s) = Ok (mkJobID s)) /\
  is_err (MakeJobID EmptyString) = true /\
  exists j0,
    UnmarshalJSON j (JSONString EmptyString) = Ok j0 /\
    JobID_String j0 = Panic "use of unitialized JobID" /\
    StepHoldTag j0 = Panic "use of unitialized JobID" /\
    LastReceivedHoldTag j0 = Panic "use of unitialized JobID" /\
    forall fs guid, StepBookmarkName fs guid j0 = Panic "use of unitialized JobID".
Proof.
  split; [reflexivity|].
  split; [reflexivity|].
  exists (mkJobID EmptyString). repeat split.
Qed.

(** ** The replication cursor getter *)

Lemma find_first {A} (f : A -> bool) (pre : list A) (x : A) (post : list A) :
  forallb (fun a => negb (f a)) pre = true -> f x = true ->
  find f (pre ++ x :: post)%list = Some x.
Proof.
  induction pre as [|a pre IH]; simpl; intros Hpre Hx.
  - now rewrite Hx.
  - apply andb_prop in Hpre. destruct Hpre as [Ha Hpre].
    apply negb_true_iff in Ha. rewrite Ha. now apply IH.
Qed.

Lemma find_absent {A} (f : A -> bool) (l : list A) :
  forallb (fun a => negb (f a)) l = true -> find f l = None.
Proof.
  induction l as [|a l IH]; simpl; intros H; [reflexivity|].
  apply andb_prop in H. destruct H as [Ha Hl].
  apply negb_true_iff in Ha. rewrite Ha. now apply IH.
Qed.

(** C6. When the listing of the filesystem's versions succeeds and holds no
    bookmark named exactly [zrepl_replication_cursor], [GetReplicationCursor]
    returns no version and no error, whatever other bookmarks and whatever
    snapshots are listed; when a bookmark of that name is listed, it returns
    a listed bookmark of that name, the first in the listing. *)
Theorem GetReplicationCursor_spec (listResults : list ZFSListResult)
  (versions : list FilesystemVersion) :
  ZFSListFilesystemVersions listResults None = Ok versions ->
  ((forall v, In v versions -> Type_ v = Bookmark ->
              Name v <> "zrepl_replication_cursor") ->
   GetReplicationCursor listResults = Ok None) /\
  (forall v, In v versions -> Type_ v = Bookmark ->
             Name v = "zrepl_replication_cursor" ->
             exists c, GetReplicationCursor listResults = Ok (Some c) /\
                       In c versions /\ Type_ c = Bookmark /\
                       Name c = "zrepl_replication_cursor") /\
  (forall pre v post,
      versions = (pre ++ v :: post)%list ->
      (forall u, In u pre -> Type_ u = Bookmark ->
                 Name u <> "zrepl_replication_cursor") ->
      Type_ v = Bookmark -> Name v = "zrepl_replication_cursor" ->
      GetReplicationCursor listResults = Ok (Some v)).
Proof.
  intros Hlist. unfold GetReplicationCursor. rewrite Hlist. cbn [bind].
  assert (Hc : forall c, is_cursor c = true ->
                         Type_ c = Bookmark /\
                         Name c = "zrepl_replication_cursor").
  { intros c H. unfold is_cursor in H. apply andb_prop in H.
    destruct H as [Ht Hn]. apply String.eqb_eq in Hn.
    split; [now destruct (Type_ c) | exact Hn]. }
  assert (Hn : forall l : list FilesystemVersion,
             (forall u, In u l -> Type_ u = Bookmark ->
                        Name u <> "zrepl_replication_cursor") ->
             forallb (fun a => negb (is_cursor a)) l = true).
  { intros l H. apply forallb_forall. intros u Hu.
    destruct (is_cursor u) eqn:E; [|reflexivity].
    destruct (Hc u E) as [Ht Hname]. now elim (H u Hu Ht). }
  split; [|split].
  - intros H. now rewrite find_absent by (apply Hn; exact H).
  - intros v Hin Ht Hname.
    destruct (find is_cursor versions) as [c|] eqn:E.
    + apply find_some in E. destruct E as [Ic Fc].
      destruct (Hc c Fc) as [Hct Hcn]. exists c. auto.
    + exfalso. pose proof (find_none _ _ E v Hin) as F.
      unfold is_cursor in F. rewrite Ht, Hname in F. discriminate.
  - intros pre v post -> Hpre Ht Hname.
    rewrite find_first; auto.
    unfold is_cursor. rewrite Ht, Hname. reflexivity.
Qed.

(** ** The hold tag codecs *)

Lemma strip_prefix_app (p x : string) :
  Bytes.strip_prefix p (p ++ x) = Some x.
Proof.
  induction p as [|a p IH]; simpl; [reflexivity|].
  now rewrite Ascii.eqb_refl.
Qed.

Lemma strip_prefix_Some (p s r : string) :
  Bytes.strip_prefix p s = Some r -> s = p ++ r.
Proof.
  revert s. induction p as [|a p IH]; simpl; intros s H.
  - now inversion H.
  - destruct s as [|b s]; [discriminate|].
    destruct (Ascii.eqb_spec a b); [|discriminate].
    subst b. f_equal. now apply IH.
Qed.

Lemma until_newline_id (x : string) :
  Bytes.contains Fmt.newline x = false -> Regexp.until_newline x = x.
Proof.
  induction x as [|a x IH]; [reflexivity|].
  change (Bytes.contains Fmt.newline (String a x))
    with (Ascii.eqb Fmt.newline a || Bytes.contains Fmt.newline x).
  intros H. apply orb_false_iff in H. destruct H as [Ha Hx].
  cbn [Regexp.until_newline].
  rewrite Ascii.eqb_sym in Ha. rewrite Ha. f_equal. now apply IH.
Qed.

(** X6.  The step hold tag of a job id made by [MakeJobID] that holds no
    newline decodes to the job id. *)
Lemma ParseStepHoldTag_StepHoldTag (s : string) (j : JobID) (tag : string) :
  MakeJobID s = Ok j -> Bytes.contains Fmt.newline s = false ->
  StepHoldTag j = Ok tag -> ParseStepHoldTag tag = Ok j.
Proof.
  intros Hj Hn. pose proof Hj as Hj'. apply MakeJobID_Ok in Hj'.
  destruct Hj' as (Hne & _ & ->).
  unfold StepHoldTag, JobID_String, expectInitialized. cbn [jid].
  destruct s as [|a s]; [now elim Hne|]. cbn [String.eqb bind].
  remember ("zrepl_STEP_J_" ++ String a s) as t eqn:Et.
  destruct (ValidHoldTag t); [discriminate|].
  intros H. injection H as <-. subst t.
  unfold ParseStepHoldTag, Regexp.stepHoldTagRE.
  rewrite strip_prefix_app, (until_newline_id _ Hn), Hj. reflexivity.
Qed.

(** X7.  The last-received hold tag of a job id made by [MakeJobID] that
    holds no newline decodes to the job id. *)
Lemma ParseLastReceivedHoldTag_LastReceivedHoldTag (s : string) (j : JobID)
  (tag : string) :
  MakeJobID s = Ok j -> Bytes.contains Fmt.newline s = false ->
  LastReceivedHoldTag j = Ok tag -> ParseLastReceivedHoldTag tag = Ok j.
Proof.
  intros Hj Hn. pose proof Hj as Hj'. apply MakeJobID_Ok in Hj'.
  destruct Hj' as (Hne & _ & ->).
  unfold LastReceivedHoldTag, JobID_String, expectInitialized. cbn [jid].
  destruct s as [|a s]; [now elim Hne|]. cbn [String.eqb bind].
  remember ("zrepl_last_received_J_" ++ String a s) as t eqn:Et.
  destruct (ValidHoldTag t); [discriminate|].
  intros H. injection H as <-. subst t.
  unfold ParseLastReceivedHoldTag, Regexp.lastReceivedHoldTagRE.
  rewrite strip_prefix_app, Hn, Hj. reflexivity.
Qed.

(** A tag the decoders accept has the form of the template: the literal
    prefix followed by a non-empty job id field. *)
Lemma ParseHoldTag_template (tag : string) (j : JobID) :
  (ParseStepHoldTag tag = Ok j ->
   exists x, x <> EmptyString /\ tag = "zrepl_STEP_J_" ++ x) /\
  (ParseLastReceivedHoldTag tag = Ok j ->
   tag = "zrepl_last_received_J_" ++ jid j /\ jid j <> EmptyString).
Proof.
  split.
  - unfold ParseStepHoldTag, Regexp.stepHoldTagRE.
    destruct (Bytes.strip_prefix "zrepl_STEP_J_" tag) as [rest|] eqn:E;
      [|discriminate].
    apply strip_prefix_Some in E.
    destruct rest as [|a rest]; [discriminate|].
    intros _. exists (String a rest). split; [discriminate | exact E].
  - unfold ParseLastReceivedHoldTag, Regexp.lastReceivedHoldTagRE.
    destruct (Bytes.strip_prefix "zrepl_last_received_J_" tag) as [rest|] eqn:E;
      [|discriminate].
    apply strip_prefix_Some in E.
    destruct rest as [|a rest]; [discriminate|].
    destruct (Bytes.contains Fmt.newline (String a rest)); [discriminate|].
    destruct (MakeJobID (String a rest)) as [j'| |] eqn:Hj; simpl;
      try discriminate.
    apply MakeJobID_Ok in Hj. destruct Hj as (_ & _ & ->).
    intros H. injection H as <-. simpl. split; [exact E | discriminate].
Qed.

(** ** The step bookmark decoder *)

Lemma advance_literal_mismatch (b : ascii) (lit input : string) (a : ascii) :
  Ascii.eqb b a = false ->
  is_err (Fmt.advance_literal (String b lit) (String a input)) = true.
Proof.
  intros H. unfold Fmt.advance_literal. simpl. rewrite H.
  rewrite (Ascii.eqb_sym a b), H, andb_false_r. reflexivity.
Qed.

Lemma Sscanf_stepBookmark_first_rune (a : ascii) (input : string) :
  Ascii.eqb "z" a = false ->
  is_err (Fmt.Sscanf_stepBookmark (String a input)) = true.
Proof.
  intros H. unfold Fmt.Sscanf_stepBookmark.
  pose proof (advance_literal_mismatch "z" "repl_STEP_G_" input a H) as E.
  change (String "z" "repl_STEP_G_") with "zrepl_STEP_G_" in E.
  destruct (Fmt.advance_literal "zrepl_STEP_G_" (String a input));
    [discriminate | reflexivity | discriminate].
Qed.

Lemma ParseStepBookmarkName_first_rune (a : ascii) (name : string) :
  Ascii.eqb "z" a = false ->
  is_err (ParseStepBookmarkName (String a name)) = true.
Proof.
  intros H. unfold ParseStepBookmarkName.
  destruct (EntityNamecheck (String a name) EntityTypeBookmark);
    [reflexivity|].
  pose proof (Sscanf_stepBookmark_first_rune a name H) as E.
  destruct (Fmt.Sscanf_stepBookmark (String a name));
    [discriminate | reflexivity | discriminate].
Qed.

(** C4.  Whatever the validators are, [ParseStepBookmarkName] fails on the
    full name ["tank/fs#zrepl_STEP_G_00000000deadbeef_J_myjob"], as it does
    on ["tank/fs#some_other_bookmark"] and on
    ["tank/fs#zrepl_STEP_G_0000000000000000_J_"]: the format is scanned
    from the first byte of the full name, where the dataset path stands.
    The same scan applied to the part after the [#] yields guid 0xdeadbeef
    and ["myjob"]. *)
Theorem ParseStepBookmarkName_scenarios :
  is_err (ParseStepBookmarkName
            "tank/fs#zrepl_STEP_G_00000000deadbeef_J_myjob") = true /\
  is_err (ParseStepBookmarkName "tank/fs#some_other_bookmark") = true /\
  is_err (ParseStepBookmarkName
            "tank/fs#zrepl_STEP_G_0000000000000000_J_") = true /\
  Fmt.Sscanf_stepBookmark "zrepl_STEP_G_00000000deadbeef_J_myjob"
  = Ok (3735928559%N, "myjob").
Proof.
  repeat split; try (apply ParseStepBookmarkName_first_rune; reflexivity).
Qed.

(** C5.  The step bookmark codec does not round-trip: for every filesystem
    whose name does not start with the byte [z], every guid and every job,
    the decoder rejects the full name built from the encoder's output. *)
Theorem StepBookmarkName_not_decoded (fs : string) (guid : N) (j : JobID)
  (bmname : string) :
  starts_with_z fs = false ->
  StepBookmarkName fs guid j = Ok bmname ->
  is_err (ParseStepBookmarkName (fs ++ "#" ++ bmname)) = true.
Proof.
  intros Hz _. destruct fs as [|a fs]; simpl in *.
  - apply ParseStepBookmarkName_first_rune. reflexivity.
  - apply ParseStepBookmarkName_first_rune. exact Hz.
Qed.

(** ** The store *)

Lemma AbsPath_add_tag (tag : string) (d : Dataset) :
  AbsPath (add_tag tag d) = AbsPath d.
Proof. unfold add_tag. now destruct (has_tag tag d). Qed.

Lemma AbsPath_remove_tag (tag : string) (d : Dataset) :
  AbsPath (remove_tag tag d) = AbsPath d.
Proof. reflexivity. Qed.

Lemma has_tag_add_tag (tag : string) (d : Dataset) :
  has_tag tag (add_tag tag d) = true.
Proof.
  unfold add_tag. destruct (has_tag tag d) eqn:E; [exact E|].
  unfold has_tag. simpl. rewrite existsb_app. simpl.
  rewrite String.eqb_refl. now rewrite orb_true_r.
Qed.

Lemma find_path_update (f : Dataset -> Dataset) (sel : Dataset -> bool)
  (p : Pool) (path : string) :
  (forall d, AbsPath (f d) = AbsPath d) ->
  find_path (update f sel p) path
  = option_map (fun d => if sel d then f d else d) (find_path p path).
Proof.
  intros Hf. unfold find_path, update. simpl.
  induction (Datasets p) as [|d l IH]; simpl; [reflexivity|].
  assert (E : at_path path (if sel d then f d else d) = at_path path d).
  { unfold at_path. destruct (sel d); [now rewrite Hf | reflexivity]. }
  rewrite E. destruct (at_path path d); [reflexivity | exact IH].
Qed.

Lemma find_path_In (p : Pool) (path : string) (d : Dataset) :
  find_path p path = Some d -> In d (Datasets p) /\ AbsPath d = path.
Proof.
  unfold find_path. intros H. apply find_some in H. destruct H as [Hin Hp].
  split; [exact Hin|]. now apply String.eqb_eq.
Qed.

Lemma carries_of_holds (p : Pool) (path tag : string) (d : Dataset) :
  find_path p path = Some d -> is_snapshot d = true -> has_tag tag d = true ->
  carries tag p = true.
Proof.
  intros Hf Hs Ht. unfold carries. apply existsb_exists.
  exists d. split; [now apply find_path_In in Hf|]. now rewrite Hs, Ht.
Qed.

Lemma ZFSHold_Ok (p p1 : Pool) (fs : string) (v : ZFSSendArgVersion)
  (tag : string) :
  ZFSHold p fs v tag = Ok p1 ->
  exists d,
    find_path p (FullPath v fs) = Some d /\ is_snapshot d = true /\
    p1 = update (add_tag tag) (at_path (FullPath v fs)) p /\
    find_path p1 (FullPath v fs) = Some (add_tag tag d).
Proof.
  unfold ZFSHold. intros H.
  destruct (find_path p (FullPath v fs)) as [d|] eqn:Hf; [|discriminate].
  destruct (Type_ (Version d)) eqn:Ht; [discriminate|].
  inversion H; subst p1. exists d.
  split; [reflexivity|]. split; [unfold is_snapshot; now rewrite Ht|].
  split; [reflexivity|].
  rewrite find_path_update by apply AbsPath_add_tag.
  rewrite Hf. simpl.
  apply find_path_In in Hf. destruct Hf as [_ Hp].
  unfold at_path. rewrite Hp, String.eqb_refl. reflexivity.
Qed.

Lemma contains_app (c : ascii) (s t : string) :
  Bytes.contains c (s ++ t) = Bytes.contains c s || Bytes.contains c t.
Proof.
  unfold Bytes.contains. induction s as [|a s IH]; simpl; [reflexivity|].
  rewrite IH. now rewrite orb_assoc.
Qed.

Lemma bookmark_path_has_hash (d : Dataset) :
  Type_ (Version d) = Bookmark -> Bytes.contains "#" (AbsPath d) = true.
Proof.
  intros H. unfold AbsPath, ToAbsPath. rewrite H. simpl.
  rewrite contains_app. simpl. now rewrite orb_true_r.
Qed.

(** Two decompositions of one path at the delimiter agree when neither
    filesystem name holds the delimiter. *)
Lemma split_unique (c : ascii) (f1 n1 f2 n2 : string) :
  Bytes.contains c f1 = false -> Bytes.contains c f2 = false ->
  f1 ++ String c n1 = f2 ++ String c n2 -> f1 = f2.
Proof.
  unfold Bytes.contains.
  revert f2. induction f1 as [|a f1 IH]; intros [|b f2]; simpl; intros H1 H2 E.
  - reflexivity.
  - inversion E; subst. rewrite Ascii.eqb_refl in H2. discriminate.
  - inversion E; subst. rewrite Ascii.eqb_refl in H1. discriminate.
  - inversion E; subst.
    apply orb_false_iff in H1. apply orb_false_iff in H2. f_equal.
    destruct H1 as [_ H1]. destruct H2 as [_ H2]. now apply IH.
Qed.

Lemma wf_update (f : Dataset -> Dataset) (sel : Dataset -> bool) (p : Pool) :
  (forall d, Filesystem (f d) = Filesystem d /\ Version (f d) = Version d) ->
  wf_pool p -> wf_pool (update f sel p).
Proof.
  intros Hf [Hfs Hgt].
  assert (pre : forall d, In d (Datasets (update f sel p)) ->
                exists d0, In d0 (Datasets p) /\
                           Filesystem d = Filesystem d0 /\
                           Version d = Version d0).
  { intros d Hd. unfold update in Hd. simpl in Hd.
    apply in_map_iff in Hd. destruct Hd as (d0 & <- & Hin).
    exists d0. split; [exact Hin|].
    destruct (sel d0); [apply Hf | split; reflexivity]. }
  split.
  - intros d Hd. destruct (pre d Hd) as (d0 & Hin & -> & _). now apply Hfs.
  - intros d1 d2 H1 H2.
    destruct (pre d1 H1) as (e1 & Hi1 & -> & ->).
    destruct (pre d2 H2) as (e2 & Hi2 & -> & ->).
    now apply Hgt.
Qed.

Lemma add_tag_same (tag : string) (d : Dataset) :
  Filesystem (add_tag tag d) = Filesystem d /\
  Version (add_tag tag d) = Version d.
Proof. unfold add_tag. destruct (has_tag tag d); split; reflexivity. Qed.

(** The strict batch release keeps the hold on the referenced snapshot and
    every dataset that is not older. *)
Lemma ZFSReleaseAllOlderThanGUID_strict (p1 : Pool) (fs path tag : string)
  (d : Dataset) :
  wf_pool p1 ->
  find_path p1 path = Some d -> Filesystem d = fs ->
  exists p2,
    ZFSReleaseAllOlderThanGUID p1 fs (Guid (Version d)) tag = Ok p2 /\
    find_path p2 path = Some d /\
    (forall e, In e (Datasets p1) ->
               (CreateTXG (Version d) <= CreateTXG (Version e))%N ->
               In e (Datasets p2)).
Proof.
  intros [_ Hgt] Hf Hfs.
  destruct (find_path_In _ _ _ Hf) as [Hin Hp].
  unfold ZFSReleaseAllOlderThanGUID, ZFSReleaseAllOlder.
  set (sel := fun d0 => in_fs fs d0 && (Guid (Version d0) =? Guid (Version d))%N).
  destruct (find sel (Datasets p1)) as [ref|] eqn:Hr.
  - apply find_some in Hr. destruct Hr as [Hrin Hrs]. unfold sel in Hrs.
    apply andb_prop in Hrs. destruct Hrs as [Hrfs Hrg].
    apply String.eqb_eq in Hrfs. apply N.eqb_eq in Hrg.
    assert (Hb : CreateTXG (Version ref) = CreateTXG (Version d)).
    { apply Hgt; congruence. }
    eexists. split; [reflexivity|]. rewrite Hb. split.
    + rewrite find_path_update by apply AbsPath_remove_tag.
      rewrite Hf. simpl. rewrite N.ltb_irrefl, andb_false_r. reflexivity.
    + intros e He Hle. unfold update. simpl. apply in_map_iff.
      exists e. split; [|exact He].
      apply N.ltb_ge in Hle. now rewrite Hle, andb_false_r.
  - exfalso. apply (find_none _ _ Hr) in Hin. unfold sel in Hin.
    unfold in_fs in Hin. rewrite Hfs, String.eqb_refl, N.eqb_refl in Hin.
    discriminate.
Qed.

(** A snapshot found at [fs ++ "@" ++ name] belongs to [fs]. *)
Lemma snapshot_in_fs (p : Pool) (fs : string) (v : ZFSSendArgVersion)
  (d : Dataset) :
  wf_pool p -> no_delimiter fs = true ->
  find_path p (FullPath v fs) = Some d ->
  is_snapshot d = true -> IsSnapshot v = true ->
  Filesystem d = fs.
Proof.
  intros [Hfs _] Hno Hf Hs Hv.
  destruct (find_path_In _ _ _ Hf) as [Hin Hp].
  specialize (Hfs d Hin). unfold no_delimiter in *.
  apply andb_prop in Hfs. destruct Hfs as [Hd _].
  apply andb_prop in Hno. destruct Hno as [Hn _].
  apply negb_true_iff in Hd. apply negb_true_iff in Hn.
  unfold AbsPath, ToAbsPath, FullPath in Hp. simpl in Hp.
  unfold is_snapshot in Hs. destruct (Type_ (Version d)); [discriminate|].
  unfold IsSnapshot in Hv. destruct (RelName v) as [|a n]; [discriminate|].
  apply Ascii.eqb_eq in Hv. subst a. simpl in Hp.
  exact (split_unique _ _ _ _ _ Hd Hn Hp).
Qed.

(** ** MoveLastReceivedHold *)

(** The port calls of [MoveLastReceivedHold], in their order. *)
Lemma MoveLastReceivedHold_run (p : Pool) (fs : string)
  (to : ZFSSendArgVersion) (jobID : JobID) :
  MoveLastReceivedHold fs to jobID (start p) =
  match ValidateExists p to fs with
  | Ok _ =>
      match EntityNamecheck (FullPath to fs) EntityTypeSnapshot with
      | Some e => (Err e, start p)
      | None =>
          match LastReceivedHoldTag jobID with
          | Ok tag =>
              match ZFSHold p fs to tag with
              | Ok p1 =>
                  match ZFSReleaseAllOlderThanGUID p1 fs (GUID to) tag with
                  | Ok p2 => (Ok tt, mkWorld p2 [p1; p])
                  | Err e =>
                      (Err (Wrap e "last-received-hold: release older holds"),
                       mkWorld p1 [p])
                  | Panic msg => (Panic msg, mkWorld p1 [p])
                  end
              | Err e =>
                  (Err (Wrap e "last-received-hold: hold newly received"),
                   start p)
              | Panic msg => (Panic msg, start p)
              end
          | Err e => (Err (Wrap e "last-received-hold: hold tag"), start p)
          | Panic msg => (Panic msg, start p)
          end
      end
  | Err e => (Err e, start p)
  | Panic msg => (Panic msg, start p)
  end.
Proof.
  unfold MoveLastReceivedHold, mbind, query, lift, mwrap, mutate, start.
  simpl.
  destruct (ValidateExists p to fs); try reflexivity.
  destruct (EntityNamecheck (FullPath to fs) EntityTypeSnapshot);
    try reflexivity.
  destruct (LastReceivedHoldTag jobID) as [tag| |]; simpl; try reflexivity.
  destruct (ZFSHold p fs to tag) as [p1| |]; simpl; try reflexivity.
  destruct (ZFSReleaseAllOlderThanGUID p1 fs (GUID to) tag);
    simpl; reflexivity.
Qed.

Lemma ValidateExists_Ok (p : Pool) (v : ZFSSendArgVersion) (fs : string) :
  ValidateExists p v fs = Ok tt ->
  exists d, find_path p (FullPath v fs) = Some d /\
            Guid (Version d) = GUID v /\
            ValidateExistsAndGetCheckedProps p v fs
            = Ok (mkProps (CreateTXG (Version d)) (Guid (Version d))) /\
            (IsSnapshot v = true \/ MustBeBookmark v = Ok tt).
Proof.
  unfold ValidateExists, ValidateExistsAndGetCheckedProps,
    ZFSGetCreateTXGAndGuid.
  destruct (IsSnapshot v) eqn:Hs; simpl.
  - destruct (find_path p (FullPath v fs)) as [d|]; simpl; [|discriminate].
    destruct (N.eqb_spec (Guid (Version d)) (GUID v)); [|discriminate].
    intros _. exists d. auto.
  - destruct (MustBeBookmark v) as [[]| |] eqn:Hb; simpl; try discriminate.
    destruct (find_path p (FullPath v fs)) as [d|]; simpl; [|discriminate].
    destruct (N.eqb_spec (Guid (Version d)) (GUID v)); [|discriminate].
    intros _. exists d. auto.
Qed.

Lemma ValidateExists_no_panic (p : Pool) (v : ZFSSendArgVersion) (fs msg : string) :
  ValidateExists p v fs = Panic msg -> False.
Proof.
  unfold ValidateExists, ValidateExistsAndGetCheckedProps,
    ZFSGetCreateTXGAndGuid.
  destruct (negb (IsSnapshot v) && negb (is_ok (MustBeBookmark v)));
    [discriminate|].
  destruct (find_path p (FullPath v fs)) as [d|]; simpl; [|discriminate].
  destruct (_ =? GUID v)%N; discriminate.
Qed.

Lemma bookmark_arg_has_hash (v : ZFSSendArgVersion) (fs : string) :
  MustBeBookmark v = Ok tt -> Bytes.contains "#" (FullPath v fs) = true.
Proof.
  unfold MustBeBookmark, FullPath. destruct (RelName v) as [|a n];
    [discriminate|].
  destruct (Ascii.eqb_spec a "#"); [|discriminate]. subst a. intros _.
  rewrite contains_app. simpl. now rewrite orb_true_r.
Qed.

(** The tag [LastReceivedHoldTag] returns is the literal prefix followed by
    the job id, which is not empty and which [zfs.ValidHoldTag] accepts. *)
Lemma LastReceivedHoldTag_Ok (jobID : JobID) (tag : string) :
  LastReceivedHoldTag jobID = Ok tag <->
  jid jobID <> EmptyString /\
  ValidHoldTag ("zrepl_last_received_J_" ++ jid jobID) = None /\
  tag = "zrepl_last_received_J_" ++ jid jobID.
Proof.
  unfold LastReceivedHoldTag, JobID_String, expectInitialized.
  destruct (String.eqb_spec (jid jobID) EmptyString) as [E|E]; cbn [bind].
  - split; [discriminate | intros (H & _); now elim H].
  - remember ("zrepl_last_received_J_" ++ jid jobID) as t eqn:Et.
    destruct (ValidHoldTag t).
    + split; [discriminate | intros (_ & H & _); discriminate].
    + split.
      * intros H. injection H as <-. auto.
      * intros (_ & _ & ->). reflexivity.
Qed.

(** C1.  [MoveLastReceivedHold] acquires the hold tagged
    [zrepl_last_received_J_<jobid>] on [to] first and releases the older
    holds of that tag afterwards, and the release is strict.  Whatever the
    outcome, the only calls that change the store are the hold with that tag
    and then the strict release with that tag, in this order.  For a [to]
    that exists and is a snapshot the store goes through [p], [p1] (hold
    acquired) and [p2] (older holds released), the hold is on [to] in [p1]
    and in [p2], datasets that are not older than [to] are left as they are,
    and so some snapshot carries the hold at every point from the acquire on.
    A [to] that is not a snapshot is rejected with an error before any
    mutation. *)
Theorem MoveLastReceivedHold_no_gap (p : Pool) (fs : string)
  (to : ZFSSendArgVersion) (jobID : JobID) (r : result unit) (w : World) :
  (forall path, Bytes.contains "#" path = true ->
                EntityNamecheck path EntityTypeSnapshot <> None) ->
  wf_pool p -> no_delimiter fs = true ->
  MoveLastReceivedHold fs to jobID (start p) = (r, w) ->
  let tag := "zrepl_last_received_J_" ++ jid jobID in
  (IsSnapshot to = false -> is_err r = true /\ w = start p) /\
  (w = start p \/
   exists p1,
     ZFSHold p fs to tag = Ok p1 /\
     (history w = [p; p1] \/
      exists p2,
        ZFSReleaseAllOlderThanGUID p1 fs (GUID to) tag = Ok p2 /\
        history w = [p; p1; p2])) /\
  (forall props,
      ValidateExistsAndGetCheckedProps p to fs = Ok props ->
      IsSnapshot to = true ->
      EntityNamecheck (FullPath to fs) EntityTypeSnapshot = None ->
      jid jobID <> EmptyString ->
      ValidHoldTag tag = None ->
      exists p1 p2,
        r = Ok tt /\ history w = [p; p1; p2] /\
        ZFSHold p fs to tag = Ok p1 /\
        ZFSReleaseAllOlderThanGUID p1 fs (GUID to) tag = Ok p2 /\
        holds_tag_at p1 (FullPath to fs) tag = true /\
        holds_tag_at p2 (FullPath to fs) tag = true /\
        carries tag p1 = true /\ carries tag p2 = true /\
        (forall d, In d (Datasets p1) ->
                   (PropCreateTXG props <= CreateTXG (Version d))%N ->
                   In d (Datasets p2))).
Proof.
  intros Hnc Hwf Hfs Hrun.
  remember ("zrepl_last_received_J_" ++ jid jobID) as tag eqn:Etag.
  cbv zeta.
  rewrite MoveLastReceivedHold_run in Hrun.
  destruct (ValidateExists p to fs) as [[]|e|msg] eqn:Hv.
  3: now apply ValidateExists_no_panic in Hv.
  2: { inversion Hrun; subst r w. split; [auto|]. split; [now left|].
       intros props Hp. unfold ValidateExists in Hv. rewrite Hp in Hv.
       discriminate. }
  destruct (ValidateExists_Ok _ _ _ Hv) as (d & Hf & Hg & Hprops & Hkind).
  destruct (EntityNamecheck (FullPath to fs) EntityTypeSnapshot) as [e|] eqn:Hn.
  { inversion Hrun; subst r w. split; [auto|]. split; [now left|].
    intros; discriminate. }
  assert (Hsnap : IsSnapshot to = true).
  { destruct Hkind as [H|H]; [exact H|].
    apply (bookmark_arg_has_hash _ fs) in H. apply Hnc in H. congruence. }
  assert (Hd : is_snapshot d = true).
  { unfold is_snapshot. destruct (Type_ (Version d)) eqn:Ht; [|reflexivity].
    apply bookmark_path_has_hash in Ht.
    destruct (find_path_In _ _ _ Hf) as [_ Hp]. rewrite Hp in Ht.
    apply Hnc in Ht. congruence. }
  pose proof (snapshot_in_fs _ _ _ _ Hwf Hfs Hf Hd Hsnap) as Hin.
  destruct (LastReceivedHoldTag jobID) as [tag0| |] eqn:Htag.
  2,3: inversion Hrun; subst r w; (split; [intros; congruence|]);
       (split; [now left|]); intros props _ _ _ Hne Hvt.
  2: { assert (H : LastReceivedHoldTag jobID = Ok tag).
       { apply LastReceivedHoldTag_Ok. rewrite <- Etag. auto. }
       rewrite H in Htag. discriminate. }
  2: { assert (H : LastReceivedHoldTag jobID = Ok tag).
       { apply LastReceivedHoldTag_Ok. rewrite <- Etag. auto. }
       rewrite H in Htag. discriminate. }
  assert (E0 : tag0 = tag).
  { apply LastReceivedHoldTag_Ok in Htag. rewrite <- Etag in Htag.
    now destruct Htag as (_ & _ & ->). }
  subst tag0.
  assert (Hhold : exists p1, ZFSHold p fs to tag = Ok p1).
  { unfold ZFSHold. rewrite Hf. unfold is_snapshot in Hd.
    destruct (Type_ (Version d)); [discriminate|]. eauto. }
  destruct Hhold as [p1 Hhold]. rewrite Hhold in Hrun.
  destruct (ZFSHold_Ok _ _ _ _ _ Hhold) as (d' & Hf' & _ & Hp1 & Hf1).
  rewrite Hf in Hf'. inversion Hf'; subst d'. clear Hf'.
  assert (Hwf1 : wf_pool p1).
  { rewrite Hp1. apply wf_update; [apply add_tag_same | exact Hwf]. }
  destruct (add_tag_same tag d) as [Efs Ever].
  destruct (ZFSReleaseAllOlderThanGUID_strict p1 fs (FullPath to fs) tag
              (add_tag tag d) Hwf1 Hf1 (eq_trans Efs Hin))
    as (p2 & Hrel & Hf2 & Hkeep).
  rewrite Ever, Hg in Hrel. rewrite Hrel in Hrun.
  inversion Hrun; subst r w. clear Hrun.
  split; [intros; congruence|]. split.
  { right. exists p1. split; [exact Hhold|]. right. exists p2.
    split; [exact Hrel | reflexivity]. }
  intros props Hp _ _ _ _.
  rewrite Hprops in Hp. inversion Hp; subst props. simpl.
  exists p1, p2.
  assert (Hs' : is_snapshot (add_tag tag d) = true).
  { unfold is_snapshot. now rewrite Ever. }
  repeat split; auto.
  - unfold holds_tag_at. rewrite Hf1. apply has_tag_add_tag.
  - unfold holds_tag_at. rewrite Hf2. apply has_tag_add_tag.
  - exact (carries_of_holds _ _ _ _ Hf1 Hs' (has_tag_add_tag tag d)).
  - exact (carries_of_holds _ _ _ _ Hf2 Hs' (has_tag_add_tag tag d)).
  - intros e He Hle. apply Hkeep; [exact He|]. now rewrite Ever.
Qed.

(** ** SetReplicationCursor *)

Lemma find_app_last {A} (f : A -> bool) (l : list A) (x : A) :
  find f l = None -> find f (l ++ [x])%list = if f x then Some x else None.
Proof.
  induction l as [|a l IH]; simpl; [reflexivity|].
  destruct (f a); [discriminate | exact IH].
Qed.

Lemma find_filter_other {A} (f g : A -> bool) (l : list A) :
  (forall a, f a = true -> g a = true) ->
  find f (filter g l) = find f l.
Proof.
  intros H. induction l as [|a l IH]; simpl; [reflexivity|].
  destruct (g a) eqn:G; simpl.
  - destruct (f a); [reflexivity | exact IH].
  - destruct (f a) eqn:F; [apply H in F; congruence | exact IH].
Qed.

Lemma find_filter_self {A} (f : A -> bool) (l : list A) :
  find f (filter (fun a => negb (f a)) l) = None.
Proof.
  induction l as [|a l IH]; simpl; [reflexivity|].
  destruct (f a) eqn:F; simpl; [exact IH | now rewrite F].
Qed.

(** Destroying the dataset at [path] leaves nothing there and keeps what is
    found at any other path. *)
Lemma ZFSDestroy_Ok (p p1 : Pool) (path : string) :
  ZFSDestroy p path = Ok p1 ->
  find_path p1 path = None /\
  BookmarkCloning p1 = BookmarkCloning p /\
  forall other, other <> path -> find_path p1 other = find_path p other.
Proof.
  unfold ZFSDestroy. destruct (find_path p path) as [d|]; [|discriminate].
  destruct (Holds d); [|discriminate].
  intros H. inversion H; subst p1. unfold find_path. simpl.
  split; [apply find_filter_self|]. split; [reflexivity|].
  intros other Hne. apply find_filter_other.
  intros a Ha. unfold at_path in *. apply String.eqb_eq in Ha.
  apply negb_true_iff. apply String.eqb_neq. congruence.
Qed.

(** Where no bookmark of the name exists, [ZFSBookmark] creates it with the
    properties of its source, unless the source is a bookmark and the pool
    cannot clone bookmarks. *)
Lemma ZFSBookmark_creates (q : Pool) (fs : string) (v : ZFSSendArgVersion)
  (name : string) (src : Dataset) :
  find_path q (FullPath v fs) = Some src ->
  find_path q (fs ++ "#" ++ name) = None ->
  (Type_ (Version src) = Bookmark /\ BookmarkCloning q = false /\
   ZFSBookmark q fs v name = Err ErrBookmarkCloningNotSupported) \/
  ((Type_ (Version src) = Snapshot \/ BookmarkCloning q = true) /\
   exists q',
     ZFSBookmark q fs v name = Ok q' /\
     ZFSGetCreateTXGAndGuid q' (fs ++ "#" ++ name)
     = Ok (mkProps (CreateTXG (Version src)) (Guid (Version src)))).
Proof.
  intros Hs Hn. unfold ZFSBookmark. rewrite Hs, Hn.
  assert (Hnew : forall q',
    q' = mkPool (Datasets q ++
                 [mkDataset fs (mkVersion Bookmark name (Guid (Version src))
                    (CreateTXG (Version src)) (Creation (Version src))) []])%list
                (BookmarkCloning q) ->
    ZFSGetCreateTXGAndGuid q' (fs ++ "#" ++ name)
    = Ok (mkProps (CreateTXG (Version src)) (Guid (Version src)))).
  { intros q' ->. unfold ZFSGetCreateTXGAndGuid, find_path. simpl.
    rewrite find_app_last by exact Hn.
    unfold at_path, AbsPath, ToAbsPath. simpl.
    now rewrite String.eqb_refl. }
  destruct (Type_ (Version src)) eqn:Ht.
  - destruct (BookmarkCloning q) eqn:Hc.
    + right. split; [now right|]. eexists. split; [reflexivity|].
      now apply Hnew.
    + left. auto.
  - right. split; [now left|]. eexists. split; [reflexivity|].
    now apply Hnew.
Qed.

Lemma createCursorBookmark_run (fs : string) (target : ZFSSendArgVersion)
  (w : World) :
  createCursorBookmark fs target w =
  match ZFSBookmark (now w) fs target ReplicationCursorBookmarkName with
  | Ok q' => (Ok tt, mkWorld q' (now w :: past w))
  | Err ErrBookmarkCloningNotSupported => (Err ErrBookmarkCloningNotSupported, w)
  | Err e => (Err (Wrap e "cannot create bookmark"), w)
  | Panic msg => (Panic msg, w)
  end.
Proof.
  unfold createCursorBookmark, mbind, attempt, mutate, lift, ret.
  destruct (ZFSBookmark (now w) fs target ReplicationCursorBookmarkName)
    as [q'|e|msg]; try reflexivity.
  destruct e; reflexivity.
Qed.

Lemma ValidateExistsAndGetCheckedProps_Ok (p : Pool) (v : ZFSSendArgVersion)
  (fs : string) (props : ZFSPropCreateTxgAndGuidProps) :
  ValidateExistsAndGetCheckedProps p v fs = Ok props ->
  exists d, find_path p (FullPath v fs) = Some d /\
            props = mkProps (CreateTXG (Version d)) (Guid (Version d)).
Proof.
  unfold ValidateExistsAndGetCheckedProps, ZFSGetCreateTXGAndGuid.
  destruct (negb (IsSnapshot v) && negb (is_ok (MustBeBookmark v)));
    [discriminate|].
  destruct (find_path p (FullPath v fs)) as [d|]; simpl; [|discriminate].
  destruct (_ =? GUID v)%N; [|discriminate].
  intros H. inversion H. eauto.
Qed.

(** The port calls of [SetReplicationCursor] on a non-empty filesystem name
    and a target that validates. *)
Lemma SetReplicationCursor_run (p : Pool) (fs : string)
  (target : ZFSSendArgVersion) (snapProps : ZFSPropCreateTxgAndGuidProps) :
  fs <> EmptyString ->
  ValidateExistsAndGetCheckedProps p target fs = Ok snapProps ->
  SetReplicationCursor fs target (start p) =
  match find_path p (fs ++ "#" ++ ReplicationCursorBookmarkName) with
  | None => createCursorBookmark fs target (start p)
  | Some c =>
      if (PropCreateTXG snapProps <? CreateTXG (Version c))%N then
        (Err (ErrMsg "can only be advanced, not set back"), start p)
      else if (Guid (Version c) =? PropGuid snapProps)%N then
        (Ok tt, start p)
      else
        match ZFSDestroy p (fs ++ "#" ++ ReplicationCursorBookmarkName) with
        | Ok p1 => createCursorBookmark fs target (mkWorld p1 [p])
        | Err e =>
            (Err (Wrap e "cannot destroy current cursor to move it to new"),
             start p)
        | Panic msg => (Panic msg, start p)
        end
  end.
Proof.
  intros Hfs Hv. unfold SetReplicationCursor.
  destruct fs as [|a fs']; [now elim Hfs|].
  cbn [String.length Nat.eqb].
  unfold start. unfold mbind at 1. unfold mwrap, query. cbn [now].
  rewrite Hv. cbn [wrap].
  unfold mbind at 1. unfold attempt, query, ZFSGetCreateTXGAndGuid. cbn [now].
  destruct (find_path p _) as [c|]; [|reflexivity].
  cbn [PropCreateTXG PropGuid].
  destruct (_ <? _)%N; [reflexivity|].
  destruct (_ =? _)%N; [reflexivity|].
  unfold mbind, mwrap, mutate. cbn [now past].
  destruct (ZFSDestroy p _); reflexivity.
Qed.

Lemma createCursorBookmark_spec (q : Pool) (before : list Pool) (fs : string)
  (target : ZFSSendArgVersion) (src : Dataset) (r : result unit) (w : World) :
  find_path q (FullPath target fs) = Some src ->
  find_path q (fs ++ "#" ++ ReplicationCursorBookmarkName) = None ->
  createCursorBookmark fs target (mkWorld q before) = (r, w) ->
  (r = Ok tt ->
   cursor (now w) fs
   = Ok (mkProps (CreateTXG (Version src)) (Guid (Version src))) /\
   ZFSBookmark q fs target ReplicationCursorBookmarkName = Ok (now w) /\
   past w = q :: before) /\
  (Type_ (Version src) = Snapshot \/ BookmarkCloning q = true -> r = Ok tt).
Proof.
  intros Hs Hn. rewrite createCursorBookmark_run. cbn [now past].
  destruct (ZFSBookmark_creates q fs target ReplicationCursorBookmarkName
              src Hs Hn) as [(Ht & Hc & ->)|(Hok & q' & -> & Hcur)].
  - intros H. inversion H; subst. split; [discriminate|].
    intros [H1|H1]; congruence.
  - intros H. inversion H; subst. cbn [now past]. auto.
Qed.


(** ** ReleaseStepAll *)

Lemma stepBookmarkFilter_rejects (fs : string) (jobID : JobID)
  (t : VersionType) (name : string) :
  starts_with_z fs = false ->
  stepBookmarkFilter fs jobID t name = Ok false.
Proof.
  intros Hz. unfold stepBookmarkFilter.
  assert (E : is_err (ParseStepBookmarkName (fs ++ "#" ++ name)) = true).
  { destruct fs as [|a fs]; simpl in *;
      apply ParseStepBookmarkName_first_rune; [reflexivity | exact Hz]. }
  destruct (ParseStepBookmarkName (fs ++ "#" ++ name)); try discriminate.
  now rewrite andb_false_r.
Qed.

(** A listing whose filter accepts nothing is empty. *)
Lemma ZFSListFilesystemVersions_rejecting (f : FilesystemVersionFilter)
  (listResults : list ZFSListResult) (versions : list FilesystemVersion) :
  (forall t name, f t name = Ok false) ->
  ZFSListFilesystemVersions listResults (Some f) = Ok versions ->
  versions = [].
Proof.
  intros Hf. unfold ZFSListFilesystemVersions.
  induction listResults as [|x l IH]; simpl.
  - intros H. now inversion H.
  - destruct x as [line| |e]; [| intros H; now inversion H | discriminate].
    destruct (field 0 line) as [l0| |]; simpl; try discriminate.
    destruct (DecomposeVersionString l0) as [[[fs0 ty] nm]| |]; simpl;
      try discriminate.
    destruct (field 1 line) as [l1| |]; simpl; try discriminate.
    destruct (Strconv.ParseUint l1); simpl; try discriminate.
    destruct (field 2 line) as [l2| |]; simpl; try discriminate.
    destruct (Strconv.ParseUint l2); simpl; try discriminate.
    destruct (field 3 line) as [l3| |]; simpl; try discriminate.
    destruct (Strconv.ParseInt l3); simpl; try discriminate.
    rewrite Hf. simpl. exact IH.
Qed.

Lemma update_keeps_bookmarks (f : Dataset -> Dataset) (sel : Dataset -> bool)
  (p : Pool) :
  (forall d, sel d = true -> is_snapshot d = true) ->
  (forall d, is_snapshot (f d) = is_snapshot d) ->
  filter is_bookmark (Datasets (update f sel p))
  = filter is_bookmark (Datasets p).
Proof.
  intros Hsel Hf. unfold update. simpl.
  induction (Datasets p) as [|x l IH]; simpl; [reflexivity|].
  rewrite IH. destruct (sel x) eqn:Hx; [|reflexivity].
  unfold is_bookmark. rewrite Hf, (Hsel x Hx). reflexivity.
Qed.

Lemma release_keeps_bookmarks (including : bool) (p p1 : Pool)
  (fs : string) (guid : N) (tag : string) :
  ZFSReleaseAllOlder including p fs guid tag = Ok p1 ->
  filter is_bookmark (Datasets p1) = filter is_bookmark (Datasets p).
Proof.
  unfold ZFSReleaseAllOlder. destruct (find _ (Datasets p)); [|discriminate].
  intros H. injection H as <-. apply update_keeps_bookmarks.
  - intros x Hx. apply andb_prop in Hx. destruct Hx as [Hx _].
    apply andb_prop in Hx. destruct Hx as [_ Hx]. exact Hx.
  - reflexivity.
Qed.

(** C2.  On a filesystem whose name does not start with the byte [z],
    [ReleaseStepAll] destroys no bookmark at all: the filter of the listing
    decodes the full name, which fails on every name, so no step bookmark
    of the job is found, whatever its create_txg. *)
Theorem ReleaseStepAll_keeps_step_bookmarks (p : Pool) (fs : string)
  (mostRecent : ZFSSendArgVersion) (jobID : JobID) (r : result unit)
  (w : World) :
  starts_with_z fs = false ->
  ReleaseStepAll fs mostRecent jobID (start p) = (r, w) ->
  filter is_bookmark (Datasets (now w)) = filter is_bookmark (Datasets p).
Proof.
  intros Hz. unfold ReleaseStepAll, mbind, mwrap, lift, query, mutate, start.
  cbn [now past].
  destruct (NewDatasetPath fs) as [fsp| |]; simpl;
    try (intros H; inversion H; reflexivity).
  destruct (ValidateExistsAndGetCheckedProps p mostRecent fs) as [props| |];
    simpl; try (intros H; inversion H; reflexivity).
  destruct (StepHoldTag jobID) as [tag| |]; simpl;
    try (intros H; inversion H; reflexivity).
  destruct (ZFSReleaseAllOlderAndIncludingGUID p fs (GUID mostRecent) tag)
    as [p1| |] eqn:Hrel; simpl; try (intros H; inversion H; reflexivity).
  apply release_keeps_bookmarks in Hrel.
  destruct (ZFSListFilesystemVersions _ _) as [versions| |] eqn:Hl; simpl;
    try (intros H; inversion H; exact Hrel).
  apply ZFSListFilesystemVersions_rejecting in Hl;
    [|intros; now apply stepBookmarkFilter_rejects].
  subst versions. simpl. unfold ret. intros H. inversion H. exact Hrel.
Qed.

(** ** ReleaseStep *)

Lemma hexdigit_no_delimiter (d : N) (c : ascii) :
  (d < 16)%N -> c = "#"%char \/ c = "@"%char ->
  Ascii.eqb c (Fmt.hexdigit d) = false.
Proof.
  intros H Hc.
  assert (E : (d = 0 \/ d = 1 \/ d = 2 \/ d = 3 \/ d = 4 \/ d = 5 \/ d = 6
               \/ d = 7 \/ d = 8 \/ d = 9 \/ d = 10 \/ d = 11 \/ d = 12
               \/ d = 13 \/ d = 14 \/ d = 15)%N) by lia.
  destruct Hc; subst c;
    repeat (destruct E as [E|E]; [subst d; reflexivity|]);
    subst d; reflexivity.
Qed.

Lemma Sprintf_016x_no_delimiter (guid : N) (c : ascii) :
  c = "#"%char \/ c = "@"%char ->
  Bytes.contains c (Fmt.Sprintf_016x guid) = false.
Proof.
  intros Hc. unfold Bytes.contains, Fmt.Sprintf_016x.
  rewrite list_ascii_of_string_of_list_ascii.
  induction (rev (seq 0 16)) as [|i l IH]; simpl; [reflexivity|].
  rewrite IH, orb_false_r. apply hexdigit_no_delimiter; [|exact Hc].
  apply N.mod_lt. discriminate.
Qed.

Lemma AbsPath_has_delimiter (d : Dataset) :
  no_delimiter (AbsPath d) = false.
Proof.
  unfold no_delimiter, AbsPath, ToAbsPath.
  destruct (Type_ (Version d)); cbn [DelimiterChar ToString];
    rewrite !contains_app; cbn.
  - rewrite (orb_true_r (Bytes.contains "#" _)). apply andb_false_r.
  - rewrite (orb_true_r (Bytes.contains "@" _)). reflexivity.
Qed.

Lemma find_path_no_delimiter (p : Pool) (path : string) :
  no_delimiter path = true -> find_path p path = None.
Proof.
  intros H. destruct (find_path p path) as [d|] eqn:E; [|reflexivity].
  apply find_path_In in E. destruct E as [_ E].
  rewrite <- E, AbsPath_has_delimiter in H. discriminate.
Qed.

Lemma StepBookmarkName_no_delimiter (fs : string) (guid : N) (j : JobID)
  (bmname : string) :
  no_delimiter (jid j) = true ->
  StepBookmarkName fs guid j = Ok bmname ->
  no_delimiter bmname = true.
Proof.
  unfold StepBookmarkName, JobID_String. intros Hj.
  destruct (expectInitialized j); cbn [bind]; try discriminate.
  remember ("zrepl_STEP_G_" ++ Fmt.Sprintf_016x guid ++ "_J_" ++ jid j)
    as b eqn:Eb.
  destruct (EntityNamecheck _ _); [discriminate|].
  intros H. injection H as <-. subst b.
  unfold no_delimiter in *. apply andb_prop in Hj. destruct Hj as [H1 H2].
  apply negb_true_iff in H1. apply negb_true_iff in H2.
  rewrite !contains_app, H1, H2.
  rewrite !Sprintf_016x_no_delimiter by auto. reflexivity.
Qed.

(** C7.  For a bookmark and a job id without delimiters, [ReleaseStep] leaves
    the store as it found it: [ZFSDestroyIdempotent] is called with the bare
    name [zrepl_STEP_G_<16-hex-guid>_J_<jobid>], without the dataset path and
    the [#], and no snapshot or bookmark has a path without a delimiter; the
    step bookmark of the dataset is not destroyed. *)
Theorem ReleaseStep_bookmark_not_destroyed (p : Pool) (fs : string)
  (v : ZFSSendArgVersion) (jobID : JobID) (r : result unit) (w : World) :
  no_delimiter (jid jobID) = true ->
  IsSnapshot v = false ->
  ReleaseStep fs v jobID (start p) = (r, w) ->
  now w = p.
Proof.
  intros Hj Hs. unfold ReleaseStep, mbind, mwrap, lift, query, mutate, start.
  cbn [now past]. rewrite Hs.
  destruct (ValidateExists p v fs); simpl;
    try (intros H; inversion H; reflexivity).
  destruct (MustBeBookmark v); simpl;
    try (intros H; inversion H; reflexivity).
  destruct (StepBookmarkName fs (GUID v) jobID) as [bmname| |] eqn:Hb; simpl;
    try (intros H; inversion H; reflexivity).
  apply StepBookmarkName_no_delimiter in Hb; [|exact Hj].
  unfold ZFSDestroyIdempotent, ZFSDestroy.
  rewrite (find_path_no_delimiter p bmname Hb). simpl.
  intros H. inversion H. reflexivity.
Qed.

Lemma has_tag_remove_tag (tag : string) (d : Dataset) :
  has_tag tag (remove_tag tag d) = false.
Proof.
  unfold has_tag, remove_tag. simpl.
  induction (Holds d) as [|t l IH]; simpl; [reflexivity|].
  destruct (String.eqb tag t) eqn:E; simpl; [exact IH | now rewrite E].
Qed.

(** The snapshot half of [ReleaseStep]: the step hold of the job is released
    from the snapshot at [v]'s full path that carries it. *)
Lemma ReleaseStep_snapshot (p : Pool) (fs : string) (v : ZFSSendArgVersion)
  (jobID : JobID) (tag : string) :
  ValidateExists p v fs = Ok tt -> IsSnapshot v = true ->
  StepHoldTag jobID = Ok tag ->
  holds_tag_at p (FullPath v fs) tag = true ->
  ReleaseStep fs v jobID (start p)
  = (Ok tt, mkWorld (update (remove_tag tag) (at_path (FullPath v fs)) p) [p])
  /\ holds_tag_at (update (remove_tag tag) (at_path (FullPath v fs)) p)
                  (FullPath v fs) tag = false.
Proof.
  intros Hv Hs Ht Hheld.
  destruct (ValidateExists_Ok _ _ _ Hv) as (d & Hf & _).
  unfold ReleaseStep, mbind, mwrap, lift, query, mutate, start.
  cbn [now past]. rewrite Hv, Hs, Ht. simpl.
  unfold holds_tag_at in Hheld. rewrite Hf in Hheld.
  unfold ZFSRelease. rewrite Hf, Hheld. simpl. split; [reflexivity|].
  unfold holds_tag_at.
  rewrite find_path_update by apply AbsPath_remove_tag. rewrite Hf. simpl.
  destruct (at_path (FullPath v fs) d) eqn:E.
  - apply has_tag_remove_tag.
  - apply find_path_In in Hf. destruct Hf as [_ Hf].
    unfold at_path in E. rewrite Hf, String.eqb_refl in E. discriminate.
Qed.

(** ** Fully-qualified names: composition and decomposition *)

Lemma cut_app (c : ascii) (l r : string) :
  Bytes.contains c l = false -> Bytes.cut c (l ++ String c r) = Some (l, r).
Proof.
  unfold Bytes.contains. induction l as [|a l IH]; simpl; intros H.
  - now rewrite Ascii.eqb_refl.
  - apply orb_false_iff in H. destruct H as [Ha Hl].
    rewrite Ascii.eqb_sym in Ha. rewrite Ha, (IH Hl). reflexivity.
Qed.

Lemma DecomposeVersionString_compose (v : FilesystemVersion)
  (p : DatasetPath) :
  no_delimiter (ToString p) = true ->
  Bytes.contains (match Type_ v with Snapshot => "#" | Bookmark => "@" end)
                 (Name v) = false ->
  3 <= String.length (ToAbsPath v p) ->
  DecomposeVersionString (ToAbsPath v p) = Ok (ToString p, Type_ v, Name v).
Proof.
  intros Hfs Hname Hlen. unfold DecomposeVersionString.
  apply Nat.ltb_ge in Hlen. rewrite Hlen.
  unfold no_delimiter in Hfs. apply andb_prop in Hfs.
  destruct Hfs as [Hat Hhash].
  apply negb_true_iff in Hat. apply negb_true_iff in Hhash.
  unfold ToAbsPath, Bytes.SplitN2.
  destruct (Type_ v); cbn [DelimiterChar].
  - (* bookmark *)
    assert (Hnone : Bytes.cut "@" (ToString p ++ "#" ++ Name v) = None).
    { apply cut_none. rewrite contains_app, Hat. cbn.
      change (existsb (Ascii.eqb "@") (list_ascii_of_string (Name v)))
        with (Bytes.contains "@" (Name v)). exact Hname. }
    rewrite Hnone.
    change (ToString p ++ "#" ++ Name v)
      with (ToString p ++ String "#" (Name v)).
    rewrite (cut_app _ _ _ Hhash). reflexivity.
  - (* snapshot *)
    assert (Hnone : Bytes.cut "#" (ToString p ++ "@" ++ Name v) = None).
    { apply cut_none. rewrite contains_app, Hhash. cbn.
      change (existsb (Ascii.eqb "#") (list_ascii_of_string (Name v)))
        with (Bytes.contains "#" (Name v)). exact Hname. }
    rewrite Hnone.
    change (ToString p ++ "@" ++ Name v)
      with (ToString p ++ String "@" (Name v)).
    rewrite (cut_app _ _ _ Hat). reflexivity.
Qed.

(** X1.  Decomposing the absolute path [ToAbsPath] composes gives back the
    dataset path, the type and the name, when the dataset path holds no
    delimiter, the name does not hold the delimiter of the other type and the
    path has at least three bytes. *)
Theorem DecomposeVersionString_ToAbsPath (v : FilesystemVersion)
  (p : DatasetPath) :
  no_delimiter (ToString p) = true ->
  Bytes.contains (match Type_ v with Snapshot => "#" | Bookmark => "@" end)
                 (Name v) = false ->
  3 <= String.length (ToAbsPath v p) ->
  DecomposeVersionString (ToAbsPath v p) = Ok (ToString p, Type_ v, Name v).
Proof.
  exact (DecomposeVersionString_compose v p).
Qed.

(** X2.  What [DecomposeVersionString] returns composes to its input: the
    input is the filesystem, the delimiter of the returned type and the name,
    the filesystem holds no delimiter of either type, and the name does not
    hold the delimiter of the other type. *)
Theorem DecomposeVersionString_Ok (s fs name : string) (t : VersionType) :
  DecomposeVersionString s = Ok (fs, t, name) ->
  s = ToAbsPath (mkVersion t name 0 0 0) (mkDatasetPath fs) /\
  no_delimiter fs = true /\
  Bytes.contains (match t with Snapshot => "#" | Bookmark => "@" end) name
  = false /\
  3 <= String.length s.
Proof.
  unfold DecomposeVersionString.
  destruct (Nat.ltb_spec (String.length s) 3) as [|Hlen]; [discriminate|].
  rewrite !SplitN2_length. unfold Bytes.SplitN2, ToAbsPath, no_delimiter.
  cbn [Type_ Name ToString].
  destruct (Bytes.contains "@" s) eqn:Hat;
    destruct (Bytes.contains "#" s) eqn:Hhash; cbn; try discriminate.
  - destruct (cut_contains _ _ Hat) as (l & r & Hc). rewrite Hc. cbn.
    intros H. injection H as <- <- <-.
    destruct (cut_some _ _ _ _ Hc) as [-> Hl].
    rewrite contains_app in Hhash. apply orb_false_iff in Hhash.
    destruct Hhash as [H1 H2]. rewrite Hl, H1. auto.
  - destruct (cut_contains _ _ Hhash) as (l & r & Hc).
    rewrite Hc. cbn.
    intros H. injection H as <- <- <-.
    destruct (cut_some _ _ _ _ Hc) as [-> Hl].
    rewrite contains_app in Hat. apply orb_false_iff in Hat.
    destruct Hat as [H1 H2]. rewrite Hl, H1. auto.
Qed.

(** ** The listing of versions *)

Lemma ZFSListFilesystemVersions_loop_filter (g : VersionType -> string -> bool)
  (f : FilesystemVersionFilter) (listResults : list ZFSListResult) :
  (forall t name, f t name = Ok (g t name)) ->
  forall res versions,
    ZFSListFilesystemVersions_loop listResults None res = Ok versions ->
    ZFSListFilesystemVersions_loop listResults (Some f)
      (filter (fun v => g (Type_ v) (Name v)) res)
    = Ok (filter (fun v => g (Type_ v) (Name v)) versions).
Proof.
  intros Hf. induction listResults as [|x l IH]; simpl; intros res versions.
  - intros H. now injection H as <-.
  - destruct x as [line| |e]; [| intros H; now injection H as <- | discriminate].
    list_row line.
    rewrite Hf. simpl. intros H. apply IH in H.
    rewrite filter_app in H. simpl in H.
    destruct (g ty nm); [exact H|]. now rewrite app_nil_r in H.
Qed.

(** X3.  With a filter that returns no error, the listing is the listing
    without a filter restricted to the versions whose type and name the
    filter accepts, in the same order. *)
Theorem ZFSListFilesystemVersions_filter (g : VersionType -> string -> bool)
  (f : FilesystemVersionFilter) (listResults : list ZFSListResult)
  (versions : list FilesystemVersion) :
  (forall t name, f t name = Ok (g t name)) ->
  ZFSListFilesystemVersions listResults None = Ok versions ->
  ZFSListFilesystemVersions listResults (Some f)
  = Ok (filter (fun v => g (Type_ v) (Name v)) versions).
Proof.
  intros Hf H. unfold ZFSListFilesystemVersions in *.
  exact (ZFSListFilesystemVersions_loop_filter g f listResults Hf [] versions H).
Qed.

Lemma ZFSListFilesystemVersions_loop_EOF (filter : option FilesystemVersionFilter)
  (pre post : list ZFSListResult) :
  forall res versions,
    ZFSListFilesystemVersions_loop pre filter res = Ok versions ->
    ZFSListFilesystemVersions_loop (pre ++ ListErrUnexpectedEOF :: post)%list
      filter res = Ok [].
Proof.
  induction pre as [|x l IH]; simpl; intros res versions; [reflexivity|].
  destruct x as [line| |e]; [| reflexivity | discriminate].
  list_row line.
  destruct filter as [f|]; simpl.
  - destruct (f ty nm) as [accept| |]; simpl; try discriminate. apply IH.
  - apply IH.
Qed.

(** X4.  When the rows before an unexpected end of the listing parse, the
    listing is empty and there is no error: the versions read before the
    end are dropped, and so is everything after it. *)
Theorem ZFSListFilesystemVersions_unexpected_EOF
  (filter : option FilesystemVersionFilter) (pre post : list ZFSListResult)
  (versions : list FilesystemVersion) :
  ZFSListFilesystemVersions pre filter = Ok versions ->
  ZFSListFilesystemVersions (pre ++ ListErrUnexpectedEOF :: post)%list filter
  = Ok [].
Proof.
  unfold ZFSListFilesystemVersions. apply ZFSListFilesystemVersions_loop_EOF.
Qed.

(** ** JobIDs made by [MakeJobID] *)

(** X5.  A JobID made by [MakeJobID] is initialized: [String] returns the
    string it was made from, [MustValidate] does not panic, [MustMakeJobID]
    returns the same JobID, and neither tag encoder panics on it. *)
Theorem MakeJobID_initialized (s : string) (j : JobID) :
  MakeJobID s = Ok j ->
  JobID_String j = Ok s /\ MustValidate j = Ok tt /\ MustMakeJobID s = Ok j /\
  (forall msg, StepHoldTag j <> Panic msg) /\
  (forall msg, LastReceivedHoldTag j <> Panic msg).
Proof.
  intros H. pose proof H as H'. apply MakeJobID_Ok in H'.
  destruct H' as (Hne & _ & ->).
  unfold MustMakeJobID. rewrite H.
  unfold StepHoldTag, LastReceivedHoldTag, JobID_String, MustValidate,
    expectInitialized. cbn [jid].
  destruct s as [|a s]; [now elim Hne|]. cbn [String.eqb bind].
  repeat split; intros msg.
  - destruct (ValidHoldTag _); discriminate.
  - destruct (ValidHoldTag _); discriminate.
Qed.

(** ** The hold tag codecs, continued *)

Lemma append_inv_head (p a b : string) : p ++ a = p ++ b -> a = b.
Proof.
  induction p as [|c p IH]; simpl; intros H; [exact H|].
  injection H as H. now apply IH.
Qed.

(** X9.  The two tag classes are disjoint: a tag that decodes as a step hold
    tag does not decode as a last-received hold tag, and the other way
    round. *)
Theorem hold_tag_classes_disjoint (tag : string) (j : JobID) :
  (ParseStepHoldTag tag = Ok j ->
   is_err (ParseLastReceivedHoldTag tag) = true) /\
  (ParseLastReceivedHoldTag tag = Ok j ->
   is_err (ParseStepHoldTag tag) = true).
Proof.
  split; intros H.
  - apply ParseHoldTag_template in H. destruct H as (x & _ & ->).
    reflexivity.
  - apply ParseHoldTag_template in H. destruct H as (-> & _).
    reflexivity.
Qed.

Lemma until_newline_app (x rest : string) :
  Bytes.contains Fmt.newline x = false ->
  Regexp.until_newline (x ++ String Fmt.newline rest) = x.
Proof.
  induction x as [|a x IH].
  - intros _. cbn [append Regexp.until_newline].
    now rewrite Ascii.eqb_refl.
  - change (Bytes.contains Fmt.newline (String a x))
      with (Ascii.eqb Fmt.newline a || Bytes.contains Fmt.newline x).
    intros H. apply orb_false_iff in H. destruct H as [Ha Hx].
    cbn [append Regexp.until_newline].
    rewrite Ascii.eqb_sym in Ha. rewrite Ha. f_equal. now apply IH.
Qed.

(** X10.  The step hold tag decoder reads the job id field up to the first
    newline and ignores the rest of the tag (its pattern has no [$]), whereas
    the last-received hold tag decoder rejects every tag that holds a
    newline. *)
Theorem hold_tag_decoders_and_newlines (x rest tag : string) :
  (Bytes.contains Fmt.newline x = false ->
   ParseStepHoldTag ("zrepl_STEP_J_" ++ x ++ String Fmt.newline rest)
   = ParseStepHoldTag ("zrepl_STEP_J_" ++ x)) /\
  (Bytes.contains Fmt.newline tag = true ->
   is_err (ParseLastReceivedHoldTag tag) = true).
Proof.
  split.
  - intros Hx. unfold ParseStepHoldTag, Regexp.stepHoldTagRE.
    rewrite !strip_prefix_app, (until_newline_app _ _ Hx),
      (until_newline_id _ Hx). reflexivity.
  - intros Hn. unfold ParseLastReceivedHoldTag, Regexp.lastReceivedHoldTagRE.
    destruct (Bytes.strip_prefix "zrepl_last_received_J_" tag) as [r|] eqn:E;
      [|reflexivity].
    apply strip_prefix_Some in E. subst tag.
    rewrite contains_app in Hn.
    assert (Hp : Bytes.contains Fmt.newline "zrepl_last_received_J_" = false)
      by reflexivity.
    rewrite Hp in Hn. cbn [orb] in Hn.
    destruct r as [|a r]; [reflexivity|]. now rewrite Hn.
Qed.

(** ** The step bookmark codec *)

Lemma hexval_hexdigit (d : N) :
  (d < 16)%N -> Fmt.hexval (Fmt.hexdigit d) = Some d.
Proof.
  intros H.
  assert (E : (d = 0 \/ d = 1 \/ d = 2 \/ d = 3 \/ d = 4 \/ d = 5 \/ d = 6
               \/ d = 7 \/ d = 8 \/ d = 9 \/ d = 10 \/ d = 11 \/ d = 12
               \/ d = 13 \/ d = 14 \/ d = 15)%N) by lia.
  repeat (destruct E as [E|E]; [subst d; reflexivity|]).
  subst d; reflexivity.
Qed.

(** The digits [Sprintf_016x] prints, most significant first. *)
Lemma hex_digits_value (g : N) (n : nat) (acc : N) :
  fold_left (fun acc a => match Fmt.hexval a with
                          | Some d => (16 * acc + d)%N
                          | None => acc
                          end)
            (map (fun i => Fmt.hexdigit ((g / 16 ^ N.of_nat i) mod 16)%N)
                 (rev (seq 0 n)))
            acc
  = (acc * 16 ^ N.of_nat n + g mod 16 ^ N.of_nat n)%N.
Proof.
  revert acc. induction n as [|n IH]; intros acc.
  - simpl. rewrite N.mod_1_r. lia.
  - rewrite seq_S, rev_app_distr. cbn [rev app map fold_left Nat.add].
    rewrite hexval_hexdigit by (apply N.mod_lt; discriminate).
    rewrite IH, Nat2N.inj_succ, N.pow_succ_r'.
    rewrite (N.mul_comm 16 (16 ^ N.of_nat n)), N.Div0.mod_mul_r. lia.
Qed.

Lemma ParseHex_Sprintf_016x (g : N) :
  (g < 2 ^ 64)%N -> Fmt.ParseHex (Fmt.Sprintf_016x g) = g.
Proof.
  intros H. unfold Fmt.ParseHex, Fmt.Sprintf_016x.
  rewrite list_ascii_of_string_of_list_ascii, hex_digits_value.
  change (16 ^ N.of_nat 16)%N with (2 ^ 64)%N.
  rewrite N.mod_small by exact H. lia.
Qed.

Lemma length_Sprintf_016x (g : N) : String.length (Fmt.Sprintf_016x g) = 16.
Proof. reflexivity. Qed.

Lemma append_inv_length (a b x y : string) :
  String.length a = String.length b -> a ++ x = b ++ y -> a = b /\ x = y.
Proof.
  revert b. induction a as [|c a IH]; intros [|d b]; simpl; try discriminate.
  - auto.
  - intros Hl H. injection Hl as Hl. injection H as -> H.
    destruct (IH b Hl H) as [-> ->]. auto.
Qed.

(** X11.  The encoders are injective: two jobs with the same step hold tag,
    or the same last-received hold tag, are the same job, and two step
    bookmark names are equal only for the same 64-bit guid and the same
    job. *)
Theorem encoders_injective (j1 j2 : JobID) :
  (forall tag, StepHoldTag j1 = Ok tag -> StepHoldTag j2 = Ok tag -> j1 = j2)
  /\
  (forall tag, LastReceivedHoldTag j1 = Ok tag ->
               LastReceivedHoldTag j2 = Ok tag -> j1 = j2) /\
  (forall fs1 fs2 g1 g2 name,
      (g1 < 2 ^ 64)%N -> (g2 < 2 ^ 64)%N ->
      StepBookmarkName fs1 g1 j1 = Ok name ->
      StepBookmarkName fs2 g2 j2 = Ok name ->
      g1 = g2 /\ j1 = j2).
Proof.
  destruct j1 as [s1], j2 as [s2].
  unfold StepHoldTag, LastReceivedHoldTag, StepBookmarkName, JobID_String,
    expectInitialized. cbn [jid].
  split; [|split].
  - intros tag.
    destruct (String.eqb s1 EmptyString); cbn [bind]; [discriminate|].
    destruct (String.eqb s2 EmptyString); cbn [bind]; [discriminate|].
    remember ("zrepl_STEP_J_" ++ s1) as t1. remember ("zrepl_STEP_J_" ++ s2) as t2.
    destruct (ValidHoldTag t1); [discriminate|].
    destruct (ValidHoldTag t2); [discriminate|].
    intros H1 H2. injection H1 as <-. injection H2 as H2. subst t1 t2.
    apply append_inv_head in H2. now subst.
  - intros tag.
    destruct (String.eqb s1 EmptyString); cbn [bind]; [discriminate|].
    destruct (String.eqb s2 EmptyString); cbn [bind]; [discriminate|].
    remember ("zrepl_last_received_J_" ++ s1) as t1.
    remember ("zrepl_last_received_J_" ++ s2) as t2.
    destruct (ValidHoldTag t1); [discriminate|].
    destruct (ValidHoldTag t2); [discriminate|].
    intros H1 H2. injection H1 as <-. injection H2 as H2. subst t1 t2.
    apply append_inv_head in H2. now subst.
  - intros fs1 fs2 g1 g2 name Hg1 Hg2.
    destruct (String.eqb s1 EmptyString); cbn [bind]; [discriminate|].
    destruct (String.eqb s2 EmptyString); cbn [bind]; [discriminate|].
    remember ("zrepl_STEP_G_" ++ Fmt.Sprintf_016x g1 ++ "_J_" ++ s1) as t1.
    remember ("zrepl_STEP_G_" ++ Fmt.Sprintf_016x g2 ++ "_J_" ++ s2) as t2.
    destruct (EntityNamecheck _ _); [discriminate|].
    destruct (EntityNamecheck _ _); [discriminate|].
    intros H1 H2. injection H1 as <-. injection H2 as H2. subst t1 t2.
    apply append_inv_head in H2.
    apply append_inv_length in H2; [|reflexivity].
    destruct H2 as [Hh Hs]. apply append_inv_head in Hs. subst s2.
    split; [|reflexivity].
    rewrite <- (ParseHex_Sprintf_016x g1 Hg1), <- (ParseHex_Sprintf_016x g2 Hg2).
    now rewrite Hh.
Qed.

(** X12.  A name [ParseStepBookmarkName] accepts passes the bookmark name
    check as a whole and begins with the literal [zrepl_STEP_G_], and the
    JobID returned is one [MakeJobID] makes. *)
Theorem ParseStepBookmarkName_Ok (name : string) (guid : N) (j : JobID) :
  ParseStepBookmarkName name = Ok (guid, j) ->
  EntityNamecheck name EntityTypeBookmark = None /\
  (exists rest, name = "zrepl_STEP_G_" ++ rest) /\
  MakeJobID (jid j) = Ok j.
Proof.
  unfold ParseStepBookmarkName.
  destruct (EntityNamecheck name EntityTypeBookmark); [discriminate|].
  destruct (Fmt.Sscanf_stepBookmark name) as [[g s]| |] eqn:Hs;
    try discriminate.
  destruct (String.length s =? 0)%nat; [discriminate|].
  destruct (MakeJobID s) as [j'| |] eqn:Hj; cbn [wrap bind]; try discriminate.
  intros H. injection H as <- <-.
  split; [reflexivity|]. split.
  - unfold Fmt.Sscanf_stepBookmark, Fmt.advance_literal in Hs.
    destruct (Bytes.strip_prefix "zrepl_STEP_G_" name) as [rest|] eqn:Hp.
    + exists rest. now apply strip_prefix_Some.
    + destruct (_ && _); discriminate.
  - pose proof Hj as Hj'. apply MakeJobID_Ok in Hj'.
    destruct Hj' as (_ & _ & ->). exact Hj.
Qed.

Lemma between_spec (lo hi b : N) :
  Fmt.between lo hi b = true <-> (lo <= b <= hi)%N.
Proof.
  unfold Fmt.between. rewrite andb_true_iff, !N.leb_le. reflexivity.
Qed.

Lemma SpaceWidth_printable (a : ascii) (r : string) :
  Fmt.between 33 126 (Fmt.byte a) = true -> Fmt.SpaceWidth (String a r) = 0.
Proof.
  intros H. apply between_spec in H. unfold Fmt.SpaceWidth.
  set (b0 := Fmt.byte a) in *.
  assert (E1 : Fmt.between 9 13 b0 = false).
  { destruct (Fmt.between 9 13 b0) eqn:E; [|reflexivity].
    apply between_spec in E. lia. }
  assert (E2 : forall k, (126 < k)%N -> (b0 =? k)%N = false).
  { intros k Hk. apply N.eqb_neq. lia. }
  assert (E3 : (b0 =? 32)%N = false) by (apply N.eqb_neq; lia).
  rewrite E1, E3. cbn [orb].
  destruct r as [|a1 r1]; [reflexivity|].
  rewrite !E2 by lia. cbn [andb].
  destruct r1 as [|a2 r2]; reflexivity.
Qed.

Lemma RuneWidth_printable (a : ascii) (r : string) :
  Fmt.between 33 126 (Fmt.byte a) = true -> Fmt.RuneWidth (String a r) = 1.
Proof.
  intros H. apply between_spec in H. unfold Fmt.RuneWidth.
  assert (E : (Fmt.byte a <? 128)%N = true) by (apply N.ltb_lt; lia).
  now rewrite E.
Qed.

Lemma token_printable (s : string) :
  printable s = true -> Fmt.token 0 s = (s, EmptyString).
Proof.
  unfold printable. induction s as [|a r IH]; [reflexivity|].
  cbn [list_ascii_of_string forallb]. intros H. apply andb_prop in H.
  destruct H as [Ha Hr]. cbn [Fmt.token].
  rewrite (SpaceWidth_printable a r Ha), (RuneWidth_printable a r Ha).
  now rewrite (IH Hr).
Qed.

Lemma SkipSpace_printable (a : ascii) (r : string) :
  Fmt.between 33 126 (Fmt.byte a) = true ->
  Fmt.SkipSpace (String a r) = Ok (String a r).
Proof.
  intros H. unfold Fmt.SkipSpace. cbn [Fmt.SkipSpaceFrom].
  rewrite (SpaceWidth_printable a r H).
  destruct (Ascii.eqb_spec a Fmt.newline) as [->|]; [discriminate|reflexivity].
Qed.

Lemma hexdigit_printable (d : N) :
  (d < 16)%N -> Fmt.between 33 126 (Fmt.byte (Fmt.hexdigit d)) = true.
Proof.
  intros H.
  assert (E : (d = 0 \/ d = 1 \/ d = 2 \/ d = 3 \/ d = 4 \/ d = 5 \/ d = 6
               \/ d = 7 \/ d = 8 \/ d = 9 \/ d = 10 \/ d = 11 \/ d = 12
               \/ d = 13 \/ d = 14 \/ d = 15)%N) by lia.
  repeat (destruct E as [E|E]; [subst d; reflexivity|]).
  subst d; reflexivity.
Qed.

Lemma scanHex_digits (l : list ascii) (rest : string) :
  Forall (fun a => exists d, Fmt.hexval a = Some d) l ->
  Fmt.scanHex (List.length l) (string_of_list_ascii l ++ rest)
  = (string_of_list_ascii l, rest).
Proof.
  induction 1 as [|a l [d Hd] _ IH]; simpl.
  - now destruct rest.
  - now rewrite Hd, IH.
Qed.

Lemma Sscanf_stepBookmark_digits (digits : list ascii) (a : ascii)
  (s : string) :
  List.length digits = 16 ->
  Forall (fun c => exists d, (d < 16)%N /\ c = Fmt.hexdigit d) digits ->
  printable (String a s) = true ->
  Fmt.Sscanf_stepBookmark
    ("zrepl_STEP_G_" ++ string_of_list_ascii digits ++ "_J_" ++ String a s)
  = Ok (Fmt.ParseHex (string_of_list_ascii digits), String a s).
Proof.
  intros Hlen Hall Hp.
  assert (Hhex : Forall (fun c => exists d, Fmt.hexval c = Some d) digits).
  { eapply Forall_impl; [|exact Hall]. intros c (d & Hd & ->).
    exists d. now apply hexval_hexdigit. }
  unfold Fmt.Sscanf_stepBookmark, Fmt.advance_literal.
  rewrite strip_prefix_app. cbn [bind].
  destruct digits as [|c0 ds]; [discriminate|].
  assert (Hc0 : Fmt.between 33 126 (Fmt.byte c0) = true).
  { inversion Hall as [|? ? (d0 & Hd0 & ->) _].
    now apply hexdigit_printable. }
  set (R := "_J_" ++ String a s).
  change (string_of_list_ascii (c0 :: ds) ++ R)
    with (String c0 (string_of_list_ascii ds ++ R)).
  rewrite (SkipSpace_printable c0 _ Hc0). cbn [bind].
  unfold Fmt.scanUintHex.
  change (String c0 (string_of_list_ascii ds ++ R))
    with (string_of_list_ascii (c0 :: ds) ++ R).
  rewrite <- Hlen, (scanHex_digits _ R Hhex).
  cbn [string_of_list_ascii bind].
  unfold R. rewrite strip_prefix_app. cbn [bind].
  unfold printable in Hp. cbn [list_ascii_of_string forallb] in Hp.
  pose proof Hp as Hp'. apply andb_prop in Hp'. destruct Hp' as [Ha _].
  rewrite (SkipSpace_printable a s Ha). cbn [bind].
  unfold Fmt.convertString.
  rewrite (SkipSpace_printable a s Ha). cbn [bind].
  rewrite token_printable; [reflexivity | exact Hp].
Qed.

(** X13.  The bare name [StepBookmarkName] returns scans back, under the
    format of the decoder, to the 64-bit guid and the job id it was printed
    from, for job ids of printable ASCII. *)
Theorem StepBookmarkName_scans_back (fs : string) (guid : N) (j : JobID)
  (bmname : string) :
  (guid < 2 ^ 64)%N -> printable (jid j) = true ->
  StepBookmarkName fs guid j = Ok bmname ->
  Fmt.Sscanf_stepBookmark bmname = Ok (guid, jid j).
Proof.
  intros Hg Hp. unfold StepBookmarkName, JobID_String, expectInitialized.
  destruct j as [s]. cbn [jid] in *.
  destruct s as [|a s]; [discriminate|]. cbn [String.eqb bind].
  remember ("zrepl_STEP_G_" ++ Fmt.Sprintf_016x guid ++ "_J_" ++ String a s)
    as t eqn:Et.
  destruct (EntityNamecheck _ _); [discriminate|].
  intros H. injection H as <-. subst t.
  rewrite <- (ParseHex_Sprintf_016x guid Hg) at 2.
  unfold Fmt.Sprintf_016x.
  apply Sscanf_stepBookmark_digits; [reflexivity | | exact Hp].
  apply Forall_forall. intros c Hc. apply in_map_iff in Hc.
  destruct Hc as (i & <- & _). eexists. split; [|reflexivity].
  apply N.mod_lt. discriminate.
Qed.

(** ** The engine on versions that do not validate *)

(** X14.  When the version handed in does not validate (it does not exist,
    or its GUID differs), every operation of the engine fails and calls no
    mutating operation of the port: [HoldStep], [ReleaseStep] and
    [MoveLastReceivedHold] return the validation error as it is,
    [ReleaseStepAll] and [SetReplicationCursor] return an error. *)
Theorem engine_rejects_invalid_version (p : Pool) (fs : string)
  (v : ZFSSendArgVersion) (jobID : JobID) (e : error) :
  ValidateExistsAndGetCheckedProps p v fs = Err e ->
  HoldStep fs v jobID (start p) = (Err e, start p) /\
  ReleaseStep fs v jobID (start p) = (Err e, start p) /\
  MoveLastReceivedHold fs v jobID (start p) = (Err e, start p) /\
  (exists e', ReleaseStepAll fs v jobID (start p) = (Err e', start p)) /\
  (exists e', SetReplicationCursor fs v (start p) = (Err e', start p)).
Proof.
  intros H.
  assert (Hv : ValidateExists p v fs = Err e).
  { unfold ValidateExists. now rewrite H. }
  split; [|split; [|split; [|split]]].
  - unfold HoldStep, mbind, query, start. cbn [now]. now rewrite Hv.
  - unfold ReleaseStep, mbind, query, start. cbn [now]. now rewrite Hv.
  - unfold MoveLastReceivedHold, mbind, query, start. cbn [now].
    now rewrite Hv.
  - unfold ReleaseStepAll, mbind, mwrap, query, lift, start. cbn [now].
    destruct (NewDatasetPath fs) eqn:E; cbn [wrap].
    + rewrite H. cbn [wrap]. eauto.
    + eauto.
    + unfold NewDatasetPath in E. destruct (DatasetPathCheck fs); discriminate.
  - unfold SetReplicationCursor.
    destruct (String.length fs =? 0)%nat; [unfold lift; eauto|].
    unfold mbind, mwrap, query, start. cbn [now]. rewrite H. cbn [wrap].
    eauto.
Qed.

(** ** Holds of other tags and at other paths *)

Lemma has_tag_add_other (tag tag' : string) (d : Dataset) :
  tag' <> tag -> has_tag tag' (add_tag tag d) = has_tag tag' d.
Proof.
  intros H. unfold add_tag. destruct (has_tag tag d); [reflexivity|].
  unfold has_tag. simpl. rewrite existsb_app. simpl.
  apply String.eqb_neq in H. now rewrite H, !orb_false_r.
Qed.

Lemma has_tag_remove_other (tag tag' : string) (d : Dataset) :
  tag' <> tag -> has_tag tag' (remove_tag tag d) = has_tag tag' d.
Proof.
  intros H. unfold has_tag, remove_tag. simpl.
  induction (Holds d) as [|t l IH]; simpl; [reflexivity|].
  destruct (String.eqb_spec tag t) as [<-|Hne]; simpl.
  - apply String.eqb_neq in H. now rewrite H.
  - now rewrite IH.
Qed.

Lemma remove_tag_same (tag : string) (d : Dataset) :
  Filesystem (remove_tag tag d) = Filesystem d /\
  Version (remove_tag tag d) = Version d.
Proof. split; reflexivity. Qed.

Lemma same_AbsPath (f : Dataset -> Dataset) :
  (forall d, Filesystem (f d) = Filesystem d /\ Version (f d) = Version d) ->
  forall d, AbsPath (f d) = AbsPath d.
Proof.
  intros Hf d. destruct (Hf d) as [H1 H2]. unfold AbsPath. now rewrite H1, H2.
Qed.

(** An update that keeps the tag [tag'] on every dataset keeps it at every
    path. *)
Lemma holds_tag_at_update_tag (f : Dataset -> Dataset)
  (sel : Dataset -> bool) (p : Pool) (path tag' : string) :
  (forall d, Filesystem (f d) = Filesystem d /\ Version (f d) = Version d) ->
  (forall d, has_tag tag' (f d) = has_tag tag' d) ->
  holds_tag_at (update f sel p) path tag' = holds_tag_at p path tag'.
Proof.
  intros Hf Ht. unfold holds_tag_at.
  rewrite find_path_update by now apply same_AbsPath.
  destruct (find_path p path) as [d|]; simpl; [|reflexivity].
  destruct (sel d); [apply Ht | reflexivity].
Qed.

(** An update of the datasets at one path changes nothing at another. *)
Lemma holds_tag_at_update_path (f : Dataset -> Dataset) (p : Pool)
  (here path tag' : string) :
  (forall d, Filesystem (f d) = Filesystem d /\ Version (f d) = Version d) ->
  path <> here ->
  holds_tag_at (update f (at_path here) p) path tag'
  = holds_tag_at p path tag'.
Proof.
  intros Hf Hne. unfold holds_tag_at.
  rewrite find_path_update by now apply same_AbsPath.
  destruct (find_path p path) as [d|] eqn:E; simpl; [|reflexivity].
  apply find_path_In in E. destruct E as [_ E].
  unfold at_path. rewrite E.
  destruct (String.eqb_spec path here); [contradiction | reflexivity].
Qed.

Lemma ValidateExistsAndGetCheckedProps_update (f : Dataset -> Dataset)
  (sel : Dataset -> bool) (p : Pool) (v : ZFSSendArgVersion) (fs : string) :
  (forall d, Filesystem (f d) = Filesystem d /\ Version (f d) = Version d) ->
  ValidateExistsAndGetCheckedProps (update f sel p) v fs
  = ValidateExistsAndGetCheckedProps p v fs.
Proof.
  intros Hf. unfold ValidateExistsAndGetCheckedProps, ZFSGetCreateTXGAndGuid.
  rewrite find_path_update by now apply same_AbsPath.
  destruct (find_path p (FullPath v fs)) as [d|]; simpl; [|reflexivity].
  destruct (sel d); [|reflexivity]. destruct (Hf d) as [_ ->]. reflexivity.
Qed.

Lemma update_add_tag_idempotent (tag path : string) (p : Pool) :
  update (add_tag tag) (at_path path)
    (update (add_tag tag) (at_path path) p)
  = update (add_tag tag) (at_path path) p.
Proof.
  unfold update. simpl. f_equal. rewrite map_map. apply map_ext.
  intros d. unfold at_path.
  destruct (String.eqb (AbsPath d) path) eqn:E.
  - rewrite AbsPath_add_tag, E.
    unfold add_tag at 1. now rewrite has_tag_add_tag.
  - now rewrite E.
Qed.

Lemma find_app_first {A} (f : A -> bool) (l l' : list A) (x : A) :
  find f l = Some x -> find f (l ++ l')%list = Some x.
Proof.
  induction l as [|a l IH]; simpl; [discriminate|].
  destruct (f a); [auto | exact IH].
Qed.

(** ** HoldStep and ReleaseStep *)

(** The calls of [HoldStep] on a snapshot. *)
Lemma HoldStep_snapshot_run (p : Pool) (fs : string) (v : ZFSSendArgVersion)
  (jobID : JobID) :
  IsSnapshot v = true ->
  HoldStep fs v jobID (start p) =
  match ValidateExists p v fs with
  | Ok _ =>
      match StepHoldTag jobID with
      | Ok tag =>
          match ZFSHold p fs v tag with
          | Ok p1 => (Ok tt, mkWorld p1 [p])
          | Err e => (Err (Wrap e "step hold: zfs"), start p)
          | Panic msg => (Panic msg, start p)
          end
      | Err e => (Err (Wrap e "step hold tag"), start p)
      | Panic msg => (Panic msg, start p)
      end
  | Err e => (Err e, start p)
  | Panic msg => (Panic msg, start p)
  end.
Proof.
  intros Hs. unfold HoldStep, mbind, mwrap, lift, query, mutate, start.
  cbn [now past]. rewrite Hs.
  destruct (ValidateExists p v fs); try reflexivity.
  destruct (StepHoldTag jobID) as [tag| |]; cbn [wrap]; try reflexivity.
  cbn [now past]. destruct (ZFSHold p fs v tag); reflexivity.
Qed.

(** X15.  A successful [HoldStep] on a snapshot makes one call that changes
    the store, after which the snapshot carries the step hold of the job;
    holds of other tags and holds at other paths are as before; and the
    same call again succeeds and leaves the store as it is. *)
Theorem HoldStep_snapshot_idempotent (p : Pool) (fs : string)
  (v : ZFSSendArgVersion) (jobID : JobID) (w : World) :
  IsSnapshot v = true ->
  HoldStep fs v jobID (start p) = (Ok tt, w) ->
  exists tag,
    StepHoldTag jobID = Ok tag /\
    history w = [p; now w] /\
    holds_tag_at (now w) (FullPath v fs) tag = true /\
    (forall path tag', tag' <> tag \/ path <> FullPath v fs ->
       holds_tag_at (now w) path tag' = holds_tag_at p path tag') /\
    HoldStep fs v jobID (start (now w)) = (Ok tt, mkWorld (now w) [now w]).
Proof.
  intros Hs. rewrite (HoldStep_snapshot_run p fs v jobID Hs).
  destruct (ValidateExists p v fs) as [[]| |] eqn:Hv; try discriminate.
  destruct (StepHoldTag jobID) as [tag| |] eqn:Ht; try discriminate.
  destruct (ZFSHold p fs v tag) as [p1| |] eqn:Hh; try discriminate.
  intros H. injection H as <-. cbn [now past].
  destruct (ZFSHold_Ok _ _ _ _ _ Hh) as (d & Hf & Hd & Hp1 & Hf1).
  exists tag. split; [reflexivity|]. split; [reflexivity|]. split.
  { unfold holds_tag_at. rewrite Hf1. apply has_tag_add_tag. }
  split.
  { intros path tag' [Hne|Hne]; rewrite Hp1.
    - apply holds_tag_at_update_tag; [apply add_tag_same|].
      intros d0. now apply has_tag_add_other.
    - apply holds_tag_at_update_path; [apply add_tag_same | exact Hne]. }
  rewrite (HoldStep_snapshot_run p1 fs v jobID Hs), Ht.
  assert (Hv1 : ValidateExists p1 v fs = Ok tt).
  { unfold ValidateExists in *. rewrite Hp1.
    rewrite ValidateExistsAndGetCheckedProps_update by apply add_tag_same.
    exact Hv. }
  rewrite Hv1. unfold ZFSHold. rewrite Hf1.
  destruct (add_tag_same tag d) as [_ ->].
  unfold is_snapshot in Hd. destruct (Type_ (Version d)); [discriminate|].
  rewrite Hp1 at 1. rewrite update_add_tag_idempotent, <- Hp1. reflexivity.
Qed.

Lemma HoldStep_snapshot_Ok (p : Pool) (fs : string) (v : ZFSSendArgVersion)
  (jobID : JobID) (w : World) :
  IsSnapshot v = true ->
  HoldStep fs v jobID (start p) = (Ok tt, w) ->
  exists tag d,
    StepHoldTag jobID = Ok tag /\ ValidateExists p v fs = Ok tt /\
    find_path p (FullPath v fs) = Some d /\
    w = mkWorld (update (add_tag tag) (at_path (FullPath v fs)) p) [p].
Proof.
  intros Hs. rewrite (HoldStep_snapshot_run p fs v jobID Hs).
  destruct (ValidateExists p v fs) as [[]| |] eqn:Hv; try discriminate.
  destruct (StepHoldTag jobID) as [tag| |] eqn:Ht; try discriminate.
  destruct (ZFSHold p fs v tag) as [p1| |] eqn:Hh; try discriminate.
  intros H. injection H as <-.
  destruct (ZFSHold_Ok _ _ _ _ _ Hh) as (d & Hf & _ & -> & _).
  exists tag, d. auto.
Qed.

Lemma ReleaseStep_snapshot_Ok (p : Pool) (fs : string) (v : ZFSSendArgVersion)
  (jobID : JobID) (w : World) :
  IsSnapshot v = true ->
  ReleaseStep fs v jobID (start p) = (Ok tt, w) ->
  exists tag,
    StepHoldTag jobID = Ok tag /\ ValidateExists p v fs = Ok tt /\
    w = mkWorld (update (remove_tag tag) (at_path (FullPath v fs)) p) [p].
Proof.
  intros Hs. unfold ReleaseStep, mbind, mwrap, lift, query, mutate, start.
  cbn [now past]. rewrite Hs.
  destruct (ValidateExists p v fs) as [[]| |] eqn:Hv; try discriminate.
  destruct (StepHoldTag jobID) as [tag| |] eqn:Ht; cbn [wrap];
    try discriminate.
  cbn [now past]. unfold ZFSRelease.
  destruct (find_path p (FullPath v fs)) as [d|]; cbn [wrap]; [|discriminate].
  destruct (if has_tag tag d then None else ReleaseAbsent); cbn [wrap];
    [discriminate|].
  intros H. injection H as <-. exists tag. auto.
Qed.

(** X16.  A successful [ReleaseStep] on a snapshot makes one call that
    changes the store, after which the snapshot does not carry the step hold
    of the job; holds of other tags and holds at other paths are as before,
    and no version is destroyed or created. *)
Theorem ReleaseStep_snapshot_only (p : Pool) (fs : string)
  (v : ZFSSendArgVersion) (jobID : JobID) (w : World) :
  IsSnapshot v = true ->
  ReleaseStep fs v jobID (start p) = (Ok tt, w) ->
  exists tag,
    StepHoldTag jobID = Ok tag /\
    history w = [p; now w] /\
    holds_tag_at (now w) (FullPath v fs) tag = false /\
    (forall path tag', tag' <> tag \/ path <> FullPath v fs ->
       holds_tag_at (now w) path tag' = holds_tag_at p path tag') /\
    map Version (Datasets (now w)) = map Version (Datasets p).
Proof.
  intros Hs H.
  destruct (ReleaseStep_snapshot_Ok _ _ _ _ _ Hs H) as (tag & Ht & Hv & ->).
  destruct (ValidateExists_Ok _ _ _ Hv) as (d & Hf & _).
  cbn [now past].
  exists tag. split; [exact Ht|]. split; [reflexivity|].
  split.
  { unfold holds_tag_at.
    rewrite find_path_update by apply AbsPath_remove_tag. rewrite Hf. simpl.
    destruct (at_path (FullPath v fs) d) eqn:E.
    - apply has_tag_remove_tag.
    - apply find_path_In in Hf. destruct Hf as [_ Hf].
      unfold at_path in E. rewrite Hf, String.eqb_refl in E. discriminate. }
  split.
  { intros path tag' [Hne|Hne].
    - apply holds_tag_at_update_tag; [apply remove_tag_same|].
      intros d0. now apply has_tag_remove_other.
    - apply holds_tag_at_update_path; [apply remove_tag_same | exact Hne]. }
  unfold update. simpl. rewrite map_map. apply map_ext.
  intros d0. now destruct (at_path (FullPath v fs) d0).
Qed.

(** X17.  On a snapshot that does not carry the step hold of the job,
    [HoldStep] followed by [ReleaseStep] succeeds and restores every hold:
    at every path and for every tag, the store carries the hold after the
    two calls if and only if it did before. *)
Theorem HoldStep_then_ReleaseStep (p : Pool) (fs : string)
  (v : ZFSSendArgVersion) (jobID : JobID) (tag : string) (w1 : World) :
  IsSnapshot v = true ->
  StepHoldTag jobID = Ok tag ->
  holds_tag_at p (FullPath v fs) tag = false ->
  HoldStep fs v jobID (start p) = (Ok tt, w1) ->
  exists w2,
    ReleaseStep fs v jobID (start (now w1)) = (Ok tt, w2) /\
    forall path tag',
      holds_tag_at (now w2) path tag' = holds_tag_at p path tag'.
Proof.
  intros Hs Ht Hno H.
  destruct (HoldStep_snapshot_Ok _ _ _ _ _ Hs H)
    as (tag0 & d & Ht0 & Hv & Hf & ->).
  rewrite Ht in Ht0. injection Ht0 as <-. cbn [now].
  set (p1 := update (add_tag tag) (at_path (FullPath v fs)) p).
  assert (Hv1 : ValidateExists p1 v fs = Ok tt).
  { unfold ValidateExists in *. unfold p1.
    rewrite ValidateExistsAndGetCheckedProps_update by apply add_tag_same.
    exact Hv. }
  assert (Hheld : holds_tag_at p1 (FullPath v fs) tag = true).
  { unfold holds_tag_at, p1.
    rewrite find_path_update by apply AbsPath_add_tag. rewrite Hf. simpl.
    destruct (at_path (FullPath v fs) d) eqn:E; [apply has_tag_add_tag|].
    apply find_path_In in Hf. destruct Hf as [_ Hf].
    unfold at_path in E. rewrite Hf, String.eqb_refl in E. discriminate. }
  destruct (ReleaseStep_snapshot p1 fs v jobID tag Hv1 Hs Ht Hheld)
    as [Hrun Hrel].
  eexists. split; [exact Hrun|]. cbn [now].
  intros path tag'.
  destruct (String.eqb_spec tag' tag) as [->|Hne].
  - destruct (String.eqb_spec path (FullPath v fs)) as [->|Hp].
    + now rewrite Hrel, Hno.
    + rewrite holds_tag_at_update_path by (apply remove_tag_same || exact Hp).
      unfold p1.
      now rewrite holds_tag_at_update_path by (apply add_tag_same || exact Hp).
  - rewrite holds_tag_at_update_tag;
      [| apply remove_tag_same | intros; now apply has_tag_remove_other].
    unfold p1.
    now rewrite holds_tag_at_update_tag;
      [| apply add_tag_same | intros; now apply has_tag_add_other].
Qed.

(** What a successful [ZFSBookmark] leaves: the bookmark exists with the GUID
    of its source, everything that was found is still found, and the same
    call again succeeds without a change. *)
Lemma ZFSBookmark_Ok (q q' : Pool) (fs : string) (v : ZFSSendArgVersion)
  (name : string) :
  ZFSBookmark q fs v name = Ok q' ->
  exists src bm,
    find_path q (FullPath v fs) = Some src /\
    find_path q' (fs ++ "#" ++ name) = Some bm /\
    Guid (Version bm) = Guid (Version src) /\
    (forall path d, find_path q path = Some d -> find_path q' path = Some d) /\
    ZFSBookmark q' fs v name = Ok q'.
Proof.
  unfold ZFSBookmark.
  destruct (find_path q (FullPath v fs)) as [src|] eqn:Hs; [|discriminate].
  destruct (find_path q (fs ++ "#" ++ name)) as [bm|] eqn:Hb.
  - destruct (N.eqb_spec (Guid (Version bm)) (Guid (Version src))) as [Hg|];
      [|discriminate].
    intros H. injection H as <-. exists src, bm.
    rewrite Hs, Hb. pose proof Hg as Hg'. apply N.eqb_eq in Hg'.
    rewrite Hg'. auto.
  - set (new := mkDataset fs (mkVersion Bookmark name (Guid (Version src))
                   (CreateTXG (Version src)) (Creation (Version src))) []).
    assert (Hq' : forall q0, q0 = mkPool (Datasets q ++ [new])%list
                                    (BookmarkCloning q) ->
      find_path q0 (FullPath v fs) = Some src /\
      find_path q0 (fs ++ "#" ++ name) = Some new /\
      (forall path d, find_path q path = Some d -> find_path q0 path = Some d)).
    { intros q0 ->. unfold find_path in *. simpl.
      split; [now apply find_app_first|]. split.
      - rewrite find_app_last by exact Hb.
        unfold at_path, AbsPath, ToAbsPath. simpl.
        now rewrite String.eqb_refl.
      - intros path d Hd. now apply find_app_first. }
    intros H.
    assert (E : q' = mkPool (Datasets q ++ [new])%list (BookmarkCloning q)).
    { destruct (Type_ (Version src)); destruct (BookmarkCloning q);
        try discriminate; now injection H as <-. }
    destruct (Hq' q' E) as (H1 & H2 & H3).
    exists src, new. rewrite H1, H2. simpl. rewrite N.eqb_refl. auto.
Qed.

Lemma ValidateExistsAndGetCheckedProps_preserved (p q : Pool)
  (v : ZFSSendArgVersion) (fs : string)
  (props : ZFSPropCreateTxgAndGuidProps) :
  (forall path d, find_path p path = Some d -> find_path q path = Some d) ->
  ValidateExistsAndGetCheckedProps p v fs = Ok props ->
  ValidateExistsAndGetCheckedProps q v fs = Ok props.
Proof.
  intros Hpq. unfold ValidateExistsAndGetCheckedProps, ZFSGetCreateTXGAndGuid.
  destruct (negb (IsSnapshot v) && negb (is_ok (MustBeBookmark v)));
    [discriminate|].
  destruct (find_path p (FullPath v fs)) as [d|] eqn:E; [|discriminate].
  now rewrite (Hpq _ _ E).
Qed.

(** The calls of [HoldStep] on a version that is not a snapshot. *)
Lemma HoldStep_bookmark_run (p : Pool) (fs : string) (v : ZFSSendArgVersion)
  (jobID : JobID) (bmname : string) :
  IsSnapshot v = false ->
  ValidateExists p v fs = Ok tt ->
  StepBookmarkName fs (GUID v) jobID = Ok bmname ->
  HoldStep fs v jobID (start p) =
  match ZFSBookmark p fs v bmname with
  | Ok p1 => (Ok tt, mkWorld p1 [p])
  | Err ErrBookmarkCloningNotSupported => (Err ErrBookmarkCloningNotSupported, start p)
  | Err e => (Err (Wrap e "create step bookmark: zfs"), start p)
  | Panic msg => (Panic msg, start p)
  end.
Proof.
  intros Hs Hv Hb.
  destruct (ValidateExists_Ok _ _ _ Hv) as (_ & _ & _ & _ & [H|Hm]);
    [congruence|].
  unfold HoldStep, mbind, mwrap, lift, query, mutate, attempt, ret, start.
  cbn [now past]. rewrite Hs, Hv, Hm, Hb. cbn [wrap now past].
  destruct (ZFSBookmark p fs v bmname) as [p1|e|msg]; try reflexivity.
  destruct e; reflexivity.
Qed.

(** X18.  A successful [HoldStep] on a bookmark leaves the step bookmark
    [<fs>#zrepl_STEP_G_<guid>_J_<jobid>] in the store, with the GUID of the
    version handed in; whatever was found at a path before is still found
    there; and the same call again succeeds and leaves the store as it
    is. *)
Theorem HoldStep_bookmark_idempotent (p : Pool) (fs : string)
  (v : ZFSSendArgVersion) (jobID : JobID) (w : World) :
  IsSnapshot v = false ->
  HoldStep fs v jobID (start p) = (Ok tt, w) ->
  exists bmname props,
    StepBookmarkName fs (GUID v) jobID = Ok bmname /\
    ZFSGetCreateTXGAndGuid (now w) (fs ++ "#" ++ bmname) = Ok props /\
    PropGuid props = GUID v /\
    (forall path d, find_path p path = Some d ->
                    find_path (now w) path = Some d) /\
    HoldStep fs v jobID (start (now w)) = (Ok tt, mkWorld (now w) [now w]).
Proof.
  intros Hs H.
  destruct (ValidateExists p v fs) as [[]| |] eqn:Hv.
  2,3: unfold HoldStep, mbind, query, start in H; cbn [now] in H;
       rewrite Hv in H; discriminate.
  destruct (StepBookmarkName fs (GUID v) jobID) as [bmname| |] eqn:Hb.
  2,3: destruct (ValidateExists_Ok _ _ _ Hv) as (_ & _ & _ & _ & [Hk|Hm]);
       [congruence|];
       unfold HoldStep, mbind, mwrap, lift, query, start in H;
       cbn [now] in H; rewrite Hs, Hv, Hm, Hb in H; discriminate.
  rewrite (HoldStep_bookmark_run p fs v jobID bmname Hs Hv Hb) in H.
  destruct (ZFSBookmark p fs v bmname) as [p1|e|msg] eqn:Hz.
  2: destruct e; discriminate.
  2: discriminate.
  injection H as <-. cbn [now].
  destruct (ZFSBookmark_Ok _ _ _ _ _ Hz) as (src & bm & Hsrc & Hbm & Hg & Hk & Hi).
  destruct (ValidateExists_Ok _ _ _ Hv) as (d & Hd & Hgd & Hprops & _).
  rewrite Hsrc in Hd. injection Hd as <-.
  exists bmname, (mkProps (CreateTXG (Version bm)) (Guid (Version bm))).
  split; [reflexivity|]. split.
  { unfold ZFSGetCreateTXGAndGuid. now rewrite Hbm. }
  split; [simpl; congruence|]. split; [exact Hk|].
  assert (Hv1 : ValidateExists p1 v fs = Ok tt).
  { unfold ValidateExists.
    now rewrite (ValidateExistsAndGetCheckedProps_preserved p p1 v fs _ Hk Hprops). }
  rewrite (HoldStep_bookmark_run p1 fs v jobID bmname Hs Hv1 Hb), Hi.
  reflexivity.
Qed.

(** ** SetReplicationCursor, continued *)

(** X19.  On a pool that cannot bookmark a bookmark, with a bookmark as the
    target: [SetReplicationCursor] returns [ErrBookmarkCloningNotSupported]
    as it is, unwrapped.  Where there was no cursor the store is unchanged;
    where a cursor had to be advanced it has been destroyed by then and is
    not put back, so the filesystem is left without a cursor. *)
Theorem SetReplicationCursor_cloning_not_supported (p : Pool) (fs : string)
  (target : ZFSSendArgVersion) (snapProps : ZFSPropCreateTxgAndGuidProps)
  (src : Dataset) :
  fs <> EmptyString ->
  ValidateExistsAndGetCheckedProps p target fs = Ok snapProps ->
  find_path p (FullPath target fs) = Some src ->
  Type_ (Version src) = Bookmark ->
  BookmarkCloning p = false ->
  let bookmarkPath := fs ++ "#" ++ ReplicationCursorBookmarkName in
  (find_path p bookmarkPath = None ->
   SetReplicationCursor fs target (start p)
   = (Err ErrBookmarkCloningNotSupported, start p)) /\
  (forall c,
      find_path p bookmarkPath = Some c -> Holds c = [] ->
      (CreateTXG (Version c) <= PropCreateTXG snapProps)%N ->
      Guid (Version c) <> PropGuid snapProps ->
      exists p1,
        SetReplicationCursor fs target (start p)
        = (Err ErrBookmarkCloningNotSupported, mkWorld p1 [p]) /\
        ZFSDestroy p bookmarkPath = Ok p1 /\
        cursor p1 fs = Err (DatasetDoesNotExist bookmarkPath)).
Proof.
  intros Hfs Hv Hsrc Htype Hclone bookmarkPath.
  rewrite (SetReplicationCursor_run p fs target snapProps Hfs Hv).
  fold bookmarkPath. split.
  - intros Hc. rewrite Hc, createCursorBookmark_run.
    unfold start. cbn [now].
    destruct (ZFSBookmark_creates p fs target ReplicationCursorBookmarkName
                src Hsrc Hc) as [(_ & _ & ->)|([H|H] & _)];
      [reflexivity | congruence | congruence].
  - intros c Hc Hholds Hle Hne. rewrite Hc.
    apply N.ltb_ge in Hle. rewrite Hle.
    apply N.eqb_neq in Hne. rewrite Hne.
    assert (Hd : exists p1, ZFSDestroy p bookmarkPath = Ok p1).
    { unfold ZFSDestroy. rewrite Hc, Hholds. eauto. }
    destruct Hd as [p1 Hd]. rewrite Hd.
    destruct (ZFSDestroy_Ok _ _ _ Hd) as (Hnone & Hcl & Hkeep).
    assert (Hpath : FullPath target fs <> bookmarkPath).
    { intros E. rewrite E, Hc in Hsrc. injection Hsrc as ->.
      destruct (ValidateExistsAndGetCheckedProps_Ok _ _ _ _ Hv)
        as (d & Hd' & ->).
      rewrite E, Hc in Hd'. injection Hd' as <-.
      apply N.eqb_neq in Hne. now apply Hne. }
    rewrite <- (Hkeep _ Hpath) in Hsrc.
    exists p1. rewrite createCursorBookmark_run. cbn [now past].
    destruct (ZFSBookmark_creates p1 fs target ReplicationCursorBookmarkName
                src Hsrc Hnone) as [(_ & _ & ->)|([H|H] & _)];
      [|congruence|congruence].
    split; [reflexivity|]. split; [reflexivity|].
    unfold cursor, ZFSGetCreateTXGAndGuid. fold bookmarkPath.
    now rewrite Hnone.
Qed.

Lemma ValidateExistsAndGetCheckedProps_same_find (p q : Pool)
  (v : ZFSSendArgVersion) (fs : string) :
  find_path q (FullPath v fs) = find_path p (FullPath v fs) ->
  ValidateExistsAndGetCheckedProps q v fs
  = ValidateExistsAndGetCheckedProps p v fs.
Proof.
  intros H. unfold ValidateExistsAndGetCheckedProps, ZFSGetCreateTXGAndGuid.
  now rewrite H.
Qed.

(** X20.  After a successful [SetReplicationCursor], the same call again
    succeeds and calls no mutating operation of the port. *)
Theorem SetReplicationCursor_idempotent (p : Pool) (fs : string)
  (target : ZFSSendArgVersion) (w : World) :
  SetReplicationCursor fs target (start p) = (Ok tt, w) ->
  SetReplicationCursor fs target (start (now w)) = (Ok tt, start (now w)).
Proof.
  intros H.
  assert (Hfs : fs <> EmptyString).
  { intros ->. discriminate. }
  destruct (ValidateExistsAndGetCheckedProps p target fs) as [snapProps| |]
    eqn:Hv.
  2,3: unfold SetReplicationCursor in H;
       destruct (String.length fs =? 0)%nat; [discriminate|];
       unfold mbind, mwrap, query, start in H; cbn [now] in H;
       rewrite Hv in H; discriminate.
  pose proof H as Hrun.
  rewrite (SetReplicationCursor_run p fs target snapProps Hfs Hv) in Hrun.
  destruct (ValidateExistsAndGetCheckedProps_Ok _ _ _ _ Hv) as (src & Hsrc & Ep).
  set (bookmarkPath := fs ++ "#" ++ ReplicationCursorBookmarkName) in *.
  (* the second call after a creation from the store [q] *)
  assert (Hcreated : forall q before,
    find_path q (FullPath target fs) = Some src ->
    find_path q bookmarkPath = None ->
    createCursorBookmark fs target (mkWorld q before) = (Ok tt, w) ->
    SetReplicationCursor fs target (start (now w)) = (Ok tt, start (now w))).
  { intros q before Hq Hnone Hc.
    destruct (createCursorBookmark_spec q before fs target src (Ok tt) w
                Hq Hnone Hc) as [Hok _].
    destruct (Hok eq_refl) as (Hcur & Hbm & _).
    destruct (ZFSBookmark_Ok _ _ _ _ _ Hbm) as (_ & _ & _ & _ & _ & Hk & _).
    assert (Hv' : ValidateExistsAndGetCheckedProps (now w) target fs
                  = Ok snapProps).
    { rewrite <- Hv. apply ValidateExistsAndGetCheckedProps_same_find.
      now rewrite (Hk _ _ Hq), Hsrc. }
    rewrite (SetReplicationCursor_run (now w) fs target snapProps Hfs Hv').
    unfold cursor, ZFSGetCreateTXGAndGuid in Hcur.
    fold bookmarkPath in Hcur |- *.
    destruct (find_path (now w) bookmarkPath) as [bm|]; [|discriminate].
    injection Hcur as Ht Hg. rewrite Ht, Hg, Ep. cbn [PropCreateTXG PropGuid].
    now rewrite N.ltb_irrefl, N.eqb_refl. }
  destruct (find_path p bookmarkPath) as [c|] eqn:Hc.
  - destruct (PropCreateTXG snapProps <? CreateTXG (Version c))%N eqn:Hlt;
      [discriminate|].
    destruct (Guid (Version c) =? PropGuid snapProps)%N eqn:Hg.
    + injection Hrun as <-. cbn [now start].
      rewrite (SetReplicationCursor_run p fs target snapProps Hfs Hv).
      fold bookmarkPath. now rewrite Hc, Hlt, Hg.
    + destruct (ZFSDestroy p bookmarkPath) as [p1| |] eqn:Hd;
        try discriminate.
      destruct (ZFSDestroy_Ok _ _ _ Hd) as (Hnone & _ & Hkeep).
      apply (Hcreated p1 [p]); [|exact Hnone|exact Hrun].
      rewrite Hkeep; [exact Hsrc|].
      intros E. rewrite E, Hc in Hsrc. injection Hsrc as ->.
      rewrite Ep in Hg. cbn [PropGuid] in Hg.
      now rewrite N.eqb_refl in Hg.
  - now apply (Hcreated p []).
Qed.

(** ** What the hold operations leave alone *)

Lemma ZFSReleaseAllOlder_Ok (including : bool) (p p1 : Pool) (fs : string)
  (guid : N) (tag : string) :
  ZFSReleaseAllOlder including p fs guid tag = Ok p1 ->
  exists sel, p1 = update (remove_tag tag) sel p.
Proof.
  unfold ZFSReleaseAllOlder. destruct (find _ (Datasets p)); [|discriminate].
  intros H. injection H as <-. eauto.
Qed.

Lemma update_versions (f : Dataset -> Dataset) (sel : Dataset -> bool)
  (p : Pool) :
  (forall d, Filesystem (f d) = Filesystem d /\ Version (f d) = Version d) ->
  map Version (Datasets (update f sel p)) = map Version (Datasets p).
Proof.
  intros Hf. unfold update. simpl. rewrite map_map. apply map_ext.
  intros d. destruct (sel d); [apply Hf | reflexivity].
Qed.

(** X21.  Whatever its outcome, [MoveLastReceivedHold] destroys and creates
    no version, and it leaves every hold whose tag is not the last-received
    hold tag of the job where it was. *)
Theorem MoveLastReceivedHold_keeps_other_holds (p : Pool) (fs : string)
  (to : ZFSSendArgVersion) (jobID : JobID) (r : result unit) (w : World) :
  MoveLastReceivedHold fs to jobID (start p) = (r, w) ->
  map Version (Datasets (now w)) = map Version (Datasets p) /\
  forall tag, LastReceivedHoldTag jobID = Ok tag ->
  forall path tag', tag' <> tag ->
    holds_tag_at (now w) path tag' = holds_tag_at p path tag'.
Proof.
  rewrite MoveLastReceivedHold_run.
  destruct (ValidateExists p to fs);
    try (intros H; injection H as <- <-; split; [reflexivity|]; auto).
  destruct (EntityNamecheck _ _);
    try (intros H; injection H as <- <-; split; [reflexivity|]; auto).
  destruct (LastReceivedHoldTag jobID) as [tag| |];
    try (intros H; injection H as <- <-; split; [reflexivity|]; auto;
         intros; discriminate).
  destruct (ZFSHold p fs to tag) as [p1| |] eqn:Hh;
    try (intros H; injection H as <- <-; split; [reflexivity|]; auto).
  destruct (ZFSHold_Ok _ _ _ _ _ Hh) as (d & _ & _ & Hp1 & _).
  assert (V1 : map Version (Datasets p1) = map Version (Datasets p)).
  { rewrite Hp1. apply update_versions, add_tag_same. }
  assert (T1 : forall path tag', tag' <> tag ->
               holds_tag_at p1 path tag' = holds_tag_at p path tag').
  { intros path tag' Hne. rewrite Hp1.
    apply holds_tag_at_update_tag; [apply add_tag_same|].
    intros d0. now apply has_tag_add_other. }
  destruct (ZFSReleaseAllOlderThanGUID p1 fs (GUID to) tag) as [p2| |] eqn:Hr;
    intros H; injection H as <- <-; cbn [now].
  2,3: split; [exact V1|]; intros tag0 E; injection E as <-; exact T1.
  apply ZFSReleaseAllOlder_Ok in Hr. destruct Hr as [sel ->].
  split.
  - rewrite update_versions by apply remove_tag_same. exact V1.
  - intros tag0 E. injection E as <-. intros path tag' Hne.
    rewrite holds_tag_at_update_tag;
      [now apply T1 | apply remove_tag_same |].
    intros d0. now apply has_tag_remove_other.
Qed.

Lemma ZFSDestroyIdempotent_holds (q q' : Pool) (path : string) :
  ZFSDestroyIdempotent q path = Ok q' ->
  forall path' tag, holds_tag_at q' path' tag = holds_tag_at q path' tag.
Proof.
  unfold ZFSDestroyIdempotent.
  destruct (ZFSDestroy q path) as [q1|e|msg] eqn:Hd.
  - intros H. injection H as <-.
    destruct (ZFSDestroy_Ok _ _ _ Hd) as (Hnone & _ & Hkeep).
    intros path' tag. unfold holds_tag_at.
    destruct (String.eqb_spec path' path) as [->|Hne].
    + rewrite Hnone. unfold ZFSDestroy in Hd.
      destruct (find_path q path) as [d|]; [|reflexivity].
      unfold has_tag. destruct (Holds d); [reflexivity | discriminate].
    + now rewrite (Hkeep _ Hne).
  - destruct e; try discriminate. intros H. now injection H as <-.
  - discriminate.
Qed.

Lemma destroy_all_holds (fsp : DatasetPath) (destroy : list FilesystemVersion) :
  forall w0 r w,
    destroy_all fsp destroy w0 = (r, w) ->
    forall path tag,
      holds_tag_at (now w) path tag = holds_tag_at (now w0) path tag.
Proof.
  induction destroy as [|v rest IH]; intros w0 r w.
  - unfold destroy_all, ret. intros H. now injection H as <- <-.
  - cbn [destroy_all]. unfold mbind, mwrap, mutate.
    destruct (ZFSDestroyIdempotent (now w0) (ToAbsPath v fsp)) as [q| |] eqn:Hd;
      cbn [wrap].
    + intros H path tag. rewrite (IH _ _ _ H). cbn [now].
      now apply (ZFSDestroyIdempotent_holds _ _ _ Hd).
    + intros H. now injection H as <- <-.
    + intros H. now injection H as <- <-.
Qed.

(** X22.  Whatever its outcome, [ReleaseStepAll] leaves every hold whose tag
    is not the step hold tag of the job where it was: at every path, the
    store carries a foreign tag after the call if and only if it did
    before. *)
Theorem ReleaseStepAll_keeps_other_holds (p : Pool) (fs : string)
  (mostRecent : ZFSSendArgVersion) (jobID : JobID) (r : result unit)
  (w : World) :
  ReleaseStepAll fs mostRecent jobID (start p) = (r, w) ->
  forall tag, StepHoldTag jobID = Ok tag ->
  forall path tag', tag' <> tag ->
    holds_tag_at (now w) path tag' = holds_tag_at p path tag'.
Proof.
  unfold ReleaseStepAll, mbind, mwrap, lift, query, mutate, start.
  cbn [now past].
  destruct (NewDatasetPath fs) as [fsp| |]; cbn [wrap];
    try (intros H; injection H as <- <-; reflexivity).
  destruct (ValidateExistsAndGetCheckedProps p mostRecent fs) as [props| |];
    cbn [wrap]; try (intros H; injection H as <- <-; reflexivity).
  destruct (StepHoldTag jobID) as [tag| |]; cbn [wrap];
    try (intros H; injection H as <- <-; reflexivity).
  cbn [now past].
  destruct (ZFSReleaseAllOlderAndIncludingGUID p fs (GUID mostRecent) tag)
    as [p1| |] eqn:Hrel; cbn [wrap];
    try (intros H; injection H as <- <-; reflexivity).
  apply ZFSReleaseAllOlder_Ok in Hrel. destruct Hrel as [sel ->].
  assert (T1 : forall path tag', tag' <> tag ->
               holds_tag_at (update (remove_tag tag) sel p) path tag'
               = holds_tag_at p path tag').
  { intros path tag' Hne.
    apply holds_tag_at_update_tag; [apply remove_tag_same|].
    intros d0. now apply has_tag_remove_other. }
  cbn [now past].
  destruct (ZFSListFilesystemVersions _ _) as [versions| |]; cbn [wrap];
    try (intros H; injection H as <- <-; intros tag0 E; injection E as <-;
         exact T1).
  destruct (cutoff fs (PropCreateTXG props) versions []) as [destroy| |];
    try (intros H; injection H as <- <-; intros tag0 E; injection E as <-;
         exact T1).
  intros H tag0 E. injection E as <-. intros path tag' Hne.
  rewrite (destroy_all_holds _ _ _ _ _ H). cbn [now]. now apply T1.
Qed.

(** ** The marker inventory *)

Lemma ListLastReceivedAll_holds_spec (fs snap : string) (holds : list string) :
  forall acc out,
    ListLastReceivedAll_holds fs snap holds acc = Ok out ->
    forall h,
      In h out <->
      In h acc \/
      (In (lrh_Tag h) holds /\
       ParseLastReceivedHoldTag (lrh_Tag h) = Ok (lrh_JobID h) /\
       lrh_FS h = fs /\ lrh_Snap h = snap).
Proof.
  induction holds as [|tag rest IH]; intros acc out; cbn [ListLastReceivedAll_holds].
  - intros H h. injection H as <-. split; [auto|].
    intros [H|(H & _)]; [exact H | destruct H].
  - destruct (ParseLastReceivedHoldTag tag) as [jobID|e|msg] eqn:Hp;
      [| |discriminate].
    + intros H h. rewrite (IH _ _ H h), in_app_iff.
      destruct h as [hfs hsnap htag hjob].
      cbn [In lrh_FS lrh_Snap lrh_Tag lrh_JobID]. split.
      * intros [[Hin|[Hnew|[]]]|(Hin & Hrest)]; [auto| |].
        -- injection Hnew as <- <- <- <-. right. auto.
        -- right. split; [right; exact Hin | exact Hrest].
      * intros [Hin|([Htag|Hin] & Hj & Hfs & Hsnap)]; [auto| |].
        -- left. right. left. subst. rewrite Hp in Hj. now injection Hj as <-.
        -- right. auto.
    + intros H h. rewrite (IH _ _ H h). cbn [In]. split.
      * intros [Hin|(Hin & Hrest)]; [auto|].
        right. split; [right; exact Hin | exact Hrest].
      * intros [Hin|([Htag|Hin] & Hj & Hrest)]; [auto| |].
        -- subst tag. rewrite Hp in Hj. discriminate.
        -- right. auto.
Qed.

Lemma ListLastReceivedAll_versions_spec (p : Pool) (fs : DatasetPath)
  (fsvs : list FilesystemVersion) :
  forall acc out,
    ListLastReceivedAll_versions p fs fsvs acc = Ok out ->
    forall h,
      In h out <->
      In h acc \/
      exists v holds,
        In v fsvs /\ Type_ v = Snapshot /\
        ZFSHolds p (ToString fs) (Name v) = Ok holds /\
        In (lrh_Tag h) holds /\
        ParseLastReceivedHoldTag (lrh_Tag h) = Ok (lrh_JobID h) /\
        lrh_FS h = ToString fs /\ lrh_Snap h = Name v.
Proof.
  induction fsvs as [|v rest IH]; intros acc out;
    cbn [ListLastReceivedAll_versions].
  - intros H h. injection H as <-. split; [auto|].
    intros [H|(v & holds & [] & _)]. exact H.
  - destruct (Type_ v) eqn:Ht.
    + intros H h. rewrite (IH _ _ H h). split.
      * intros [Hin|(v0 & holds & Hv0 & Hrest)]; [auto|].
        right. exists v0, holds. cbn [In]. auto.
      * intros [Hin|(v0 & holds & [<-|Hv0] & Ht0 & Hrest)]; [auto| |].
        -- congruence.
        -- right. exists v0, holds. auto.
    + destruct (ZFSHolds p (ToString fs) (Name v)) as [holds| |] eqn:Hh;
        cbn [wrap bind]; try discriminate.
      destruct (ListLastReceivedAll_holds (ToString fs) (Name v) holds acc)
        as [out'| |] eqn:Hl; cbn [bind]; try discriminate.
      intros H h. rewrite (IH _ _ H h).
      rewrite (ListLastReceivedAll_holds_spec _ _ _ _ _ Hl h). split.
      * intros [[Hin|Hnew]|(v0 & holds0 & Hv0 & Hrest)]; [auto| |].
        -- right. exists v, holds. cbn [In]. destruct Hnew as (H1 & H2).
           auto 10.
        -- right. exists v0, holds0. cbn [In]. auto.
      * intros [Hin|(v0 & holds0 & [<-|Hv0] & Ht0 & Hh0 & Hrest)]; [auto| |].
        -- left. right. rewrite Hh in Hh0. injection Hh0 as <-. exact Hrest.
        -- right. exists v0, holds0. auto.
Qed.

Lemma ListLastReceivedAll_filesystems_spec (p : Pool)
  (fss : list DatasetPath) :
  forall acc out,
    ListLastReceivedAll_filesystems p fss acc = Ok out ->
    forall h,
      In h out <->
      In h acc \/
      exists fs fsvs v holds,
        In fs fss /\
        ZFSListFilesystemVersions (ZFSListChan p (ToString fs)) None = Ok fsvs /\
        In v fsvs /\ Type_ v = Snapshot /\
        ZFSHolds p (ToString fs) (Name v) = Ok holds /\
        In (lrh_Tag h) holds /\
        ParseLastReceivedHoldTag (lrh_Tag h) = Ok (lrh_JobID h) /\
        lrh_FS h = ToString fs /\ lrh_Snap h = Name v.
Proof.
  induction fss as [|fs rest IH]; intros acc out;
    cbn [ListLastReceivedAll_filesystems].
  - intros H h. injection H as <-. split; [auto|].
    intros [H|(fs & fsvs & v & holds & [] & _)]. exact H.
  - destruct (ZFSListFilesystemVersions (ZFSListChan p (ToString fs)) None)
      as [fsvs| |] eqn:Hl; cbn [wrap bind]; try discriminate.
    destruct (ListLastReceivedAll_versions p fs fsvs acc) as [out'| |] eqn:Hv;
      cbn [bind]; try discriminate.
    intros H h. rewrite (IH _ _ H h).
    rewrite (ListLastReceivedAll_versions_spec _ _ _ _ _ Hv h). split.
    + intros [[Hin|(v & holds & Hrest)]|(fs0 & fsvs0 & v & holds & Hfs0 & Hrest)];
        [auto| |].
      * right. exists fs, fsvs, v, holds. cbn [In]. auto 10.
      * right. exists fs0, fsvs0, v, holds. cbn [In]. auto.
    + intros [Hin|(fs0 & fsvs0 & v & holds & [<-|Hfs0] & Hl0 & Hrest)];
        [auto| |].
      * left. right. rewrite Hl in Hl0. injection Hl0 as <-.
        exists v, holds. exact Hrest.
      * right. exists fs0, fsvs0, v, holds. auto.
Qed.

(** X23.  When [ListLastReceivedAll] succeeds, its result holds exactly the
    holds that decode as last-received hold tags on the snapshots of the
    listed filesystems: an entry is in the result if and only if its tag is
    among the holds of a snapshot in the listing of a filesystem, the tag
    decodes to the entry's job, and the entry names that filesystem and
    snapshot. *)
Theorem ListLastReceivedAll_spec (p : Pool) (fss : list DatasetPath)
  (out : list LastReceivedHold) :
  ZFSListMapping p = Ok fss ->
  ListLastReceivedAll p = Ok out ->
  forall h,
    In h out <->
    exists fs fsvs v holds,
      In fs fss /\
      ZFSListFilesystemVersions (ZFSListChan p (ToString fs)) None = Ok fsvs /\
      In v fsvs /\ Type_ v = Snapshot /\
      ZFSHolds p (ToString fs) (Name v) = Ok holds /\
      In (lrh_Tag h) holds /\
      ParseLastReceivedHoldTag (lrh_Tag h) = Ok (lrh_JobID h) /\
      lrh_FS h = ToString fs /\ lrh_Snap h = Name v.
Proof.
  intros Hm. unfold ListLastReceivedAll. rewrite Hm. cbn [wrap bind].
  intros H h. rewrite (ListLastReceivedAll_filesystems_spec _ _ _ _ H h).
  cbn [In]. split; [intros [[]|H0]; exact H0 | auto].
Qed.

Lemma doListStepAll_holds_spec (fs snap : string) (holds : list string) :
  forall acc out,
    doListStepAll_holds fs snap holds acc = Ok out ->
    forall h,
      In h out <->
      In h acc \/
      exists tag,
        In tag holds /\ ParseStepHoldTag tag = Ok (sh_JobID h) /\
        sh_FS h = fs /\ sh_Snap h = snap.
Proof.
  induction holds as [|hold rest IH]; intros acc out; cbn [doListStepAll_holds].
  - intros H h. injection H as <-. split; [auto|].
    intros [H|(tag & [] & _)]. exact H.
  - destruct (ParseStepHoldTag hold) as [jobID|e|msg] eqn:Hp;
      [| |discriminate].
    + intros H h. rewrite (IH _ _ H h), in_app_iff.
      destruct h as [hfs hsnap hjob].
      cbn [In sh_FS sh_Snap sh_JobID]. split.
      * intros [[Hin|[Hnew|[]]]|(tag & Hin & Hrest)]; [auto| |].
        -- injection Hnew as <- <- <-. right. exists hold. auto.
        -- right. exists tag. auto.
      * intros [Hin|(tag & [Htag|Hin] & Hj & Hfs & Hsnap)]; [auto| |].
        -- left. right. left. subst. rewrite Hp in Hj. now injection Hj as <-.
        -- right. exists tag. auto.
    + intros H h. rewrite (IH _ _ H h). cbn [In]. split.
      * intros [Hin|(tag & Hin & Hrest)]; [auto|].
        right. exists tag. auto.
      * intros [Hin|(tag & [Htag|Hin] & Hj & Hrest)]; [auto| |].
        -- subst tag. rewrite Hp in Hj. discriminate.
        -- right. exists tag. auto.
Qed.

(** What one pass over the versions of a filesystem adds to the two lists
    of [doListStepAll]. *)
Lemma doListStepAll_versions_spec (p : Pool) (fs : DatasetPath)
  (fsvs : list FilesystemVersion) :
  forall acc out,
    doListStepAll_versions p fs fsvs acc = Ok out ->
    (forall h,
        In h (StepHolds out) <->
        In h (StepHolds acc) \/
        exists v holds tag,
          In v fsvs /\ Type_ v = Snapshot /\
          ZFSHolds p (ToString fs) (Name v) = Ok holds /\
          In tag holds /\ ParseStepHoldTag tag = Ok (sh_JobID h) /\
          sh_FS h = ToString fs /\ sh_Snap h = Name v) /\
    (forall b,
        In b (StepBookmarks out) <->
        In b (StepBookmarks acc) \/
        exists v,
          In v fsvs /\ Type_ v = Bookmark /\
          ParseStepBookmarkName (ToAbsPath v fs)
          = Ok (sbm_Guid b, sbm_JobID b) /\
          sbm_FS b = ToString fs /\ sbm_Name b = Name v).
Proof.
  induction fsvs as [|v rest IH]; intros acc out;
    cbn [doListStepAll_versions].
  - intros H. injection H as <-. split; intros x; (split; [auto|]).
    + intros [H|(v & holds & tag & [] & _)]. exact H.
    + intros [H|(v & [] & _)]. exact H.
  - destruct (Type_ v) eqn:Ht.
    + (* a bookmark *)
      destruct (ParseStepBookmarkName (ToAbsPath v fs)) as [[guid jobID]|e|msg]
        eqn:Hp; [| |discriminate].
      * intros H. destruct (IH _ _ H) as [IHh IHb].
        cbn [StepHolds StepBookmarks] in IHh, IHb. split.
        -- intros h. rewrite (IHh h). split.
           ++ intros [Hin|(v0 & holds & tag & Hv0 & Hrest)]; [auto|].
              right. exists v0, holds, tag. cbn [In]. auto.
           ++ intros [Hin|(v0 & holds & tag & [<-|Hv0] & Ht0 & Hrest)];
                [auto| |].
              ** congruence.
              ** right. exists v0, holds, tag. auto.
        -- intros b. rewrite (IHb b), in_app_iff.
           destruct b as [bfs bname bguid bjob].
           cbn [In sbm_FS sbm_Name sbm_Guid sbm_JobID]. split.
           ++ intros [[Hin|[Hnew|[]]]|(v0 & Hv0 & Hrest)]; [auto| |].
              ** injection Hnew as <- <- <- <-. right. exists v. auto.
              ** right. exists v0. auto.
           ++ intros [Hin|(v0 & [<-|Hv0] & Ht0 & Hp0 & Hfs & Hname)];
                [auto| |].
              ** left. right. left. subst. rewrite Hp in Hp0.
                 now injection Hp0 as <- <-.
              ** right. exists v0. auto.
      * intros H. destruct (IH _ _ H) as [IHh IHb]. split.
        -- intros h. rewrite (IHh h). split.
           ++ intros [Hin|(v0 & holds & tag & Hv0 & Hrest)]; [auto|].
              right. exists v0, holds, tag. cbn [In]. auto.
           ++ intros [Hin|(v0 & holds & tag & [<-|Hv0] & Ht0 & Hrest)];
                [auto| |].
              ** congruence.
              ** right. exists v0, holds, tag. auto.
        -- intros b. rewrite (IHb b). cbn [In]. split.
           ++ intros [Hin|(v0 & Hv0 & Hrest)]; [auto|].
              right. exists v0. auto.
           ++ intros [Hin|(v0 & [<-|Hv0] & Ht0 & Hp0 & Hrest)]; [auto| |].
              ** rewrite Hp in Hp0. discriminate.
              ** right. exists v0. auto.
    + (* a snapshot *)
      destruct (ZFSHolds p (ToString fs) (Name v)) as [holds| |] eqn:Hh;
        cbn [wrap bind]; try discriminate.
      destruct (doListStepAll_holds (ToString fs) (Name v) holds
                  (StepHolds acc)) as [stepHolds| |] eqn:Hl;
        cbn [bind]; try discriminate.
      intros H. destruct (IH _ _ H) as [IHh IHb].
      cbn [StepHolds StepBookmarks] in IHh, IHb. split.
      * intros h. rewrite (IHh h).
        rewrite (doListStepAll_holds_spec _ _ _ _ _ Hl h). split.
        -- intros [[Hin|(tag & Hnew)]|(v0 & holds0 & tag & Hv0 & Hrest)];
             [auto| |].
           ++ right. exists v, holds, tag. cbn [In].
              destruct Hnew as (H1 & H2 & H3 & H4). auto 10.
           ++ right. exists v0, holds0, tag. cbn [In]. auto.
        -- intros [Hin|(v0 & holds0 & tag & [<-|Hv0] & Ht0 & Hh0 & Hrest)];
             [auto| |].
           ++ left. right. rewrite Hh in Hh0. injection Hh0 as <-.
              exists tag. exact Hrest.
           ++ right. exists v0, holds0, tag. auto.
      * intros b. rewrite (IHb b). cbn [In]. split.
        -- intros [Hin|(v0 & Hv0 & Hrest)]; [auto|].
           right. exists v0. auto.
        -- intros [Hin|(v0 & [<-|Hv0] & Ht0 & Hrest)]; [auto| |].
           ++ congruence.
           ++ right. exists v0. auto.
Qed.

Lemma doListStepAll_filesystems_spec (p : Pool) (fss : list DatasetPath) :
  forall acc out,
    doListStepAll_filesystems p fss acc = Ok out ->
    (forall h,
        In h (StepHolds out) <->
        In h (StepHolds acc) \/
        exists fs fsvs v holds tag,
          In fs fss /\
          ZFSListFilesystemVersions (ZFSListChan p (ToString fs)) None
          = Ok fsvs /\
          In v fsvs /\ Type_ v = Snapshot /\
          ZFSHolds p (ToString fs) (Name v) = Ok holds /\
          In tag holds /\ ParseStepHoldTag tag = Ok (sh_JobID h) /\
          sh_FS h = ToString fs /\ sh_Snap h = Name v) /\
    (forall b,
        In b (StepBookmarks out) <->
        In b (StepBookmarks acc) \/
        exists fs fsvs v,
          In fs fss /\
          ZFSListFilesystemVersions (ZFSListChan p (ToString fs)) None
          = Ok fsvs /\
          In v fsvs /\ Type_ v = Bookmark /\
          ParseStepBookmarkName (ToAbsPath v fs)
          = Ok (sbm_Guid b, sbm_JobID b) /\
          sbm_FS b = ToString fs /\ sbm_Name b = Name v).
Proof.
  induction fss as [|fs rest IH]; intros acc out;
    cbn [doListStepAll_filesystems].
  - intros H. injection H as <-. split; intros x; (split; [auto|]).
    + intros [H|(fs & fsvs & v & holds & tag & [] & _)]. exact H.
    + intros [H|(fs & fsvs & v & [] & _)]. exact H.
  - destruct (ZFSListFilesystemVersions (ZFSListChan p (ToString fs)) None)
      as [fsvs| |] eqn:Hl; cbn [wrap bind]; try discriminate.
    destruct (doListStepAll_versions p fs fsvs acc) as [out'| |] eqn:Hv;
      cbn [bind]; try discriminate.
    intros H. destruct (IH _ _ H) as [IHh IHb].
    destruct (doListStepAll_versions_spec _ _ _ _ _ Hv) as [Vh Vb]. split.
    + intros h. rewrite (IHh h), (Vh h). split.
      * intros [[Hin|(v & holds & tag & Hrest)]
               |(fs0 & fsvs0 & v & holds & tag & Hfs0 & Hrest)]; [auto| |].
        -- right. exists fs, fsvs, v, holds, tag. cbn [In]. auto 10.
        -- right. exists fs0, fsvs0, v, holds, tag. cbn [In]. auto.
      * intros [Hin|(fs0 & fsvs0 & v & holds & tag & [<-|Hfs0] & Hl0 & Hrest)];
          [auto| |].
        -- left. right. rewrite Hl in Hl0. injection Hl0 as <-.
           exists v, holds, tag. exact Hrest.
        -- right. exists fs0, fsvs0, v, holds, tag. auto.
    + intros b. rewrite (IHb b), (Vb b). split.
      * intros [[Hin|(v & Hrest)]|(fs0 & fsvs0 & v & Hfs0 & Hrest)]; [auto| |].
        -- right. exists fs, fsvs, v. cbn [In]. auto 10.
        -- right. exists fs0, fsvs0, v. cbn [In]. auto.
      * intros [Hin|(fs0 & fsvs0 & v & [<-|Hfs0] & Hl0 & Hrest)]; [auto| |].
        -- left. right. rewrite Hl in Hl0. injection Hl0 as <-.
           exists v. exact Hrest.
        -- right. exists fs0, fsvs0, v. auto.
Qed.

(** X24.  When [ListStepAll] succeeds, its step holds are exactly the holds
    on the snapshots of the listed filesystems that decode as step hold
    tags, each with the job the tag decodes to, and its step bookmarks are
    exactly the listed bookmarks whose absolute path
    [ParseStepBookmarkName] accepts, each with the guid and job decoded. *)
Theorem ListStepAll_spec (p : Pool) (fss : list DatasetPath)
  (out : ListStepAllOutput) :
  ZFSListMapping p = Ok fss ->
  ListStepAll p = Ok out ->
  (forall h,
      In h (StepHolds out) <->
      exists fs fsvs v holds tag,
        In fs fss /\
        ZFSListFilesystemVersions (ZFSListChan p (ToString fs)) None
        = Ok fsvs /\
        In v fsvs /\ Type_ v = Snapshot /\
        ZFSHolds p (ToString fs) (Name v) = Ok holds /\
        In tag holds /\ ParseStepHoldTag tag = Ok (sh_JobID h) /\
        sh_FS h = ToString fs /\ sh_Snap h = Name v) /\
  (forall b,
      In b (StepBookmarks out) <->
      exists fs fsvs v,
        In fs fss /\
        ZFSListFilesystemVersions (ZFSListChan p (ToString fs)) None
        = Ok fsvs /\
        In v fsvs /\ Type_ v = Bookmark /\
        ParseStepBookmarkName (ToAbsPath v fs)
        = Ok (sbm_Guid b, sbm_JobID b) /\
        sbm_FS b = ToString fs /\ sbm_Name b = Name v).
Proof.
  intros Hm. unfold ListStepAll, doListStepAll. rewrite Hm. cbn [wrap bind].
  intros H. destruct (doListStepAll_filesystems_spec _ _ _ _ H) as [Hh Hb].
  cbn [StepHolds StepBookmarks In] in Hh, Hb. split.
  - intros h. rewrite (Hh h). split; [intros [[]|H0]; exact H0 | auto].
  - intros b. rewrite (Hb b). split; [intros [[]|H0]; exact H0 | auto].
Qed.

(** X25.  Every step bookmark [ListStepAll] reports belongs to a filesystem
    whose name starts with the byte [z]: the bookmarks of every other
    filesystem are skipped, whatever their names, because their absolute
    path does not scan under the format of step bookmark names. *)
Theorem ListStepAll_step_bookmarks (p : Pool) (out : ListStepAllOutput)
  (b : StepBookmark) :
  ListStepAll p = Ok out ->
  In b (StepBookmarks out) ->
  starts_with_z (sbm_FS b) = true.
Proof.
  unfold ListStepAll, doListStepAll, ZFSListMapping. cbn [wrap bind].
  intros H Hin.
  destruct (doListStepAll_filesystems_spec _ _ _ _ H) as [_ Hb].
  apply Hb in Hin. cbn [StepBookmarks In] in Hin.
  destruct Hin as [[]|(fs & fsvs & v & _ & _ & _ & Ht & Hp & -> & _)].
  unfold ToAbsPath in Hp. rewrite Ht in Hp. cbn [DelimiterChar] in Hp.
  destruct (starts_with_z (ToString fs)) eqn:Hz; [reflexivity|].
  assert (E : is_err (ParseStepBookmarkName (ToString fs ++ "#" ++ Name v))
              = true).
  { destruct (ToString fs) as [|a s]; simpl in *;
      apply ParseStepBookmarkName_first_rune; [reflexivity | exact Hz]. }
  rewrite Hp in E. discriminate.
Qed.

(** ** Rows of [zfs list] and the versions parsed from them *)

Lemma digits_of_uint_acc (d : Decimal.uint) (q : positive) :
  Strconv.digits (Npos q) (NilEmpty.string_of_uint d)
  = Some (Npos (Pos.of_uint_acc d q)).
Proof.
  revert q. induction d; intros q; cbn [NilEmpty.string_of_uint Strconv.digits];
    [reflexivity|..];
    match goal with
    | |- context [Strconv.digit ?c] =>
        let v := eval vm_compute in (Strconv.digit c) in
        change (Strconv.digit c) with v
    end;
    cbv beta iota; cbn [Pos.of_uint_acc]; rewrite <- IHd; f_equal; try lia.
Qed.

Lemma digits_of_uint (d : Decimal.uint) :
  Strconv.digits 0 (NilEmpty.string_of_uint d) = Some (Pos.of_uint d).
Proof.
  induction d; cbn [NilEmpty.string_of_uint Strconv.digits Pos.of_uint];
    [reflexivity | exact IHd | ..];
    match goal with
    | |- context [Strconv.digit ?c] =>
        let v := eval vm_compute in (Strconv.digit c) in
        change (Strconv.digit c) with v
    end;
    cbv beta iota; rewrite <- digits_of_uint_acc; f_equal.
Qed.

Lemma decimal_nonempty (n : N) : decimal n <> EmptyString.
Proof.
  unfold decimal.
  assert (H : N.to_uint n <> Decimal.Nil).
  { destruct n; [discriminate | apply DecimalPos.Unsigned.to_uint_nonnil]. }
  destruct (N.to_uint n); [now elim H | discriminate ..].
Qed.

Lemma digits_decimal (n : N) : Strconv.digits 0 (decimal n) = Some n.
Proof.
  unfold decimal. rewrite digits_of_uint.
  f_equal. apply DecimalN.Unsigned.of_to.
Qed.

Lemma ParseUint_decimal (n : N) :
  (n < 2 ^ 64)%N -> Strconv.ParseUint (decimal n) = Ok n.
Proof.
  intros H. unfold Strconv.ParseUint. rewrite digits_decimal.
  apply N.ltb_lt in H. rewrite H.
  pose proof (decimal_nonempty n). now destruct (decimal n).
Qed.

(** The first byte of a decimal numeral is a digit. *)
Lemma decimal_head (n : N) :
  exists a r, decimal n = String a r /\
              Ascii.eqb a "-" = false /\ Ascii.eqb a "+" = false.
Proof.
  unfold decimal.
  assert (H : N.to_uint n <> Decimal.Nil).
  { destruct n; [discriminate | apply DecimalPos.Unsigned.to_uint_nonnil]. }
  destruct (N.to_uint n); [now elim H | ..];
    cbn [NilEmpty.string_of_uint]; eexists; eexists;
    (split; [reflexivity | split; reflexivity]).
Qed.

Lemma ParseInt_decimalZ (z : Z) :
  (- 2 ^ 63 <= z < 2 ^ 63)%Z -> Strconv.ParseInt (decimalZ z) = Ok z.
Proof.
  intros H. unfold decimalZ.
  assert (Hpos : forall n, (n < 2 ^ 63)%N ->
                           Strconv.ParseInt (decimal n) = Ok (Z.of_N n)).
  { intros n Hn. destruct (decimal_head n) as (a & r & E & Hm & Hp).
    unfold Strconv.ParseInt.
    assert (Hsplit : match decimal n with
                     | String "-" r0 => (true, r0)
                     | String "+" r0 => (false, r0)
                     | _ => (false, decimal n)
                     end = (false, decimal n)).
    { rewrite E.
      destruct a as [[] [] [] [] [] [] [] []]; try reflexivity; discriminate. }
    rewrite Hsplit, digits_decimal. apply N.ltb_lt in Hn. rewrite Hn.
    now rewrite E. }
  destruct z as [|q|q].
  - now apply (Hpos 0%N).
  - rewrite (Hpos (Z.to_N (Z.pos q))); [|lia]. f_equal.
  - unfold Strconv.ParseInt. cbn [append].
    rewrite digits_decimal.
    assert (Hq : (N.pos q <=? 2 ^ 63)%N = true) by (apply N.leb_le; lia).
    rewrite Hq.
    pose proof (decimal_nonempty (N.pos q)).
    now destruct (decimal (N.pos q)).
Qed.

Lemma listable_spec (d : Dataset) :
  listable d = true ->
  no_delimiter (Filesystem d) = true /\
  DecomposeVersionString (AbsPath d)
  = Ok (Filesystem d, Type_ (Version d), Name (Version d)) /\
  Strconv.ParseUint (decimal (Guid (Version d))) = Ok (Guid (Version d)) /\
  Strconv.ParseUint (decimal (CreateTXG (Version d)))
  = Ok (CreateTXG (Version d)) /\
  Strconv.ParseInt (decimalZ (Creation (Version d)))
  = Ok (Creation (Version d)).
Proof.
  unfold listable. intros H.
  apply andb_prop in H. destruct H as [H Hc2].
  apply andb_prop in H. destruct H as [H Hc1].
  apply andb_prop in H. destruct H as [H Ht].
  apply andb_prop in H. destruct H as [H Hg].
  apply andb_prop in H. destruct H as [H Hlen].
  apply andb_prop in H. destruct H as [Hfs Hname].
  apply negb_true_iff in Hname. apply Nat.leb_le in Hlen.
  apply N.ltb_lt in Hg. apply N.ltb_lt in Ht.
  apply Z.leb_le in Hc1. apply Z.ltb_lt in Hc2.
  split; [exact Hfs|]. split.
  - exact (DecomposeVersionString_compose (Version d)
             (mkDatasetPath (Filesystem d)) Hfs Hname Hlen).
  - split; [now apply ParseUint_decimal|].
    split; [now apply ParseUint_decimal|].
    apply ParseInt_decimalZ. now split.
Qed.

Lemma ZFSListFilesystemVersions_loop_rows (ds : list Dataset) :
  (forall d, In d ds -> listable d = true) ->
  forall res,
    ZFSListFilesystemVersions_loop
      (map (fun d => ListFields [AbsPath d; decimal (Guid (Version d));
                                 decimal (CreateTXG (Version d));
                                 decimalZ (Creation (Version d))]) ds)
      None res
    = Ok (res ++ map Version ds)%list.
Proof.
  induction ds as [|d ds IH]; intros Hl res.
  - cbn [map ZFSListFilesystemVersions_loop]. now rewrite app_nil_r.
  - destruct (listable_spec d (Hl d (or_introl eq_refl)))
      as (_ & Hd & Hg & Ht & Hc).
    cbn [map ZFSListFilesystemVersions_loop field nth_error bind].
    rewrite Hd. cbn [bind]. rewrite Hg. cbn [wrap bind].
    rewrite Ht. cbn [wrap bind]. rewrite Hc. cbn [bind].
    rewrite IH by (intros x Hx; apply Hl; now right).
    rewrite <- app_assoc. cbn [app]. now destruct (Version d).
Qed.

Lemma In_insert_by_txg (x d : Dataset) (l : list Dataset) :
  In x (insert_by_txg d l) <-> x = d \/ In x l.
Proof.
  induction l as [|y l IH]; cbn [insert_by_txg].
  - cbn. split; intros [H|H]; auto.
  - destruct (_ <=? _)%N; cbn [In].
    + split; intros [H|H]; auto.
    + rewrite IH. split; intros [H|[H|H]]; auto.
Qed.

Lemma In_sort_by_txg (x : Dataset) (l : list Dataset) :
  In x (sort_by_txg l) <-> In x l.
Proof.
  unfold sort_by_txg. induction l as [|y l IH]; cbn [fold_right In].
  - reflexivity.
  - rewrite In_insert_by_txg, IH. split; intros [H|H]; auto.
Qed.

(** X26.  Listing the versions of a filesystem parses every row the driver
    delivers: with no filter the result is the versions of the filesystem,
    in the driver's order by createtxg, when the full names decompose and
    the numbers fit their types. *)
Theorem ZFSListFilesystemVersions_ZFSListChan (p : Pool) (fs : string) :
  (forall d, In d (Datasets p) -> Filesystem d = fs -> listable d = true) ->
  ZFSListFilesystemVersions (ZFSListChan p fs) None
  = Ok (map Version (sort_by_txg (filter (in_fs fs) (Datasets p)))).
Proof.
  intros H. unfold ZFSListFilesystemVersions, ZFSListChan.
  rewrite ZFSListFilesystemVersions_loop_rows; [reflexivity|].
  intros d Hd. apply (proj1 (In_sort_by_txg _ _)) in Hd.
  apply filter_In in Hd.
  destruct Hd as [Hd Hfs]. apply H; [exact Hd|].
  unfold in_fs in Hfs. now apply String.eqb_eq in Hfs.
Qed.

(** ** The cursor in the listing and at its path *)

(** Among the versions of a store that list, the cursor of [fs] is the one at
    the path [fs#zrepl_replication_cursor]. *)
Lemma cursor_at_path (fs : string) (d : Dataset) :
  no_delimiter fs = true -> listable d = true ->
  in_fs fs d && is_cursor (Version d)
  = at_path (fs ++ "#" ++ ReplicationCursorBookmarkName) d.
Proof.
  intros Hfs Hd. unfold listable in Hd.
  do 5 (apply andb_prop in Hd; destruct Hd as [Hd _]).
  apply andb_prop in Hd. destruct Hd as [Hdfs Hname].
  apply negb_true_iff in Hname.
  unfold no_delimiter in Hfs, Hdfs.
  apply andb_prop in Hfs. destruct Hfs as [_ Hfs].
  apply andb_prop in Hdfs. destruct Hdfs as [_ Hdfs].
  apply negb_true_iff in Hfs. apply negb_true_iff in Hdfs.
  unfold in_fs, is_cursor, at_path, AbsPath, ToAbsPath. cbn [ToString].
  remember ReplicationCursorBookmarkName as c eqn:Ec.
  change (fs ++ "#" ++ c) with (fs ++ String "#" c).
  destruct (String.eqb_spec (Filesystem d ++ DelimiterChar (Type_ (Version d))
                             ++ Name (Version d)) (fs ++ String "#" c))
    as [E|E].
  - destruct (Type_ (Version d)); cbn [DelimiterChar] in E.
    + change (Filesystem d ++ "#" ++ Name (Version d))
        with (Filesystem d ++ String "#" (Name (Version d))) in E.
      pose proof (split_unique _ _ _ _ _ Hdfs Hfs E) as F.
      rewrite F in E. apply append_inv_head in E. injection E as E.
      rewrite F, E, !String.eqb_refl. reflexivity.
    + exfalso.
      assert (H : Bytes.contains "#" (fs ++ String "#" c) = true).
      { rewrite contains_app. apply orb_true_iff. right.
        unfold Bytes.contains. cbn [list_ascii_of_string existsb].
        now rewrite Ascii.eqb_refl. }
      rewrite <- E, contains_app, Hdfs in H. cbn [orb] in H.
      change ("@" ++ Name (Version d)) with (String "@" (Name (Version d)))
        in H.
      unfold Bytes.contains in H, Hname.
      cbn [list_ascii_of_string existsb] in H.
      rewrite Hname in H. discriminate.
  - destruct (String.eqb_spec (Filesystem d) fs) as [F|F]; [|reflexivity].
    destruct (Type_ (Version d)) eqn:T; [|reflexivity].
    cbn [VersionType_eqb andb].
    destruct (String.eqb_spec (Name (Version d)) c) as [N|N]; [|reflexivity].
    exfalso. apply E. cbn [DelimiterChar]. now rewrite F, N.
Qed.

Lemma find_map {A B} (f : B -> bool) (g : A -> B) (l : list A) :
  find f (map g l) = option_map g (find (fun a => f (g a)) l).
Proof.
  induction l as [|a l IH]; cbn [map find]; [reflexivity|].
  destruct (f (g a)); [reflexivity | exact IH].
Qed.

Lemma find_ext_in {A} (f g : A -> bool) (l : list A) :
  (forall a, In a l -> f a = g a) -> find f l = find g l.
Proof.
  induction l as [|a l IH]; cbn [find]; intros H; [reflexivity|].
  rewrite (H a (or_introl eq_refl)).
  destruct (g a); [reflexivity|]. apply IH. intros x Hx. apply H. now right.
Qed.

(** The first element a predicate selects does not depend on the order when
    the predicate selects at most one element. *)
Lemma find_unique {A} (f : A -> bool) (l1 l2 : list A) :
  (forall a, f a = true -> (In a l1 <-> In a l2)) ->
  (forall a b, In a l2 -> In b l2 -> f a = true -> f b = true -> a = b) ->
  find f l1 = find f l2.
Proof.
  intros Hsame Huni.
  destruct (find f l1) as [x|] eqn:E1; destruct (find f l2) as [y|] eqn:E2.
  - apply find_some in E1. apply find_some in E2.
    destruct E1 as [I1 F1]. destruct E2 as [I2 F2].
    f_equal. apply Huni; auto. now apply (Hsame x F1).
  - apply find_some in E1. destruct E1 as [I1 F1].
    apply (Hsame x F1) in I1.
    pose proof (find_none _ _ E2 x I1) as H. congruence.
  - apply find_some in E2. destruct E2 as [I2 F2].
    apply (Hsame y F2) in I2.
    pose proof (find_none _ _ E1 y I2) as H. congruence.
  - reflexivity.
Qed.

Lemma GetReplicationCursor_find_path (p : Pool) (fs : string) :
  no_delimiter fs = true ->
  (forall d, In d (Datasets p) -> listable d = true) ->
  (forall d1 d2, In d1 (Datasets p) -> In d2 (Datasets p) ->
                 AbsPath d1 = fs ++ "#" ++ ReplicationCursorBookmarkName ->
                 AbsPath d2 = fs ++ "#" ++ ReplicationCursorBookmarkName ->
                 d1 = d2) ->
  GetReplicationCursor (ZFSListChan p fs)
  = Ok (option_map Version
          (find_path p (fs ++ "#" ++ ReplicationCursorBookmarkName))).
Proof.
  intros Hfs Hl Huni. unfold GetReplicationCursor.
  unfold ZFSListFilesystemVersions, ZFSListChan.
  rewrite ZFSListFilesystemVersions_loop_rows.
  2: { intros d Hd. apply (proj1 (In_sort_by_txg _ _)) in Hd.
       apply filter_In in Hd. now apply Hl. }
  cbn [bind app]. f_equal. rewrite find_map. f_equal. unfold find_path.
  set (path := fs ++ "#" ++ ReplicationCursorBookmarkName) in *.
  assert (Hin : forall d, In d (sort_by_txg (filter (in_fs fs) (Datasets p)))
                          <-> In d (Datasets p) /\ in_fs fs d = true).
  { intros d. rewrite In_sort_by_txg. apply filter_In. }
  rewrite (find_ext_in _ (at_path path)).
  - apply find_unique.
    + intros d Hd. rewrite Hin. split; [now intros [H _]|].
      intros H. split; [exact H|].
      unfold path in Hd. rewrite <- (cursor_at_path fs d Hfs (Hl d H)) in Hd.
      now apply andb_prop in Hd.
    + intros a b Ha Hb Fa Fb. unfold at_path in Fa, Fb.
      apply String.eqb_eq in Fa. apply String.eqb_eq in Fb.
      now apply Huni.
  - intros d Hd. apply Hin in Hd. destruct Hd as [Hd Hf].
    unfold path. rewrite <- (cursor_at_path fs d Hfs (Hl d Hd)).
    now rewrite Hf.
Qed.

(** X27.  In a store whose versions list and have one path each,
    [GetReplicationCursor] returns the version at the path
    [fs#zrepl_replication_cursor], and nothing when no version is there. *)
Theorem GetReplicationCursor_lookup (p : Pool) (fs : string) :
  no_delimiter fs = true ->
  (forall d, In d (Datasets p) -> listable d = true) ->
  NoDup (map AbsPath (Datasets p)) ->
  GetReplicationCursor (ZFSListChan p fs)
  = Ok (option_map Version
          (find_path p (fs ++ "#" ++ ReplicationCursorBookmarkName))).
Proof.
  intros Hfs Hl Hnd. apply GetReplicationCursor_find_path; auto.
  intros d1 d2 H1 H2 E1 E2.
  assert (Hinj : forall l : list Dataset, NoDup (map AbsPath l) ->
            forall a b, In a l -> In b l -> AbsPath a = AbsPath b -> a = b).
  { induction l as [|x l IH]; intros Hn a b Ha Hb E; [now elim Ha|].
    cbn [map] in Hn. inversion Hn as [|? ? Hx Hn']. subst.
    destruct Ha as [<-|Ha]; destruct Hb as [<-|Hb]; auto.
    - elim Hx. rewrite E. now apply in_map.
    - elim Hx. rewrite <- E. now apply in_map. }
  apply (Hinj _ Hnd); auto. congruence.
Qed.

(** ** Setting the cursor, then getting it *)

Lemma length_append (a b : string) :
  String.length (a ++ b) = String.length a + String.length b.
Proof.
  induction a as [|c a IH]; cbn [append String.length]; [reflexivity|].
  now rewrite IH.
Qed.

Lemma NoDup_AbsPath_inj (l : list Dataset) :
  NoDup (map AbsPath l) ->
  forall a b, In a l -> In b l -> AbsPath a = AbsPath b -> a = b.
Proof.
  induction l as [|x l IH]; intros Hn a b Ha Hb E; [now elim Ha|].
  cbn [map] in Hn. inversion Hn as [|? ? Hx Hn']. subst.
  destruct Ha as [<-|Ha]; destruct Hb as [<-|Hb]; auto.
  - elim Hx. rewrite E. now apply in_map.
  - elim Hx. rewrite <- E. now apply in_map.
Qed.

(** A version that lists and sits at [fs] followed by a delimiter and a name
    is a version of [fs]. *)
Lemma listable_in_fs (fs rest : string) (c : ascii) (d : Dataset) :
  no_delimiter fs = true -> listable d = true ->
  c = "@"%char \/ c = "#"%char ->
  AbsPath d = fs ++ String c rest ->
  Filesystem d = fs.
Proof.
  intros Hfs Hd Hc E. unfold listable in Hd.
  do 5 (apply andb_prop in Hd; destruct Hd as [Hd _]).
  apply andb_prop in Hd. destruct Hd as [Hdfs Hname].
  apply negb_true_iff in Hname.
  unfold no_delimiter in Hfs, Hdfs.
  apply andb_prop in Hfs. destruct Hfs as [Hfs1 Hfs2].
  apply andb_prop in Hdfs. destruct Hdfs as [Hd1 Hd2].
  apply negb_true_iff in Hfs1. apply negb_true_iff in Hfs2.
  apply negb_true_iff in Hd1. apply negb_true_iff in Hd2.
  unfold AbsPath, ToAbsPath in E. cbn [ToString] in E.
  assert (Hin : Bytes.contains c (fs ++ String c rest) = true).
  { rewrite contains_app. apply orb_true_iff. right.
    unfold Bytes.contains. cbn [list_ascii_of_string existsb].
    now rewrite Ascii.eqb_refl. }
  rewrite <- E in Hin. rewrite contains_app in Hin.
  destruct (Type_ (Version d)); cbn [DelimiterChar] in E, Hin;
    destruct Hc as [-> | ->].
  - exfalso. rewrite Hd1 in Hin. cbn [orb] in Hin.
    change ("#" ++ Name (Version d)) with (String "#" (Name (Version d)))
      in Hin.
    unfold Bytes.contains in Hin, Hname.
    cbn [list_ascii_of_string existsb] in Hin.
    rewrite Hname in Hin. discriminate.
  - exact (split_unique _ _ _ _ _ Hd2 Hfs2 E).
  - exact (split_unique _ _ _ _ _ Hd1 Hfs1 E).
  - exfalso. rewrite Hd2 in Hin. cbn [orb] in Hin.
    change ("@" ++ Name (Version d)) with (String "@" (Name (Version d)))
      in Hin.
    unfold Bytes.contains in Hin, Hname.
    cbn [list_ascii_of_string existsb] in Hin.
    rewrite Hname in Hin. discriminate.
Qed.

(** A validated argument names its delimiter first. *)
Lemma ValidateExistsAndGetCheckedProps_RelName (p : Pool)
  (v : ZFSSendArgVersion) (fs : string)
  (props : ZFSPropCreateTxgAndGuidProps) :
  ValidateExistsAndGetCheckedProps p v fs = Ok props ->
  exists c rest, RelName v = String c rest /\
                 (c = "@"%char \/ c = "#"%char).
Proof.
  unfold ValidateExistsAndGetCheckedProps, IsSnapshot, MustBeBookmark.
  destruct (RelName v) as [|c rest]; [discriminate|].
  intros H. exists c, rest. split; [reflexivity|].
  destruct (Ascii.eqb_spec c "@"); [now left|].
  destruct (Ascii.eqb_spec c "#"); [now right|].
  discriminate.
Qed.

(** The bookmark [ZFSBookmark] appends when the name is free. *)
Lemma ZFSBookmark_appends (q q' : Pool) (fs : string) (v : ZFSSendArgVersion)
  (name : string) :
  find_path q (fs ++ "#" ++ name) = None ->
  ZFSBookmark q fs v name = Ok q' ->
  exists src,
    find_path q (FullPath v fs) = Some src /\
    Datasets q' =
    (Datasets q ++
     [mkDataset fs (mkVersion Bookmark name (Guid (Version src))
                      (CreateTXG (Version src)) (Creation (Version src)))
                []])%list.
Proof.
  intros Hnone. unfold ZFSBookmark. rewrite Hnone.
  destruct (find_path q (FullPath v fs)) as [src|]; [|discriminate].
  intros H. exists src. split; [reflexivity|].
  destruct (Type_ (Version src)), (BookmarkCloning q);
    try discriminate; now injection H as <-.
Qed.

Lemma ZFSDestroy_subset (q q' : Pool) (path : string) :
  ZFSDestroy q path = Ok q' ->
  forall d, In d (Datasets q') -> In d (Datasets q).
Proof.
  unfold ZFSDestroy. destruct (find_path q path) as [x|]; [|discriminate].
  destruct (Holds x); [|discriminate].
  intros H d Hd. injection H as <-. cbn [Datasets] in Hd.
  now apply filter_In in Hd.
Qed.

Lemma cursor_bookmark_listable (fs : string) (src : Dataset) :
  no_delimiter fs = true -> listable src = true ->
  listable (mkDataset fs
              (mkVersion Bookmark ReplicationCursorBookmarkName
                 (Guid (Version src)) (CreateTXG (Version src))
                 (Creation (Version src))) []) = true.
Proof.
  intros Hfs Hs. unfold listable in *.
  cbn [Filesystem Version Type_ Name Guid CreateTXG Creation].
  apply andb_prop in Hs. destruct Hs as [Hs H7]. rewrite H7.
  apply andb_prop in Hs. destruct Hs as [Hs H6]. rewrite H6.
  apply andb_prop in Hs. destruct Hs as [Hs H5]. rewrite H5.
  apply andb_prop in Hs. destruct Hs as [Hs H4]. rewrite H4.
  rewrite Hfs.
  assert (Hn : Bytes.contains "@" ReplicationCursorBookmarkName = false)
    by reflexivity.
  rewrite Hn.
  assert (Hl : (3 <=? String.length
                  (AbsPath (mkDataset fs
                     (mkVersion Bookmark ReplicationCursorBookmarkName
                        (Guid (Version src)) (CreateTXG (Version src))
                        (Creation (Version src))) [])))%nat = true).
  { apply Nat.leb_le. unfold AbsPath, ToAbsPath.
    cbn [Filesystem Version Type_ Name ToString DelimiterChar].
    rewrite length_append.
    change (String.length ("#" ++ ReplicationCursorBookmarkName)) with 25.
    lia. }
  rewrite Hl. reflexivity.
Qed.

Lemma GetReplicationCursor_absent (q : Pool) (fs : string) :
  no_delimiter fs = true ->
  (forall d, In d (Datasets q) -> listable d = true) ->
  find_path q (fs ++ "#" ++ ReplicationCursorBookmarkName) = None ->
  GetReplicationCursor (ZFSListChan q fs) = Ok None.
Proof.
  intros Hfs Hl Hnone.
  rewrite GetReplicationCursor_find_path; auto.
  - now rewrite Hnone.
  - intros d1 d2 H1 _ E _. exfalso.
    pose proof (find_none _ _ Hnone d1 H1) as F.
    unfold at_path in F. rewrite E, String.eqb_refl in F. discriminate.
Qed.

(** X8.  After [SetReplicationCursor] succeeded on a store whose versions
    list and have one path each, [GetReplicationCursor] returns a bookmark
    with the createtxg and the GUID [ZFSGetCreateTXGAndGuid] reports for the
    target; once that bookmark is destroyed, [GetReplicationCursor] returns
    no cursor and no error. *)
Theorem SetReplicationCursor_then_GetReplicationCursor (p : Pool)
  (fs : string) (target : ZFSSendArgVersion) (w : World) :
  wf_pool p -> no_delimiter fs = true ->
  (forall d, In d (Datasets p) -> listable d = true) ->
  NoDup (map AbsPath (Datasets p)) ->
  SetReplicationCursor fs target (start p) = (Ok tt, w) ->
  exists snapProps bm,
    ZFSGetCreateTXGAndGuid (now w) (FullPath target fs) = Ok snapProps /\
    GetReplicationCursor (ZFSListChan (now w) fs) = Ok (Some bm) /\
    CreateTXG bm = PropCreateTXG snapProps /\
    Guid bm = PropGuid snapProps /\
    forall q, ZFSDestroy (now w) (ToAbsPath bm (mkDatasetPath fs)) = Ok q ->
              GetReplicationCursor (ZFSListChan q fs) = Ok None.
Proof.
  intros Hwf Hfs Hl Hnd H.
  assert (Hne : fs <> EmptyString).
  { intros ->. discriminate. }
  destruct (ValidateExistsAndGetCheckedProps p target fs) as [snapProps| |]
    eqn:Hv.
  2,3: unfold SetReplicationCursor in H;
       destruct (String.length fs =? 0)%nat; [discriminate|];
       unfold mbind, mwrap, query, start in H; cbn [now] in H;
       rewrite Hv in H; discriminate.
  pose proof H as Hrun.
  rewrite (SetReplicationCursor_run p fs target snapProps Hne Hv) in Hrun.
  destruct (ValidateExistsAndGetCheckedProps_Ok _ _ _ _ Hv) as (src & Hsrc & Ep).
  destruct (ValidateExistsAndGetCheckedProps_RelName _ _ _ _ Hv)
    as (c0 & rest & Hrel & Hc0).
  destruct (find_path_In _ _ _ Hsrc) as [Isrc Esrc].
  set (path := fs ++ "#" ++ ReplicationCursorBookmarkName) in *.
  (* the store [q0] reached, with the cursor [c] at its path *)
  assert (Hfin : forall q0 c,
    (forall d, In d (Datasets q0) -> listable d = true) ->
    find_path q0 path = Some c ->
    (forall d1 d2, In d1 (Datasets q0) -> In d2 (Datasets q0) ->
                   AbsPath d1 = path -> AbsPath d2 = path -> d1 = d2) ->
    find_path q0 (FullPath target fs) = Some src ->
    CreateTXG (Version c) = CreateTXG (Version src) ->
    Guid (Version c) = Guid (Version src) ->
    exists snapProps bm,
      ZFSGetCreateTXGAndGuid q0 (FullPath target fs) = Ok snapProps /\
      GetReplicationCursor (ZFSListChan q0 fs) = Ok (Some bm) /\
      CreateTXG bm = PropCreateTXG snapProps /\
      Guid bm = PropGuid snapProps /\
      forall q, ZFSDestroy q0 (ToAbsPath bm (mkDatasetPath fs)) = Ok q ->
                GetReplicationCursor (ZFSListChan q fs) = Ok None).
  { intros q0 c Hl0 Hc Huni Hs0 Ht Hg.
    exists (mkProps (CreateTXG (Version src)) (Guid (Version src))),
           (Version c).
    split; [unfold ZFSGetCreateTXGAndGuid; now rewrite Hs0|].
    split.
    { rewrite GetReplicationCursor_find_path; auto.
      fold path. now rewrite Hc. }
    split; [exact Ht|]. split; [exact Hg|].
    intros q Hd.
    destruct (find_path_In _ _ _ Hc) as [Ic Ec].
    assert (Hcf : Filesystem c = fs).
    { exact (listable_in_fs fs ReplicationCursorBookmarkName "#" c Hfs
               (Hl0 c Ic) (or_intror eq_refl) Ec). }
    assert (Hp : ToAbsPath (Version c) (mkDatasetPath fs) = path).
    { rewrite <- Ec. unfold AbsPath. now rewrite Hcf. }
    rewrite Hp in Hd.
    apply GetReplicationCursor_absent; [exact Hfs| |].
    - intros d Id. apply Hl0. exact (ZFSDestroy_subset _ _ _ Hd d Id).
    - now destruct (ZFSDestroy_Ok _ _ _ Hd). }
  (* the cursor is created in the store [q] *)
  assert (Hcreated : forall q before,
    (forall d, In d (Datasets q) -> In d (Datasets p)) ->
    find_path q (FullPath target fs) = Some src ->
    find_path q path = None ->
    createCursorBookmark fs target (mkWorld q before) = (Ok tt, w) ->
    exists snapProps bm,
      ZFSGetCreateTXGAndGuid (now w) (FullPath target fs) = Ok snapProps /\
      GetReplicationCursor (ZFSListChan (now w) fs) = Ok (Some bm) /\
      CreateTXG bm = PropCreateTXG snapProps /\
      Guid bm = PropGuid snapProps /\
      forall q', ZFSDestroy (now w) (ToAbsPath bm (mkDatasetPath fs)) = Ok q' ->
                 GetReplicationCursor (ZFSListChan q' fs) = Ok None).
  { intros q before Hsub Hq Hnone Hc.
    rewrite createCursorBookmark_run in Hc. cbn [now past] in Hc.
    destruct (ZFSBookmark q fs target ReplicationCursorBookmarkName)
      as [q'|e|msg] eqn:Hb; [|destruct e; discriminate|discriminate].
    injection Hc as <-. cbn [now].
    destruct (ZFSBookmark_appends _ _ _ _ _ Hnone Hb) as (src' & Hsrc' & Hds).
    rewrite Hq in Hsrc'. injection Hsrc' as <-.
    set (new := mkDataset fs
                  (mkVersion Bookmark ReplicationCursorBookmarkName
                     (Guid (Version src)) (CreateTXG (Version src))
                     (Creation (Version src))) []) in *.
    assert (Hnew : forall d, In d (Datasets q') -> AbsPath d = path ->
                             d = new).
    { intros d Id Ed. rewrite Hds in Id. apply in_app_or in Id.
      destruct Id as [Id|[<-|[]]]; [exfalso|reflexivity].
      pose proof (find_none _ _ Hnone d Id) as F.
      unfold at_path in F. rewrite Ed, String.eqb_refl in F.
      discriminate. }
    apply (Hfin q' new).
    - intros d Id. rewrite Hds in Id. apply in_app_or in Id.
      destruct Id as [Id|[<-|[]]]; [now apply Hl, Hsub|].
      apply cursor_bookmark_listable; [exact Hfs | now apply Hl].
    - unfold find_path. rewrite Hds.
      rewrite find_app_last by exact Hnone.
      assert (F : at_path path new = true) by apply String.eqb_refl.
      now rewrite F.
    - intros d1 d2 I1 I2 E1 E2.
      now rewrite (Hnew d1 I1 E1), (Hnew d2 I2 E2).
    - unfold find_path. rewrite Hds. now apply find_app_first.
    - reflexivity.
    - reflexivity. }
  destruct (find_path p path) as [c|] eqn:Hc.
  - destruct (PropCreateTXG snapProps <? CreateTXG (Version c))%N eqn:Hlt;
      [discriminate|].
    destruct (Guid (Version c) =? PropGuid snapProps)%N eqn:Hg.
    + injection Hrun as <-. cbn [now start].
      apply N.eqb_eq in Hg. rewrite Ep in Hg. cbn [PropGuid] in Hg.
      destruct (find_path_In _ _ _ Hc) as [Ic Ec].
      apply (Hfin p c); auto.
      * intros d1 d2 I1 I2 E1 E2.
        apply (NoDup_AbsPath_inj _ Hnd); auto. congruence.
      * apply (wf_guid_txg p Hwf); auto.
        rewrite (listable_in_fs fs ReplicationCursorBookmarkName "#" c Hfs
                   (Hl c Ic) (or_intror eq_refl) Ec).
        symmetry. apply (listable_in_fs fs rest c0 src Hfs (Hl src Isrc) Hc0).
        rewrite Esrc. unfold FullPath. now rewrite Hrel.
    + destruct (ZFSDestroy p path) as [p1| |] eqn:Hd; try discriminate.
      destruct (ZFSDestroy_Ok _ _ _ Hd) as (Hnone & _ & Hkeep).
      apply (Hcreated p1 [p]); [| |exact Hnone|exact Hrun].
      * exact (ZFSDestroy_subset _ _ _ Hd).
      * rewrite Hkeep; [exact Hsrc|].
        intros E. rewrite E, Hc in Hsrc. injection Hsrc as ->.
        rewrite Ep in Hg. cbn [PropGuid] in Hg.
        now rewrite N.eqb_refl in Hg.
  - apply (Hcreated p []); auto.
Qed.

End Endpoint.

(** * The properties on the example stores *)

Lemma DecomposeVersionString_spec_witness :
  exists fs name,
    "tank/fs@snap" = fs ++ "@" ++ name /\ Bytes.contains "@" fs = false /\
    DecomposeVersionString "tank/fs@snap" = Ok (fs, Snapshot, name).
Proof.
  apply (DecomposeVersionString_spec "tank/fs@snap");
    [simpl; lia | reflexivity | reflexivity].
Defined.

Lemma GetReplicationCursor_spec_witness :
  GetReplicationCursor
    (ZFSListChan (mkPool [Example.snapshot "a" 1 100 [];
                          Example.bookmark "other" 1 100] true) Example.fs)
  = Ok None /\
  GetReplicationCursor
    (ZFSListChan
       (mkPool [Example.snapshot "a" 1 100 [];
                Example.bookmark "other" 1 100;
                Example.snapshot "b" 2 200 [];
                Example.bookmark "zrepl_replication_cursor" 2 200] true)
       Example.fs)
  = Ok (Some (mkVersion Bookmark "zrepl_replication_cursor" 2 200 0%Z)).
Proof.
  split.
  - apply (GetReplicationCursor_spec
             (ZFSListChan (mkPool [Example.snapshot "a" 1 100 [];
                                   Example.bookmark "other" 1 100] true)
                Example.fs)
             [mkVersion Snapshot "a" 1 100 0%Z;
              mkVersion Bookmark "other" 1 100 0%Z]
             ltac:(vm_compute; reflexivity)).
    intros v [<-|[<-|[]]]; discriminate.
  - apply (GetReplicationCursor_spec
             (ZFSListChan
                (mkPool [Example.snapshot "a" 1 100 [];
                         Example.bookmark "other" 1 100;
                         Example.snapshot "b" 2 200 [];
                         Example.bookmark "zrepl_replication_cursor" 2 200]
                   true)
                Example.fs)
             [mkVersion Snapshot "a" 1 100 0%Z;
              mkVersion Bookmark "other" 1 100 0%Z;
              mkVersion Snapshot "b" 2 200 0%Z;
              mkVersion Bookmark "zrepl_replication_cursor" 2 200 0%Z]
             ltac:(vm_compute; reflexivity))
      with (pre := [mkVersion Snapshot "a" 1 100 0%Z;
                    mkVersion Bookmark "other" 1 100 0%Z;
                    mkVersion Snapshot "b" 2 200 0%Z])
           (post := @nil FilesystemVersion);
      [reflexivity | | reflexivity | reflexivity].
    intros u [<-|[<-|[<-|[]]]]; discriminate.
Defined.

Lemma MakeJobID_checks_dataset_path_only_witness :
  MakeJobID ZFSNames.DatasetPathCheck Example.longJob
  = Ok (mkJobID Example.longJob) /\
  StepHoldTag ZFSNames.ValidHoldTag (mkJobID Example.longJob)
  = Err (ErrMsg "hold tag exceeds max length") /\
  LastReceivedHoldTag ZFSNames.ValidHoldTag (mkJobID Example.longJob)
  = Err (ErrMsg "hold tag exceeds max length").
Proof.
  destruct (MakeJobID_checks_dataset_path_only ZFSNames.DatasetPathCheck
              ZFSNames.ValidHoldTag Example.longJob) as (_ & H & Hs & Hl).
  assert (Hj : MakeJobID ZFSNames.DatasetPathCheck Example.longJob
               = Ok (mkJobID Example.longJob)).
  { apply H. split; [discriminate|]. split; reflexivity. }
  split; [exact Hj|].
  split; [exact (Hs _ _ Hj eq_refl) | exact (Hl _ _ Hj eq_refl)].
Defined.

(** [MakeJobID] accepts ["a/b"], a dataset path of two components: a job id
    need not be one component of a dataset path. *)
Lemma MakeJobID_accepts_several_components :
  ~ (forall s j, MakeJobID ZFSNames.DatasetPathCheck s = Ok j ->
                 Bytes.contains "/" s = false).
Proof.
  intros H. specialize (H "a/b" (mkJobID "a/b") eq_refl). discriminate.
Qed.

Lemma StepBookmarkName_not_decoded_witness :
  StepBookmarkName ZFSNames.EntityNamecheck "tank/fs" 3735928559
    (mkJobID "myjob") = Ok "zrepl_STEP_G_00000000deadbeef_J_myjob" /\
  is_err (ParseStepBookmarkName ZFSNames.DatasetPathCheck
            ZFSNames.EntityNamecheck
            ("tank/fs" ++ "#" ++ "zrepl_STEP_G_00000000deadbeef_J_myjob"))
  = true.
Proof.
  split; [reflexivity|].
  apply (StepBookmarkName_not_decoded ZFSNames.DatasetPathCheck
           ZFSNames.EntityNamecheck "tank/fs" 3735928559 (mkJobID "myjob"));
    reflexivity.
Defined.

Lemma ZFSNames_snapshot_path_has_no_hash (path : string) :
  Bytes.contains "#" path = true ->
  ZFSNames.EntityNamecheck path EntityTypeSnapshot <> None.
Proof.
  intros H. unfold ZFSNames.EntityNamecheck. rewrite H. discriminate.
Qed.

Lemma receivedPool_wf : wf_pool Example.receivedPool.
Proof.
  split.
  - intros d [<-|[<-|[]]]; reflexivity.
  - intros d1 d2 [<-|[<-|[]]] [<-|[<-|[]]] _ H;
      try reflexivity; discriminate.
Qed.

Lemma MoveLastReceivedHold_no_gap_witness :
  exists p1 p2,
    history (snd (MoveLastReceivedHold ZFSNames.ValidHoldTag
                    ZFSNames.EntityNamecheck Example.fs (mkSendArg "@b" 2)
                    Example.job (start Example.receivedPool)))
    = [Example.receivedPool; p1; p2] /\
    holds_tag_at p1 "tank/fs@b" "zrepl_last_received_J_myjob" = true /\
    holds_tag_at p2 "tank/fs@b" "zrepl_last_received_J_myjob" = true /\
    carries "zrepl_last_received_J_myjob" p1 = true /\
    carries "zrepl_last_received_J_myjob" p2 = true.
Proof.
  destruct (MoveLastReceivedHold_no_gap ZFSNames.ValidHoldTag
              ZFSNames.EntityNamecheck Example.receivedPool Example.fs
              (mkSendArg "@b" 2) Example.job _ _
              ZFSNames_snapshot_path_has_no_hash receivedPool_wf eq_refl
              (surjective_pairing _)) as (_ & _ & H).
  destruct (H (mkProps 200 2) eq_refl eq_refl eq_refl ltac:(discriminate)
              eq_refl)
    as (p1 & p2 & _ & Hh & _ & _ & H1 & H2 & H3 & H4 & _).
  exists p1, p2. auto.
Defined.

(** On the example store the release moves the hold from [a] to [b]. *)
Lemma MoveLastReceivedHold_example :
  let w := snd (MoveLastReceivedHold ZFSNames.ValidHoldTag
                  ZFSNames.EntityNamecheck Example.fs (mkSendArg "@b" 2)
                  Example.job (start Example.receivedPool)) in
  map (fun p => (holds_tag_at p "tank/fs@a" "zrepl_last_received_J_myjob",
                 holds_tag_at p "tank/fs@b" "zrepl_last_received_J_myjob"))
      (history w)
  = [(true, false); (true, true); (false, true)].
Proof. vm_compute. reflexivity. Qed.

Lemma ReleaseStepAll_keeps_step_bookmarks_witness :
  filter is_bookmark
    (Datasets (now (snd (ReleaseStepAll ZFSNames.DatasetPathCheck
                           ZFSNames.ValidHoldTag ZFSNames.EntityNamecheck
                           Example.fs (mkSendArg "@5" 105) Example.job
                           (start Example.rollupPool)))))
  = filter is_bookmark (Datasets Example.rollupPool).
Proof.
  apply (ReleaseStepAll_keeps_step_bookmarks ZFSNames.DatasetPathCheck
           ZFSNames.ValidHoldTag ZFSNames.EntityNamecheck Example.rollupPool
           Example.fs (mkSendArg "@5" 105) Example.job
           (fst (ReleaseStepAll ZFSNames.DatasetPathCheck
                   ZFSNames.ValidHoldTag ZFSNames.EntityNamecheck
                   Example.fs (mkSendArg "@5" 105) Example.job
                   (start Example.rollupPool))));
    [reflexivity | apply surjective_pairing].
Defined.

(** The rollup on the example store: the call succeeds, the step holds of
    the job remain on the sixth snapshot only, the foreign hold stays, and
    the job's step bookmark of create_txg 1 is still there. *)
Lemma ReleaseStepAll_example :
  let run := ReleaseStepAll ZFSNames.DatasetPathCheck ZFSNames.ValidHoldTag
               ZFSNames.EntityNamecheck Example.fs (mkSendArg "@5" 105)
               Example.job (start Example.rollupPool) in
  fst run = Ok tt /\
  map Holds (filter is_snapshot (Datasets (now (snd run))))
  = [[]; ["zrepl_platformtest_2"]; []; []; []; ["zrepl_STEP_J_myjob"]] /\
  ZFSGetCreateTXGAndGuid (now (snd run))
    "tank/fs#zrepl_STEP_G_0000000000000065_J_myjob" = Ok (mkProps 1 101).
Proof. vm_compute. repeat split. Qed.


Lemma ReleaseStep_bookmark_not_destroyed_witness :
  now (snd (ReleaseStep ZFSNames.ValidHoldTag ZFSNames.EntityNamecheck
      Example.releaseAbsent
              Example.fs (mkSendArg "#other" 102) Example.job
              (start Example.steppedPool)))
  = Example.steppedPool.
Proof.
  apply (ReleaseStep_bookmark_not_destroyed ZFSNames.ValidHoldTag
           ZFSNames.EntityNamecheck Example.releaseAbsent Example.steppedPool Example.fs
           (mkSendArg "#other" 102) Example.job
           (fst (ReleaseStep ZFSNames.ValidHoldTag ZFSNames.EntityNamecheck
      Example.releaseAbsent
                   Example.fs (mkSendArg "#other" 102) Example.job
                   (start Example.steppedPool))));
    [reflexivity | reflexivity | apply surjective_pairing].
Defined.

(** [HoldStep] on the bookmark [other] creates the step bookmark
    [tank/fs#zrepl_STEP_G_0000000000000066_J_myjob]; the [ReleaseStep] that
    follows succeeds and the step bookmark is still there. *)
Lemma HoldStep_ReleaseStep_example :
  HoldStep ZFSNames.ValidHoldTag ZFSNames.EntityNamecheck Example.fs
    (mkSendArg "#other" 102) Example.job (start Example.rollupPool)
  = (Ok tt, mkWorld Example.steppedPool [Example.rollupPool]) /\
  fst (ReleaseStep ZFSNames.ValidHoldTag ZFSNames.EntityNamecheck
      Example.releaseAbsent Example.fs
         (mkSendArg "#other" 102) Example.job (start Example.steppedPool))
  = Ok tt /\
  ZFSGetCreateTXGAndGuid
    (now (snd (ReleaseStep ZFSNames.ValidHoldTag ZFSNames.EntityNamecheck
      Example.releaseAbsent
                 Example.fs (mkSendArg "#other" 102) Example.job
                 (start Example.steppedPool))))
    "tank/fs#zrepl_STEP_G_0000000000000066_J_myjob" = Ok (mkProps 2 102).
Proof. vm_compute. repeat split. Qed.

(** ** The further properties at concrete inputs *)

Lemma DecomposeVersionString_ToAbsPath_witness :
  DecomposeVersionString "tank/fs@a" = Ok ("tank/fs", Snapshot, "a").
Proof.
  apply (DecomposeVersionString_ToAbsPath (mkVersion Snapshot "a" 1 100 0)
           (mkDatasetPath "tank/fs"));
    [reflexivity | reflexivity | simpl; lia].
Defined.

Lemma DecomposeVersionString_Ok_witness :
  "tank/fs#b" = ToAbsPath (mkVersion Bookmark "b" 0 0 0)
                          (mkDatasetPath "tank/fs") /\
  no_delimiter "tank/fs" = true /\
  Bytes.contains "@" "b" = false /\
  3 <= String.length "tank/fs#b".
Proof.
  apply (DecomposeVersionString_Ok "tank/fs#b" "tank/fs" "b" Bookmark).
  reflexivity.
Defined.

Lemma ZFSListFilesystemVersions_filter_witness :
  ZFSListFilesystemVersions (ZFSListChan Example.cursorPool Example.fs)
    (Some (fun t _ => Ok (VersionType_eqb t Snapshot)))
  = Ok (filter (fun v => VersionType_eqb (Type_ v) Snapshot)
          [mkVersion Snapshot "a" 1 100 0;
           mkVersion Bookmark "zrepl_replication_cursor" 1 100 0;
           mkVersion Snapshot "b" 2 200 0]).
Proof.
  apply (ZFSListFilesystemVersions_filter
           (fun t _ => VersionType_eqb t Snapshot)
           (fun t _ => Ok (VersionType_eqb t Snapshot)));
    [intros t name; reflexivity | reflexivity].
Defined.

Lemma ZFSListFilesystemVersions_unexpected_EOF_witness :
  ZFSListFilesystemVersions
    (ZFSListChan Example.cursorPool Example.fs ++ [ListErrUnexpectedEOF])
    None
  = Ok [].
Proof.
  apply (ZFSListFilesystemVersions_unexpected_EOF None
           (ZFSListChan Example.cursorPool Example.fs) []
           [mkVersion Snapshot "a" 1 100 0;
            mkVersion Bookmark "zrepl_replication_cursor" 1 100 0;
            mkVersion Snapshot "b" 2 200 0]).
  reflexivity.
Defined.

Lemma MakeJobID_initialized_witness :
  JobID_String Example.job = Ok "myjob" /\
  MustValidate Example.job = Ok tt /\
  MustMakeJobID ZFSNames.DatasetPathCheck "myjob" = Ok Example.job /\
  (forall msg, StepHoldTag ZFSNames.ValidHoldTag Example.job <> Panic msg) /\
  (forall msg,
      LastReceivedHoldTag ZFSNames.ValidHoldTag Example.job <> Panic msg).
Proof.
  apply (MakeJobID_initialized ZFSNames.DatasetPathCheck
           ZFSNames.ValidHoldTag "myjob" Example.job).
  reflexivity.
Defined.

Lemma ParseStepHoldTag_StepHoldTag_witness :
  ParseStepHoldTag ZFSNames.DatasetPathCheck "zrepl_STEP_J_myjob"
  = Ok Example.job.
Proof.
  apply (ParseStepHoldTag_StepHoldTag ZFSNames.DatasetPathCheck
           ZFSNames.ValidHoldTag "myjob" Example.job "zrepl_STEP_J_myjob");
    reflexivity.
Defined.

Lemma ParseLastReceivedHoldTag_LastReceivedHoldTag_witness :
  ParseLastReceivedHoldTag ZFSNames.DatasetPathCheck
    "zrepl_last_received_J_myjob"
  = Ok Example.job.
Proof.
  apply (ParseLastReceivedHoldTag_LastReceivedHoldTag
           ZFSNames.DatasetPathCheck ZFSNames.ValidHoldTag "myjob"
           Example.job "zrepl_last_received_J_myjob");
    reflexivity.
Defined.

Lemma hold_tag_classes_disjoint_witness :
  is_err (ParseLastReceivedHoldTag ZFSNames.DatasetPathCheck
            "zrepl_STEP_J_myjob") = true.
Proof.
  apply (hold_tag_classes_disjoint ZFSNames.DatasetPathCheck
           "zrepl_STEP_J_myjob" Example.job).
  reflexivity.
Defined.

Lemma hold_tag_decoders_and_newlines_witness :
  ParseStepHoldTag ZFSNames.DatasetPathCheck
    ("zrepl_STEP_J_" ++ "myjob" ++ String Fmt.newline "rest")
  = ParseStepHoldTag ZFSNames.DatasetPathCheck ("zrepl_STEP_J_" ++ "myjob").
Proof.
  apply (hold_tag_decoders_and_newlines ZFSNames.DatasetPathCheck
           "myjob" "rest" "zrepl_last_received_J_myjob").
  reflexivity.
Defined.

Lemma encoders_injective_witness :
  StepBookmarkName ZFSNames.EntityNamecheck "tank/fs" 101 Example.job
  = StepBookmarkName ZFSNames.EntityNamecheck "zroot/fs" 101
      (mkJobID "myjob") /\
  (101 = 101)%N /\ Example.job = mkJobID "myjob".
Proof.
  split; [reflexivity|].
  apply (encoders_injective ZFSNames.ValidHoldTag ZFSNames.EntityNamecheck
           Example.job (mkJobID "myjob"))
    with (fs1 := "tank/fs") (fs2 := "zroot/fs")
         (name := "zrepl_STEP_G_0000000000000065_J_myjob");
    [reflexivity | reflexivity | reflexivity | reflexivity].
Defined.


Lemma ParseStepBookmarkName_Ok_witness :
  ZFSNames.EntityNamecheck "zrepl_STEP_G_0000000000000065_J_myjob x#b"
    EntityTypeBookmark = None /\
  (exists rest,
      "zrepl_STEP_G_0000000000000065_J_myjob x#b" = "zrepl_STEP_G_" ++ rest) /\
  MakeJobID ZFSNames.DatasetPathCheck "myjob" = Ok Example.job.
Proof.
  apply (ParseStepBookmarkName_Ok ZFSNames.DatasetPathCheck
           ZFSNames.EntityNamecheck
           "zrepl_STEP_G_0000000000000065_J_myjob x#b" 101 Example.job).
  reflexivity.
Defined.

Lemma StepBookmarkName_scans_back_witness :
  Fmt.Sscanf_stepBookmark "zrepl_STEP_G_0000000000000065_J_myjob"
  = Ok (101%N, "myjob").
Proof.
  apply (StepBookmarkName_scans_back ZFSNames.EntityNamecheck Example.fs 101
           Example.job "zrepl_STEP_G_0000000000000065_J_myjob");
    [reflexivity | reflexivity | reflexivity].
Defined.

Lemma engine_rejects_invalid_version_witness :
  HoldStep ZFSNames.ValidHoldTag ZFSNames.EntityNamecheck Example.fs
    (mkSendArg "@b" 7) Example.job (start Example.receivedPool)
  = (Err (ErrMsg "zfs send arg version: guid mismatch"),
     start Example.receivedPool).
Proof.
  apply (engine_rejects_invalid_version ZFSNames.DatasetPathCheck
           ZFSNames.ValidHoldTag ZFSNames.EntityNamecheck
           Example.releaseAbsent
           Example.receivedPool Example.fs (mkSendArg "@b" 7) Example.job).
  reflexivity.
Defined.

Lemma HoldStep_snapshot_idempotent_witness :
  exists tag,
    StepHoldTag ZFSNames.ValidHoldTag Example.job = Ok tag /\
    holds_tag_at
      (now (snd (HoldStep ZFSNames.ValidHoldTag ZFSNames.EntityNamecheck
                   Example.fs (mkSendArg "@b" 2) Example.job
                   (start Example.receivedPool))))
      "tank/fs@b" tag = true.
Proof.
  destruct (HoldStep_snapshot_idempotent ZFSNames.ValidHoldTag
              ZFSNames.EntityNamecheck Example.receivedPool Example.fs
              (mkSendArg "@b" 2) Example.job
              (snd (HoldStep ZFSNames.ValidHoldTag ZFSNames.EntityNamecheck
                      Example.fs (mkSendArg "@b" 2) Example.job
                      (start Example.receivedPool)))
              eq_refl eq_refl) as (tag & Ht & _ & Hh & _).
  exists tag. split; [exact Ht | exact Hh].
Defined.

Lemma ReleaseStep_snapshot_only_witness :
  map Version
    (Datasets
       (now (snd (ReleaseStep ZFSNames.ValidHoldTag ZFSNames.EntityNamecheck
      Example.releaseAbsent
                    Example.fs (mkSendArg "@5" 105) Example.job
                    (start Example.rollupPool)))))
  = map Version (Datasets Example.rollupPool).
Proof.
  destruct (ReleaseStep_snapshot_only ZFSNames.ValidHoldTag
              ZFSNames.EntityNamecheck Example.releaseAbsent
              Example.rollupPool Example.fs
              (mkSendArg "@5" 105) Example.job
              (snd (ReleaseStep ZFSNames.ValidHoldTag ZFSNames.EntityNamecheck
      Example.releaseAbsent
                      Example.fs (mkSendArg "@5" 105) Example.job
                      (start Example.rollupPool)))
              eq_refl eq_refl) as (tag & _ & _ & _ & _ & H).
  exact H.
Defined.

Lemma HoldStep_then_ReleaseStep_witness :
  exists w2,
    ReleaseStep ZFSNames.ValidHoldTag ZFSNames.EntityNamecheck
      Example.releaseAbsent Example.fs
      (mkSendArg "@b" 2) Example.job
      (start (now (snd (HoldStep ZFSNames.ValidHoldTag
                          ZFSNames.EntityNamecheck Example.fs
                          (mkSendArg "@b" 2) Example.job
                          (start Example.receivedPool)))))
    = (Ok tt, w2) /\
    forall path tag',
      holds_tag_at (now w2) path tag'
      = holds_tag_at Example.receivedPool path tag'.
Proof.
  apply (HoldStep_then_ReleaseStep ZFSNames.ValidHoldTag
           ZFSNames.EntityNamecheck Example.releaseAbsent
           Example.receivedPool Example.fs
           (mkSendArg "@b" 2) Example.job "zrepl_STEP_J_myjob");
    reflexivity.
Defined.

Lemma HoldStep_bookmark_idempotent_witness :
  exists bmname props,
    StepBookmarkName ZFSNames.EntityNamecheck Example.fs 102 Example.job
    = Ok bmname /\
    ZFSGetCreateTXGAndGuid Example.steppedPool (Example.fs ++ "#" ++ bmname)
    = Ok props /\
    PropGuid props = 102%N.
Proof.
  destruct (HoldStep_bookmark_idempotent ZFSNames.ValidHoldTag
              ZFSNames.EntityNamecheck Example.rollupPool Example.fs
              (mkSendArg "#other" 102) Example.job
              (mkWorld Example.steppedPool [Example.rollupPool])
              eq_refl eq_refl) as (bmname & props & H1 & H2 & H3 & _).
  exists bmname, props. split; [exact H1|]. split; [exact H2 | exact H3].
Defined.


Lemma SetReplicationCursor_cloning_not_supported_witness :
  SetReplicationCursor Example.fs (mkSendArg "#other" 1)
    (start (mkPool [Example.snapshot "a" 1 100 [];
                    Example.bookmark "other" 1 100] false))
  = (Err ErrBookmarkCloningNotSupported,
     start (mkPool [Example.snapshot "a" 1 100 [];
                    Example.bookmark "other" 1 100] false)).
Proof.
  destruct (SetReplicationCursor_cloning_not_supported
              (mkPool [Example.snapshot "a" 1 100 [];
                       Example.bookmark "other" 1 100] false)
              Example.fs (mkSendArg "#other" 1) (mkProps 100 1)
              (Example.bookmark "other" 1 100)
              ltac:(discriminate) eq_refl eq_refl eq_refl eq_refl)
    as [H _].
  apply H. reflexivity.
Defined.

Lemma SetReplicationCursor_idempotent_witness :
  SetReplicationCursor Example.fs (mkSendArg "@b" 2)
    (start (now (snd (SetReplicationCursor Example.fs (mkSendArg "@b" 2)
                        (start Example.cursorPool)))))
  = (Ok tt,
     start (now (snd (SetReplicationCursor Example.fs (mkSendArg "@b" 2)
                        (start Example.cursorPool))))).
Proof.
  apply (SetReplicationCursor_idempotent Example.cursorPool Example.fs
           (mkSendArg "@b" 2)).
  reflexivity.
Defined.

Lemma MoveLastReceivedHold_keeps_other_holds_witness :
  map Version
    (Datasets
       (now (snd (MoveLastReceivedHold ZFSNames.ValidHoldTag
                    ZFSNames.EntityNamecheck Example.fs (mkSendArg "@b" 2)
                    Example.job (start Example.receivedPool)))))
  = map Version (Datasets Example.receivedPool).
Proof.
  destruct (MoveLastReceivedHold_keeps_other_holds ZFSNames.ValidHoldTag
              ZFSNames.EntityNamecheck Example.receivedPool Example.fs
              (mkSendArg "@b" 2) Example.job _ _ (surjective_pairing _))
    as [H _].
  exact H.
Defined.

Lemma ReleaseStepAll_keeps_other_holds_witness :
  holds_tag_at
    (now (snd (ReleaseStepAll ZFSNames.DatasetPathCheck ZFSNames.ValidHoldTag
                 ZFSNames.EntityNamecheck Example.fs (mkSendArg "@5" 105)
                 Example.job (start Example.rollupPool))))
    "tank/fs@2" "zrepl_platformtest_2"
  = holds_tag_at Example.rollupPool "tank/fs@2" "zrepl_platformtest_2".
Proof.
  apply (ReleaseStepAll_keeps_other_holds ZFSNames.DatasetPathCheck
           ZFSNames.ValidHoldTag ZFSNames.EntityNamecheck Example.rollupPool
           Example.fs (mkSendArg "@5" 105) Example.job _ _
           (surjective_pairing _) "zrepl_STEP_J_myjob" eq_refl).
  discriminate.
Defined.

Lemma ListLastReceivedAll_spec_witness :
  In (mkLastReceivedHold "tank/fs" "a" "zrepl_last_received_J_myjob"
        Example.job)
     [mkLastReceivedHold "tank/fs" "a" "zrepl_last_received_J_myjob"
        Example.job] <->
  exists fs fsvs v holds,
    In fs [mkDatasetPath "tank/fs"] /\
    ZFSListFilesystemVersions
      (ZFSListChan Example.receivedPool (ToString fs)) None = Ok fsvs /\
    In v fsvs /\ Type_ v = Snapshot /\
    ZFSHolds Example.receivedPool (ToString fs) (Name v) = Ok holds /\
    In "zrepl_last_received_J_myjob" holds /\
    ParseLastReceivedHoldTag ZFSNames.DatasetPathCheck
      "zrepl_last_received_J_myjob" = Ok Example.job /\
    "tank/fs" = ToString fs /\ "a" = Name v.
Proof.
  apply (ListLastReceivedAll_spec ZFSNames.DatasetPathCheck
           Example.receivedPool [mkDatasetPath "tank/fs"]
           [mkLastReceivedHold "tank/fs" "a" "zrepl_last_received_J_myjob"
              Example.job]
           eq_refl eq_refl
           (mkLastReceivedHold "tank/fs" "a" "zrepl_last_received_J_myjob"
              Example.job)).
Defined.

Lemma ListStepAll_spec_witness :
  forallb (fun h => String.eqb (sh_FS h) "tank/fs")
    [mkStepHold "tank/fs" "1" Example.job;
     mkStepHold "tank/fs" "3" Example.job;
     mkStepHold "tank/fs" "5" Example.job;
     mkStepHold "tank/fs" "6" Example.job] = true /\
  (In (mkStepHold "tank/fs" "3" Example.job)
      [mkStepHold "tank/fs" "1" Example.job;
       mkStepHold "tank/fs" "3" Example.job;
       mkStepHold "tank/fs" "5" Example.job;
       mkStepHold "tank/fs" "6" Example.job] <->
   exists fs fsvs v holds tag,
     In fs [mkDatasetPath "tank/fs"] /\
     ZFSListFilesystemVersions
       (ZFSListChan Example.rollupPool (ToString fs)) None = Ok fsvs /\
     In v fsvs /\ Type_ v = Snapshot /\
     ZFSHolds Example.rollupPool (ToString fs) (Name v) = Ok holds /\
     In tag holds /\
     ParseStepHoldTag ZFSNames.DatasetPathCheck tag = Ok Example.job /\
     "tank/fs" = ToString fs /\ "3" = Name v).
Proof.
  split; [reflexivity|].
  destruct (ListStepAll_spec ZFSNames.DatasetPathCheck
              ZFSNames.EntityNamecheck Example.rollupPool
              [mkDatasetPath "tank/fs"]
              (mkListStepAllOutput []
                 [mkStepHold "tank/fs" "1" Example.job;
                  mkStepHold "tank/fs" "3" Example.job;
                  mkStepHold "tank/fs" "5" Example.job;
                  mkStepHold "tank/fs" "6" Example.job])
              eq_refl eq_refl) as [H _].
  exact (H (mkStepHold "tank/fs" "3" Example.job)).
Defined.

Lemma ListStepAll_step_bookmarks_witness :
  starts_with_z "zrepl_STEP_G_0000000000000065_J_myjob x" = true.
Proof.
  apply (ListStepAll_step_bookmarks ZFSNames.DatasetPathCheck
           ZFSNames.EntityNamecheck
           (mkPool [mkDataset "zrepl_STEP_G_0000000000000065_J_myjob x"
                      (mkVersion Bookmark "b" 101 1 0) []] true)
           (mkListStepAllOutput
              [mkStepBookmark "zrepl_STEP_G_0000000000000065_J_myjob x" "b"
                 101 Example.job] [])
           (mkStepBookmark "zrepl_STEP_G_0000000000000065_J_myjob x" "b"
              101 Example.job));
    [reflexivity | left; reflexivity].
Defined.

Lemma cursorPool_wf : wf_pool Example.cursorPool.
Proof.
  split.
  - intros d [<-|[<-|[<-|[]]]]; reflexivity.
  - intros d1 d2 [<-|[<-|[<-|[]]]] [<-|[<-|[<-|[]]]] _ H;
      try reflexivity; discriminate.
Qed.

Lemma cursorPool_listable (d : Dataset) :
  In d (Datasets Example.cursorPool) -> listable d = true.
Proof.
  intros [<-|[<-|[<-|[]]]]; reflexivity.
Qed.

Lemma cursorPool_NoDup : NoDup (map AbsPath (Datasets Example.cursorPool)).
Proof.
  repeat constructor; cbn; intros H;
    repeat (destruct H as [H|H]; [discriminate|]); exact H.
Qed.

Lemma ZFSListFilesystemVersions_ZFSListChan_witness :
  ZFSListFilesystemVersions (ZFSListChan Example.cursorPool Example.fs) None
  = Ok [mkVersion Snapshot "a" 1 100 0;
        mkVersion Bookmark "zrepl_replication_cursor" 1 100 0;
        mkVersion Snapshot "b" 2 200 0].
Proof.
  apply (ZFSListFilesystemVersions_ZFSListChan Example.cursorPool Example.fs).
  intros d Hd _. now apply cursorPool_listable.
Defined.

Lemma GetReplicationCursor_lookup_witness :
  GetReplicationCursor (ZFSListChan Example.cursorPool Example.fs)
  = Ok (Some (mkVersion Bookmark "zrepl_replication_cursor" 1 100 0)).
Proof.
  apply (GetReplicationCursor_lookup Example.cursorPool Example.fs eq_refl
           cursorPool_listable cursorPool_NoDup).
Defined.

Lemma SetReplicationCursor_then_GetReplicationCursor_witness :
  exists snapProps bm,
    ZFSGetCreateTXGAndGuid
      (now (snd (SetReplicationCursor Example.fs (mkSendArg "@b" 2)
                   (start Example.cursorPool))))
      "tank/fs@b" = Ok snapProps /\
    GetReplicationCursor
      (ZFSListChan
         (now (snd (SetReplicationCursor Example.fs (mkSendArg "@b" 2)
                      (start Example.cursorPool)))) Example.fs)
    = Ok (Some bm) /\
    CreateTXG bm = PropCreateTXG snapProps /\
    Guid bm = PropGuid snapProps.
Proof.
  destruct (SetReplicationCursor_then_GetReplicationCursor
              Example.cursorPool Example.fs (mkSendArg "@b" 2)
              (snd (SetReplicationCursor Example.fs (mkSendArg "@b" 2)
                      (start Example.cursorPool)))
              cursorPool_wf eq_refl cursorPool_listable cursorPool_NoDup
              eq_refl)
    as (snapProps & bm & H1 & H2 & H3 & H4 & _).
  exists snapProps, bm. auto.
Defined.

